(** * FBX to MDL conversion service: rate limiter, upload validation,
      conversion pipeline and job registry.

    Shallow embedding of [backend/utils.py], [backend/fbx_processor.py]
    and [backend/app.py].  Clock readings ([time.time()],
    [datetime.now()]) are integers counting clock ticks; a time window
    or a retention period is a number of ticks. *)

From Stdlib Require Import ZArith QArith String Ascii List Lia Bool.
From stdpp Require Import gmap strings list pretty.
Import ListNotations.
Open Scope string_scope.
Open Scope list_scope.
Open Scope Z_scope.

(** ** utils.py: RateLimiter *)

Module RateLimiter.

(** [self.max_requests], [self.time_window], [self.requests]
    (a [defaultdict(list)]). *)
Record t := mk {
  max_requests : Z;
  time_window : Z;
  requests : gmap string (list Z)
}.

(** [RateLimiter()] with the default arguments. *)
Definition init (max_requests time_window : Z) : t :=
  mk max_requests time_window ∅.

(** Reading [self.requests[client_ip]] of a [defaultdict(list)]: a
    missing key reads as the empty list (and is created). *)
Definition get_list (client_ip : string) (reqs : gmap string (list Z)) : list Z :=
  default [] (reqs !! client_ip).

Definition touch (client_ip : string) (reqs : gmap string (list Z))
  : gmap string (list Z) :=
  <[client_ip := get_list client_ip reqs]> reqs.

(** The comprehension
    [[t for t in self.requests[ip] if current_time - t < self.time_window]]. *)
Definition clean (current_time window : Z) (l : list Z) : list Z :=
  List.filter (fun req_time => current_time - req_time <? window) l.

Definition default_limiter : t := init 5 3600.

Definition set_requests (rl : t) (reqs : gmap string (list Z)) : t :=
  mk (max_requests rl) (time_window rl) reqs.

Definition is_allowed (current_time : Z) (client_ip : string) (rl : t) : bool * t :=
  let kept := clean current_time (time_window rl) (get_list client_ip (requests rl)) in
  if Z.of_nat (length kept) <? max_requests rl
  then (true, set_requests rl (<[client_ip := kept ++ [current_time]]> (requests rl)))
  else (false, set_requests rl (<[client_ip := kept]> (requests rl))).

Definition get_remaining_requests (current_time : Z) (client_ip : string) (rl : t)
  : Z * t :=
  let kept := clean current_time (time_window rl) (get_list client_ip (requests rl)) in
  (Z.max 0 (max_requests rl - Z.of_nat (length kept)),
   set_requests rl (<[client_ip := kept]> (requests rl))).

(** [min] of a non-empty list. *)
Definition list_min (x : Z) (l : list Z) : Z := fold_left Z.min l x.

(** [get_reset_time] does not read the clock. *)
Definition get_reset_time (client_ip : string) (rl : t) : Z * t :=
  let rl' := set_requests rl (touch client_ip (requests rl)) in
  match get_list client_ip (requests rl) with
  | [] => (0, rl')
  | x :: l => (list_min x l + time_window rl, rl')
  end.

(** A history of calls on one limiter, each made at a clock reading. *)
Inductive call :=
| Allowed (client_ip : string)
| Remaining (client_ip : string)
| ResetTime (client_ip : string).

Definition step (rl : t) (ev : Z * call) : bool * t :=
  match ev with
  | (now, Allowed ip) => is_allowed now ip rl
  | (now, Remaining ip) => (false, snd (get_remaining_requests now ip rl))
  | (now, ResetTime ip) => (false, snd (get_reset_time ip rl))
  end.

Definition is_admission_of (client_ip : string) (c : call) : bool :=
  match c with
  | Allowed ip => String.eqb ip client_ip
  | _ => false
  end.

(** Runs the calls in order; returns the final limiter and the clock
    readings at which [is_allowed client_ip] answered [True]. *)
Fixpoint run (client_ip : string) (rl : t) (evs : list (Z * call)) : t * list Z :=
  match evs with
  | [] => (rl, [])
  | ev :: evs' =>
      let '(ok, rl') := step rl ev in
      let '(rl'', adm) := run client_ip rl' evs' in
      (rl'', if ok && is_admission_of client_ip (snd ev) then fst ev :: adm else adm)
  end.

(** The clock never goes back between two calls. *)
Fixpoint clock_monotone (last : Z) (evs : list (Z * call)) : Prop :=
  match evs with
  | [] => True
  | ev :: evs' => last <= fst ev /\ clock_monotone (fst ev) evs'
  end.

(** Admissions inside the half-open interval [[a, a + window)]. *)
Definition in_interval (a window : Z) (x : Z) : bool :=
  (a <=? x) && (x <? a + window).

(** Six uploads of one client inside a minute. *)
Definition six_uploads : list (Z * call) :=
  [(0, Allowed "10.0.0.1"); (10, Allowed "10.0.0.1"); (20, Allowed "10.0.0.1");
   (30, Allowed "10.0.0.1"); (40, Allowed "10.0.0.1"); (50, Allowed "10.0.0.1")].

End RateLimiter.

(** ** Python strings and [os.path] (POSIX flavour) *)

Module Py.

(** The newline and the double quote, which a literal cannot hold. *)
Definition nl : string := String (ascii_of_nat 10) EmptyString.
Definition dq : string := String (ascii_of_nat 34) EmptyString.

(** [s[n:]] and [s[:n]]. *)
Fixpoint drop (n : nat) (s : string) : string :=
  match n, s with
  | O, _ => s
  | S n', EmptyString => EmptyString
  | S n', String _ s' => drop n' s'
  end.

Fixpoint take (n : nat) (s : string) : string :=
  match n, s with
  | O, _ => EmptyString
  | S n', EmptyString => EmptyString
  | S n', String c s' => String c (take n' s')
  end.

(** [s.startswith(p)]. *)
Definition startswith (s p : string) : bool := String.prefix p s.

(** [p in s]. *)
Fixpoint contains (p s : string) : bool :=
  String.prefix p s ||
  match s with
  | EmptyString => false
  | String _ s' => contains p s'
  end.

(** [s.endswith(suffix)]. *)
Definition endswith (s suffix : string) : bool :=
  (String.length suffix <=? String.length s)%nat &&
  String.eqb (drop (String.length s - String.length suffix) s) suffix.

(** [s.rfind(c)] for a one-character [c]: the highest index, or -1. *)
Fixpoint rfind (c : ascii) (s : string) : Z :=
  match s with
  | EmptyString => -1
  | String a s' =>
      let r := rfind c s' in
      if 0 <=? r then r + 1 else if Ascii.eqb a c then 0 else -1
  end.

(** [s.lower()]: ASCII letters only. *)
Definition lower_ascii (a : ascii) : ascii :=
  let n := nat_of_ascii a in
  if ((65 <=? n) && (n <=? 90))%nat then ascii_of_nat (n + 32) else a.

Fixpoint lower (s : string) : string :=
  match s with
  | EmptyString => EmptyString
  | String a s' => String (lower_ascii a) (lower s')
  end.

(** [posixpath.basename]. *)
Definition basename (p : string) : string :=
  let i := rfind "/" p + 1 in
  drop (Z.to_nat i) p.

(** [posixpath.dirname]: the head, with trailing slashes stripped unless
    it consists of slashes only. *)
Fixpoint rstrip_slash_rev (r : list ascii) : list ascii :=
  match r with
  | c :: r' => if Ascii.eqb c "/" then rstrip_slash_rev r' else r
  | [] => []
  end.

Definition all_slashes (s : string) : bool :=
  forallb (fun c => Ascii.eqb c "/") (list_ascii_of_string s).

Definition dirname (p : string) : string :=
  let i := rfind "/" p + 1 in
  let head := take (Z.to_nat i) p in
  if (negb (String.eqb head EmptyString)) && negb (all_slashes head)
  then string_of_list_ascii (rev (rstrip_slash_rev (rev (list_ascii_of_string head))))
  else head.

(** [posixpath.join] of two components. *)
Definition join (a b : string) : string :=
  if startswith b "/" then b
  else if String.eqb a EmptyString || endswith a "/" then a +:+ b
  else a +:+ "/" +:+ b.

(** The loop of [genericpath._splitext] that skips leading dots: is
    there an index in [[i, j)] whose character is not a dot? *)
Definition has_non_dot (p : string) (i j : Z) : bool :=
  existsb (fun c => negb (Ascii.eqb c "."))
          (list_ascii_of_string (take (Z.to_nat (j - i)) (drop (Z.to_nat i) p))).

(** [posixpath.splitext]. *)
Definition splitext (p : string) : string * string :=
  let sepIndex := rfind "/" p in
  let dotIndex := rfind "." p in
  if (sepIndex <? dotIndex) && has_non_dot p (sepIndex + 1) dotIndex
  then (take (Z.to_nat dotIndex) p, drop (Z.to_nat dotIndex) p)
  else (p, EmptyString).

(** Truth value of an optional string ([None] and [''] are false). *)
Definition truthy (o : option string) : bool :=
  match o with
  | Some s => negb (String.eqb s EmptyString)
  | None => false
  end.

End Py.

(** ** utils.py: SecurityValidator *)

Module SecurityValidator.
Import Py.

(** A [bytes] object: a sequence of 8-bit characters. *)
Abbreviation bytes := string (only parsing).

(** The uploaded file handle: its name, the bytes of its stream and the
    read position of the stream. *)
Record FileStorage := mkFile {
  filename : string;
  data : bytes;
  position : nat
}.

(** [file.seek(n)] and [file.read()]. *)
Definition seek (n : nat) (file : FileStorage) : FileStorage :=
  mkFile (filename file) (data file) n.

Definition read (file : FileStorage) : bytes * FileStorage :=
  (drop (position file) (data file),
   mkFile (filename file) (data file)
          (Nat.max (position file) (String.length (data file)))).

Definition allowed_extensions : list string := [".fbx"; ".FBX"].
Definition max_file_size : Z := 100 * 1024 * 1024.
Definition min_file_size : Z := 1024.

Definition dangerous_patterns : list bytes :=
  ["<script"; "javascript:"; "vbscript:"; "data:text/html"; "<?php"; "<%";
   "exec("; "system("; "shell_exec("; "passthru("; "eval("; "assert(";
   "file_get_contents("; "file_put_contents("; "fopen("; "fwrite(";
   "include("; "require("].

Definition mem_string (s : string) (l : list string) : bool :=
  existsb (String.eqb s) l.

Section Validator.

(** The library calls of the validator: [magic.from_buffer(content,
    mime=True)] ([None] when it raises) and
    [content.decode('utf-8', errors='ignore')]. *)
Variable magic_from_buffer : bytes -> option string.
Variable decode_ignore : bytes -> string.

Definition _validate_extension (filename : string) : bool :=
  let ext := snd (splitext (lower filename)) in
  mem_string ext allowed_extensions.

Definition _validate_file_size (content : bytes) : bool :=
  let size := Z.of_nat (String.length content) in
  (min_file_size <=? size) && (size <=? max_file_size).

Definition _validate_mime_type (content : bytes) : bool :=
  match magic_from_buffer content with
  | Some mime_type =>
      mem_string mime_type
        ["application/octet-stream"; "application/x-fbx"; "model/fbx"; "application/fbx"]
      || startswith mime_type "application/"
  | None => true
  end.

Definition _validate_content_safety (content : bytes) : bool :=
  let content_lower := lower content in
  negb (existsb (fun pattern => contains pattern content_lower) dangerous_patterns).

Definition _validate_binary_fbx (content : bytes) : bool :=
  if (String.length content <? 32)%nat then false
  else if negb (startswith content "Kaydara FBX Binary") then false
  else if (String.length content <? 27)%nat then false
  else true.

Definition _validate_ascii_fbx (content : bytes) : bool :=
  let text_content := decode_ignore content in
  forallb (fun element => contains element text_content)
          ["FBXHeaderExtension"; "FBXVersion"; "Definitions"; "Objects"].

Definition _validate_fbx_structure (content : bytes) : bool :=
  if startswith content "Kaydara FBX Binary" then _validate_binary_fbx content
  else if startswith content "; FBX"
          || contains "FBXHeaderExtension" (take 1024 content)
  then _validate_ascii_fbx content
  else false.

(** The checks made on the bytes once they are read. *)
Definition content_checks (content : bytes) : bool :=
  _validate_file_size content &&
  _validate_mime_type content &&
  _validate_content_safety content &&
  _validate_fbx_structure content.

(** [validate_file]: the verdict and the handle as it is left. *)
Definition validate_file (file : FileStorage) : bool * FileStorage :=
  if String.eqb (filename file) EmptyString then (false, file)
  else if negb (_validate_extension (filename file)) then (false, file)
  else
    let file1 := seek 0 file in
    let '(content, file2) := read file1 in
    let file3 := seek 0 file2 in
    (content_checks content, file3).

End Validator.

(** Library calls for a plain ASCII upload: no MIME detection result
    other than [application/octet-stream], decoding is the identity. *)
Definition magic_octet (content : bytes) : option string :=
  Some "application/octet-stream".

Definition decode_ascii (content : bytes) : string := content.

End SecurityValidator.

(** ** fbx_processor.py: the build descriptor ([_generate_qc_file]) *)

Module QC.
Import Py.

(** [base_name = os.path.splitext(os.path.basename(fbx_path))[0]]. *)
Definition base_name (fbx_path : string) : string :=
  fst (splitext (basename fbx_path)).

(** [qc_path = os.path.join(output_dir, f"{base_name}.qc")]. *)
Definition qc_path (fbx_path output_dir : string) : string :=
  join output_dir (base_name fbx_path +:+ ".qc").

Definition is_ref (filename : string) : bool :=
  contains "_ref" filename || endswith filename "_ref.smd".

(** The loop over [smd_files]: the last file that matches becomes
    [ref_smd], the others are appended to [anim_smds]. *)
Fixpoint classify (smd_files : list string) (ref_smd : option string)
  (anim_smds : list string) : option string * list string :=
  match smd_files with
  | [] => (ref_smd, anim_smds)
  | smd_file :: rest =>
      let filename := basename smd_file in
      if is_ref filename
      then classify rest (Some filename) anim_smds
      else classify rest ref_smd (anim_smds ++ [filename])
  end.

(** [if not ref_smd and smd_files: ref_smd = os.path.basename(smd_files[0])]. *)
Definition pick_reference (smd_files : list string) : option string * list string :=
  let '(ref_smd, anim_smds) := classify smd_files None [] in
  match smd_files with
  | first :: _ =>
      if negb (truthy ref_smd) then (Some (basename first), anim_smds)
      else (ref_smd, anim_smds)
  | [] => (ref_smd, anim_smds)
  end.

Definition sequence_name (base anim_smd : string) : string :=
  let anim_name := fst (splitext anim_smd) in
  if startswith anim_name (base +:+ "_")
  then drop (String.length base + 1) anim_name
  else anim_name.

Definition body_line (bodygroup_name ref_smd : string) : string :=
  "$body " +:+ dq +:+ bodygroup_name +:+ dq +:+ " " +:+ dq +:+ ref_smd +:+ dq
  +:+ nl +:+ nl.

Definition sequence_line (name smd : string) : string :=
  "$sequence " +:+ dq +:+ name +:+ dq +:+ " " +:+ dq +:+ smd +:+ dq +:+ " fps 30" +:+ nl.

Definition header (base scale_text : string) : string :=
  "$modelname " +:+ dq +:+ base +:+ ".mdl" +:+ dq +:+ nl +:+
  "$cd " +:+ dq +:+ "." +:+ dq +:+ nl +:+
  "$cdtexture " +:+ dq +:+ "." +:+ dq +:+ nl +:+
  "$scale " +:+ scale_text +:+ nl +:+ nl.

Definition footer : string :=
  nl +:+
  "// GoldSrc compatibility settings" +:+ nl +:+
  "$flags 0" +:+ nl +:+
  "$origin 0 0 0" +:+ nl +:+
  "$eyeposition 0 0 0" +:+ nl +:+
  "$bbox 0 0 0 0 0 0" +:+ nl +:+
  "$cbox 0 0 0 0 0 0" +:+ nl +:+
  nl +:+ "// Texture settings" +:+ nl +:+
  "$texrendermode " +:+ dq +:+ "default.bmp" +:+ dq +:+ " masked" +:+ nl +:+
  "$texrendermode " +:+ dq +:+ "default" +:+ dq +:+ " masked" +:+ nl.

(** The [$body] part and the [$sequence] part, as lists of written
    strings. *)
Definition body_part (bodygroup_name : string) (ref_smd : option string) : list string :=
  match ref_smd with
  | Some r => if truthy ref_smd then [body_line bodygroup_name r] else []
  | None => []
  end.

Definition sequence_part (base : string) (ref_smd : option string)
  (anim_smds : list string) : list string :=
  match anim_smds with
  | _ :: _ => map (fun anim_smd => sequence_line (sequence_name base anim_smd) anim_smd)
                  anim_smds
  | [] =>
      match ref_smd with
      | Some r => if truthy ref_smd then [sequence_line "idle" r] else []
      | None => []
      end
  end.

Definition concat_strings (l : list string) : string :=
  fold_right String.append EmptyString l.

(** Everything written to the descriptor; [scale_text] is [str(scale)]. *)
Definition qc_text (fbx_path : string) (smd_files : list string)
  (scale_text bodygroup_name : string) : string :=
  let base := base_name fbx_path in
  let '(ref_smd, anim_smds) := pick_reference smd_files in
  header base scale_text +:+
  concat_strings (body_part bodygroup_name ref_smd) +:+
  concat_strings (sequence_part base ref_smd anim_smds) +:+
  footer.

End QC.

(** ** app.py: the job record *)

Module Job.

Inductive status := queued | processing | completed | failed.

Definition status_eqb (a b : status) : bool :=
  match a, b with
  | queued, queued | processing, processing
  | completed, completed | failed, failed => true
  | _, _ => false
  end.

(** [ConversionJob]. *)
Record t := mk {
  job_id : string;
  job_status : status;
  progress : Z;
  log : list string;
  result_file : option string;
  error_message : option string;
  created_at : Z
}.

(** [ConversionJob(job_id)], with [datetime.now()] read as [now]. *)
Definition new (job_id : string) (now : Z) : t :=
  mk job_id queued 0 [] None None now.

Definition set_status (s : status) (j : t) : t :=
  mk (job_id j) s (progress j) (log j) (result_file j) (error_message j) (created_at j).

Definition set_progress (p : Z) (j : t) : t :=
  mk (job_id j) (job_status j) p (log j) (result_file j) (error_message j) (created_at j).

Definition append_log (line : string) (j : t) : t :=
  mk (job_id j) (job_status j) (progress j) (log j ++ [line]) (result_file j)
     (error_message j) (created_at j).

Definition set_result_file (f : string) (j : t) : t :=
  mk (job_id j) (job_status j) (progress j) (log j) (Some f) (error_message j)
     (created_at j).

Definition set_error_message (e : string) (j : t) : t :=
  mk (job_id j) (job_status j) (progress j) (log j) (result_file j) (Some e)
     (created_at j).

End Job.

(** ** The world the service runs in: files, processes, faults *)

Module Sys.
Import Py.

(** Exceptions: [Exception] and its subclass [subprocess.TimeoutExpired]
    are caught by [except Exception]; a [BaseException] that is not an
    [Exception] is not. *)
Inductive exn_kind := Exception | TimeoutExpired | BaseException.

Record exn := mkExn { kind : exn_kind; message : string }.

Definition is_Exception (e : exn) : bool :=
  match kind e with
  | BaseException => false
  | _ => true
  end.

Definition is_TimeoutExpired (e : exn) : bool :=
  match kind e with
  | TimeoutExpired => true
  | _ => false
  end.

(** A Python [float]. *)
Inductive pyfloat := Finite (q : Q) | Inf (negative : bool) | NaN.

(** [x <= 0] and [x > 100]; every comparison with NaN is false. *)
Definition float_le_0 (x : pyfloat) : bool :=
  match x with
  | Finite q => Qle_bool q 0
  | Inf negative => negative
  | NaN => false
  end.

Definition float_gt_100 (x : pyfloat) : bool :=
  match x with
  | Finite q => negb (Qle_bool q 100)
  | Inf negative => negb negative
  | NaN => false
  end.

(** File contents: text or bytes, or a ZIP archive with its members. *)
#[warnings="-register-all"]
Inductive fdata := Text (s : string) | Archive (members : list (string * fdata)).

(** The file system: the directories and the files, in directory
    order. *)
Record FS := mkFS {
  dirs : list string;
  files : list (string * fdata)
}.

Definition is_dir (d : string) (fs : FS) : bool :=
  existsb (String.eqb d) (dirs fs).

Fixpoint lookup_file (p : string) (l : list (string * fdata)) : option fdata :=
  match l with
  | [] => None
  | (q, x) :: l' => if String.eqb p q then Some x else lookup_file p l'
  end.

Definition is_file (p : string) (fs : FS) : bool :=
  match lookup_file p (files fs) with
  | Some _ => true
  | None => false
  end.

(** [os.path.exists]. *)
Definition exists_path (p : string) (fs : FS) : bool :=
  is_dir p fs || is_file p fs.

Fixpoint store (p : string) (x : fdata) (l : list (string * fdata))
  : list (string * fdata) :=
  match l with
  | [] => [(p, x)]
  | (q, y) :: l' => if String.eqb p q then (q, x) :: l' else (q, y) :: store p x l'
  end.

Definition put_file (p : string) (x : fdata) (fs : FS) : FS :=
  mkFS (dirs fs) (store p x (files fs)).

Definition delete_file (p : string) (fs : FS) : FS :=
  mkFS (dirs fs) (List.filter (fun e => negb (String.eqb p (fst e))) (files fs)).

Definition add_dir (d : string) (fs : FS) : FS :=
  if is_dir d fs then fs else mkFS (dirs fs ++ [d]) (files fs).

(** [p] is [d] or lies below [d]. *)
Definition under (d p : string) : bool :=
  String.eqb p d || startswith p (d +:+ "/").

(** What [shutil.rmtree(d)] removes when [d] is a directory. *)
Definition rmtree_fs (d : string) (fs : FS) : FS :=
  if is_dir d fs
  then mkFS (List.filter (fun q => negb (under d q)) (dirs fs))
            (List.filter (fun e => negb (under d (fst e))) (files fs))
  else fs.

(** The names in [d], as [os.listdir] gives them. *)
Definition names_in (d : string) (fs : FS) : list string :=
  map basename (List.filter (fun p => String.eqb (dirname p) d) (map fst (files fs)))
  ++ map basename (List.filter (fun q => String.eqb (dirname q) d
                                         && negb (String.eqb q d)) (dirs fs)).

(** The operations that reach outside the process. *)
Inductive op :=
| OpMkdtemp (prefix : string)
| OpWrite (path : string)
| OpRun (cmd : list string) (cwd : string)
| OpListdir (dir : string)
| OpCopy (src dst : string)
| OpRmtree (dir : string)
| OpMakedirs (dir : string)
| OpRemove (path : string)
| OpZipOpen (path : string)
| OpZipWrite (path arcname : string)
| OpSave (path : string)
| OpThreadStart (job_id : string).

(** What is recorded of a run: the operations attempted and every
    value assigned to a job's [progress]. *)
Inductive event :=
| Did (o : op)
| Progress (job_id : string) (pct : Z).

(** A started worker thread: the arguments of [process_fbx_job]. *)
Record task := mkTask {
  task_job : string;
  task_path : string;
  task_scale : pyfloat;
  task_bodygroup : string
}.

Record World := mkWorld {
  fs : FS;
  jobs : gmap string Job.t;
  limiter : RateLimiter.t;
  threads : list task;
  trace : list event
}.

Definition set_fs (x : FS) (w : World) : World :=
  mkWorld x (jobs w) (limiter w) (threads w) (trace w).

Definition set_jobs (x : gmap string Job.t) (w : World) : World :=
  mkWorld (fs w) x (limiter w) (threads w) (trace w).

Definition set_limiter (x : RateLimiter.t) (w : World) : World :=
  mkWorld (fs w) (jobs w) x (threads w) (trace w).

Definition add_thread (x : task) (w : World) : World :=
  mkWorld (fs w) (jobs w) (limiter w) (threads w ++ [x]) (trace w).

Definition record (e : event) (w : World) : World :=
  mkWorld (fs w) (jobs w) (limiter w) (threads w) (trace w ++ [e]).

(** How a child process ends: it exits, the deadline passes, or it
    cannot be started. *)
Inductive proc_result :=
| Completed (returncode : Z) (stdout stderr : string)
| TimedOut
| NotStarted (e : exn).

(** Everything the service does not decide itself. *)
Record Env := mkEnv {
  (** [time.time()] and [datetime.now()], in seconds *)
  env_time : World -> Z;
  (** [datetime.now().strftime('%H:%M:%S')] *)
  env_hms : World -> string;
  (** [str(uuid.uuid4())] *)
  env_uuid : World -> string;
  (** [tempfile.gettempdir()] and the random part of a [mkdtemp] name *)
  env_tmpdir : string;
  env_random_name : World -> string;
  (** [subprocess.run]: how the process ends and the files it leaves *)
  env_run : list string -> string -> World -> proc_result * FS;
  (** a fault raised by an operation, e.g. a full disk *)
  env_fault : op -> World -> option exn;
  (** [magic.from_buffer] and [bytes.decode(errors='ignore')] *)
  env_magic : string -> option string;
  env_decode : string -> string;
  (** [werkzeug.utils.secure_filename] *)
  env_secure_filename : string -> string;
  (** [float(s)] ([None]: [ValueError]) and [str(x)] of a float *)
  env_float : string -> option pyfloat;
  env_str_float : pyfloat -> string;
  (** the text that [_create_blender_script] returns; the template
      substitutes nothing *)
  env_blender_script : string
}.

(** *** Computations that read and change the world and may raise *)

Inductive res (A : Type) := Ok (a : A) | Raise (e : exn).
Arguments Ok {A} a.
Arguments Raise {A} e.

Definition M (A : Type) : Type := World -> res A * World.

Definition ret {A} (a : A) : M A := fun w => (Ok a, w).

Definition raise {A} (e : exn) : M A := fun w => (Raise e, w).

Definition bind {A B} (m : M A) (k : A -> M B) : M B :=
  fun w =>
    match m w with
    | (Ok a, w') => k a w'
    | (Raise e, w') => (Raise e, w')
    end.

(** [try: m / except ...: h e], where [h e = None] when no clause
    matches [e]. *)
Definition try_except {A} (m : M A) (h : exn -> option (M A)) : M A :=
  fun w =>
    match m w with
    | (Ok a, w') => (Ok a, w')
    | (Raise e, w') =>
        match h e with
        | Some handler => handler w'
        | None => (Raise e, w')
        end
    end.

(** [try: m / finally: f]. *)
Definition try_finally {A} (m : M A) (f : M unit) : M A :=
  fun w =>
    match m w with
    | (r, w') =>
        match f w' with
        | (Ok _, w'') => (r, w'')
        | (Raise e, w'') => (Raise e, w'')
        end
    end.

(** [except Exception as e: h e]. *)
Definition on_Exception {A} (h : exn -> M A) (e : exn) : option (M A) :=
  if is_Exception e then Some (h e) else None.

Definition get : M World := fun w => (Ok w, w).

Definition modify (f : World -> World) : M unit := fun w => (Ok tt, f w).

End Sys.

(** ** The operations of the service on the world *)

Module IO.
Import Py Sys.

Declare Scope io_scope.
Delimit Scope io_scope with io.
Notation "x <- m ;; k" := (bind m (fun x => k))
  (at level 100, m at next level, right associativity) : io_scope.
Notation "m ;; k" := (bind m (fun _ => k))
  (at level 100, right associativity) : io_scope.
Open Scope io_scope.

Section WithEnv.
Variable env : Env.

(** Attempt [o]: it is recorded, and raises when the environment has a
    fault for it. *)
Definition perform (o : op) : M unit :=
  fun w =>
    let w' := record (Did o) w in
    match env_fault env o w with
    | Some e => (Raise e, w')
    | None => (Ok tt, w')
    end.

Definition OSError (text : string) : exn := mkExn Exception text.

(** [tempfile.mkdtemp(prefix=...)]. *)
Definition mkdtemp (prefix : string) : M string :=
  perform (OpMkdtemp prefix) ;;
  w <- get ;;
  let d := join (env_tmpdir env) (prefix +:+ env_random_name env w) in
  modify (fun w => set_fs (add_dir d (fs w)) w) ;;
  ret d.

(** [with open(path, 'w') as f: f.write(text)]. *)
Definition write_file (path : string) (x : fdata) : M unit :=
  perform (OpWrite path) ;;
  w <- get ;;
  if is_dir (dirname path) (fs w)
  then modify (fun w => set_fs (put_file path x (fs w)) w)
  else raise (OSError ("[Errno 2] No such file or directory: " +:+ path)).

(** [subprocess.run(cmd, cwd=cwd, capture_output=True, text=True,
    timeout=...)]. *)
Definition run_process (cmd : list string) (cwd : string) : M (Z * string * string) :=
  fun w =>
    let w1 := record (Did (OpRun cmd cwd)) w in
    let '(r, fs') := env_run env cmd cwd w in
    let w2 := set_fs fs' w1 in
    match r with
    | Completed rc out err => (Ok (rc, out, err), w2)
    | TimedOut => (Raise (mkExn TimeoutExpired "Command timed out"), w2)
    | NotStarted e => (Raise e, w2)
    end.

(** [os.listdir(d)]. *)
Definition listdir (d : string) : M (list string) :=
  perform (OpListdir d) ;;
  w <- get ;;
  if is_dir d (fs w) then ret (names_in d (fs w))
  else raise (OSError ("[Errno 2] No such file or directory: " +:+ d)).

(** [os.path.exists(p)]. *)
Definition path_exists (p : string) : M bool :=
  w <- get ;; ret (exists_path p (fs w)).

(** [shutil.copy2(src, dst)]. *)
Definition copy2 (src dst : string) : M unit :=
  perform (OpCopy src dst) ;;
  w <- get ;;
  match lookup_file src (files (fs w)) with
  | Some x =>
      if is_dir (dirname dst) (fs w)
      then modify (fun w => set_fs (put_file dst x (fs w)) w)
      else raise (OSError ("[Errno 2] No such file or directory: " +:+ dst))
  | None => raise (OSError ("[Errno 2] No such file or directory: " +:+ src))
  end.

(** [shutil.rmtree(d, ignore_errors=True)]: never raises. *)
Definition rmtree_ignore_errors (d : string) : M unit :=
  modify (fun w => set_fs (rmtree_fs d (fs w)) (record (Did (OpRmtree d)) w)).

(** [os.makedirs(d, exist_ok=True)]. *)
Definition makedirs (d : string) : M unit :=
  perform (OpMakedirs d) ;;
  modify (fun w => set_fs (add_dir d (fs w)) w).

(** [os.remove(p)]. *)
Definition remove (p : string) : M unit :=
  perform (OpRemove p) ;;
  w <- get ;;
  if is_file p (fs w)
  then modify (fun w => set_fs (delete_file p (fs w)) w)
  else raise (OSError ("[Errno 2] No such file or directory: " +:+ p)).

(** A [for] loop whose body may raise. *)
Fixpoint for_each {A} (l : list A) (body : A -> M unit) : M unit :=
  match l with
  | [] => ret tt
  | x :: l' => body x ;; for_each l' body
  end.

(** A [for] loop that appends to a list. *)
Fixpoint collect {A B} (l : list A) (body : A -> M (option B)) : M (list B) :=
  match l with
  | [] => ret []
  | x :: l' =>
      o <- body x ;;
      rest <- collect l' body ;;
      ret (match o with Some b => b :: rest | None => rest end)
  end.

End WithEnv.

End IO.

(** ** fbx_processor.py: FBXProcessor *)

Module FBXProcessor.
Import Py Sys IO.
Open Scope io_scope.

Definition blender_path : string := "blender".
Definition wine_path : string := "wine".
Definition studiomdl_path : string := "/usr/local/wine/cstrike/studiomdl.exe".

(** The dictionary that [convert_fbx_to_mdl] returns:
    [{'success': True, 'files': ..., 'message': ...}] or
    [{'success': False, 'error': ..., 'files': []}]. *)
Inductive result :=
| Success (files : list string) (message : string)
| Failure (error : string).

(** [progress_callback], or [None]. *)
Definition callback : Type := option (Z -> string -> M unit).

Definition report (progress_callback : callback) (pct : Z) (text : string) : M unit :=
  match progress_callback with
  | Some f => f pct text
  | None => ret tt
  end.

Definition Exception_ (text : string) : exn := mkExn Exception text.

(** [' '.join(cmd)]. *)
Fixpoint join_spaces (l : list string) : string :=
  match l with
  | [] => EmptyString
  | [x] => x
  | x :: l' => x +:+ " " +:+ join_spaces l'
  end.

Section WithEnv.
Variable env : Env.

Definition blender_cmd (script_path fbx_path output_dir : string) : list string :=
  [blender_path; "--background"; "--python"; script_path; "--"; fbx_path; output_dir].

(** The [.smd] paths found by the loop over [os.listdir(output_dir)]. *)
Definition smd_paths (output_dir : string) (names : list string) : list string :=
  map (join output_dir) (List.filter (fun file => endswith file ".smd") names).

(** The clauses [except subprocess.TimeoutExpired] and
    [except Exception as e] of a stage. *)
Definition stage_handlers {A} (timed_out wrapped : string) (e : exn) : option (M A) :=
  if is_TimeoutExpired e then Some (raise (Exception_ timed_out))
  else if is_Exception e then Some (raise (Exception_ (wrapped +:+ message e)))
  else None.

Definition _convert_fbx_to_smd (fbx_path output_dir : string) : M (list string) :=
  let script_path := join output_dir "convert_script.py" in
  write_file env script_path (Text (env_blender_script env)) ;;
  let cmd := blender_cmd script_path fbx_path output_dir in
  try_except
    (r <- run_process env cmd output_dir ;;
     let '(returncode, _, stderr) := r in
     if negb (returncode =? 0)
     then raise (Exception_ ("Blender conversion failed: " +:+ stderr))
     else
       names <- listdir env output_dir ;;
       let smd_files := smd_paths output_dir names in
       match smd_files with
       | [] => raise (Exception_ "No SMD files were generated")
       | _ :: _ => ret smd_files
       end)
    (stage_handlers "Blender conversion timed out" "Blender conversion error: ").

Definition _generate_qc_file (fbx_path : string) (smd_files : list string)
  (output_dir : string) (scale : pyfloat) (bodygroup_name : string) : M string :=
  let qc_path := QC.qc_path fbx_path output_dir in
  write_file env qc_path
    (Text (QC.qc_text fbx_path smd_files (env_str_float env scale) bodygroup_name)) ;;
  ret qc_path.

Definition wine_cmd (qc_file : string) : list string :=
  [wine_path; studiomdl_path; basename qc_file].

(** What is written to [compile.log]. *)
Definition compile_log_text (cmd : list string) (returncode : Z)
  (stdout stderr : string) : string :=
  "=== STUDIOMDL COMPILATION LOG ===" +:+ nl +:+
  "Command: " +:+ join_spaces cmd +:+ nl +:+
  "Return code: " +:+ pretty returncode +:+ nl +:+ nl +:+
  "=== STDOUT ===" +:+ nl +:+
  stdout +:+
  nl +:+ "=== STDERR ===" +:+ nl +:+
  stderr.

Definition possible_extensions : list string := [".mdl"; ".mdl.vtx"; ".phy"; ".vvd"].

Definition compile_log_path (output_dir : string) : string :=
  join output_dir "compile.log".

(** The end of [_compile_mdl]: the files the compiler has left, the
    log, and the test for the model itself. *)
Definition find_generated (qc_file output_dir log_path : string) : M (list string) :=
  let base_name := fst (splitext (basename qc_file)) in
  generated <- collect possible_extensions (fun ext =>
    let file_path := join output_dir (base_name +:+ ext) in
    ex <- path_exists file_path ;;
    ret (if ex then Some file_path else None)) ;;
  let generated_files := generated ++ [log_path] in
  if negb (existsb (fun f => endswith f ".mdl") generated_files)
  then raise (Exception_ "No MDL file was generated")
  else ret generated_files.

Definition _compile_mdl (qc_file output_dir : string) : M (list string) :=
  found <- path_exists studiomdl_path ;;
  if negb found
  then raise (Exception_ ("studiomdl.exe not found at " +:+ studiomdl_path))
  else
    let cmd := wine_cmd qc_file in
    try_except
      (r <- run_process env cmd output_dir ;;
       let '(returncode, stdout, stderr) := r in
       let log_path := compile_log_path output_dir in
       write_file env log_path (Text (compile_log_text cmd returncode stdout stderr)) ;;
       if negb (returncode =? 0)
       then raise (Exception_
                     "studiomdl compilation failed. Check compile.log for details.")
       else find_generated qc_file output_dir log_path)
      (stage_handlers "studiomdl compilation timed out"
                      "studiomdl compilation error: ").

(** The body of the [try] of [convert_fbx_to_mdl]. *)
Definition pipeline (fbx_path output_dir : string) (scale : pyfloat)
  (bodygroup_name : string) (progress_callback : callback) (temp_dir : string)
  : M result :=
  report progress_callback 10 "Converting FBX to SMD using Blender..." ;;
  smd_files <- _convert_fbx_to_smd fbx_path temp_dir ;;
  report progress_callback 40 "Generating QC file..." ;;
  qc_file <- _generate_qc_file fbx_path smd_files temp_dir scale bodygroup_name ;;
  report progress_callback 60 "Compiling MDL file..." ;;
  mdl_files <- _compile_mdl qc_file temp_dir ;;
  let result_files := smd_files ++ [qc_file] ++ mdl_files in
  report progress_callback 90 "Copying results..." ;;
  final_files <- collect result_files (fun file_path =>
    ex <- path_exists file_path ;;
    if ex
    then
      let dest_path := join output_dir (basename file_path) in
      copy2 env file_path dest_path ;;
      ret (Some dest_path)
    else ret None) ;;
  report progress_callback 100 "Conversion completed!" ;;
  ret (Success final_files "FBX converted to MDL successfully").

(** The [finally] clause: remove the scratch directory. *)
Definition cleanup (temp_dir : string) : M unit :=
  ex <- path_exists temp_dir ;;
  if negb (String.eqb temp_dir EmptyString) && ex
  then rmtree_ignore_errors temp_dir
  else ret tt.

Definition convert_fbx_to_mdl (fbx_path output_dir : string) (scale : pyfloat)
  (bodygroup_name : string) (progress_callback : callback) : M result :=
  temp_dir <- mkdtemp env "fbx_conversion_" ;;
  try_finally
    (try_except
       (pipeline fbx_path output_dir scale bodygroup_name progress_callback temp_dir)
       (on_Exception (fun e => ret (Failure (message e)))))
    (cleanup temp_dir).

End WithEnv.

End FBXProcessor.

(** ** app.py: the upload handler, the worker and the job registry *)

Module App.
Import Py Sys IO.
Open Scope io_scope.

Definition UPLOAD_FOLDER : string := "uploads".
Definition OUTPUT_FOLDER : string := "outputs".

(** [timedelta(hours=1)], in seconds. *)
Definition one_hour : Z := 3600.

(** What the handlers read of a request. *)
Record request := mkRequest {
  remote_addr : string;
  http_x_forwarded_for : option string;
  file_field : option SecurityValidator.FileStorage;
  form_scale : option string;
  form_bodygroup_name : option string
}.

(** The JSON bodies of the responses. *)
Inductive body :=
| ErrorBody (error : string)
| UploadBody (job_id message : string)
| StatusBody (job_id : string) (status : Job.status) (progress : Z)
    (log : list string) (error : option string) (has_result : bool).

Record response := mkResponse { code : Z; payload : body }.

Definition client_ip_of (req : request) : string :=
  default (remote_addr req) (http_x_forwarded_for req).

(** [l[-10:]]. *)
Definition last_ten {A} (l : list A) : list A :=
  List.skipn (length l - 10) l.

Section WithEnv.
Variable env : Env.

(** Assignments to the fields of the job object [job_id]. *)
Definition update_job (job_id : string) (f : Job.t -> Job.t) : M unit :=
  modify (fun w => set_jobs (alter f job_id (jobs w)) w).

Definition assign_progress (job_id : string) (pct : Z) : M unit :=
  modify (record (Progress job_id pct)) ;;
  update_job job_id (Job.set_progress pct).

(** [file.save(upload_path)]: the stream from its read position on. *)
Definition save (file : SecurityValidator.FileStorage) (upload_path : string) : M unit :=
  perform env (OpSave upload_path) ;;
  w <- get ;;
  if is_dir (dirname upload_path) (fs w)
  then modify (fun w => set_fs (put_file upload_path
                 (Text (drop (SecurityValidator.position file)
                             (SecurityValidator.data file))) (fs w)) w)
  else raise (OSError ("[Errno 2] No such file or directory: " +:+ upload_path)).

(** [threading.Thread(target=process_fbx_job, args=...).start()]. *)
Definition start_thread (t : task) : M unit :=
  perform env (OpThreadStart (task_job t)) ;;
  modify (add_thread t).

(** The part of [upload_file] after the scale is parsed. *)
Definition create_and_dispatch (file : SecurityValidator.FileStorage)
  (scale : pyfloat) (bodygroup_name : string) : M response :=
  w <- get ;;
  let job_id := env_uuid env w in
  let job := Job.new job_id (env_time env w) in
  modify (fun w => set_jobs (<[job_id := job]> (jobs w)) w) ;;
  let filename := env_secure_filename env (SecurityValidator.filename file) in
  let upload_path := join UPLOAD_FOLDER (job_id +:+ "_" +:+ filename) in
  save file upload_path ;;
  start_thread (mkTask job_id upload_path scale bodygroup_name) ;;
  ret (mkResponse 200
         (UploadBody job_id "File uploaded successfully. Processing started.")).

Definition upload_file (req : request) : M response :=
  try_except
    (w <- get ;;
     let client_ip := client_ip_of req in
     let '(allowed, rl) := RateLimiter.is_allowed (env_time env w) client_ip (limiter w) in
     modify (set_limiter rl) ;;
     if negb allowed
     then ret (mkResponse 429
                 (ErrorBody "Rate limit exceeded. Please wait before uploading again."))
     else
       match file_field req with
       | None => ret (mkResponse 400 (ErrorBody "No file provided"))
       | Some file =>
           if String.eqb (SecurityValidator.filename file) EmptyString
           then ret (mkResponse 400 (ErrorBody "No file selected"))
           else
             let '(valid, file) :=
               SecurityValidator.validate_file (env_magic env) (env_decode env) file in
             if negb valid
             then ret (mkResponse 400
                         (ErrorBody "Invalid file type or potentially malicious file"))
             else
               let scale := default "1.0" (form_scale req) in
               let bodygroup_name := default "default" (form_bodygroup_name req) in
               match env_float env scale with
               | None => ret (mkResponse 400 (ErrorBody "Invalid scale value"))
               | Some scale =>
                   if float_le_0 scale || float_gt_100 scale
                   then ret (mkResponse 400
                               (ErrorBody "Scale must be between 0 and 100"))
                   else create_and_dispatch file scale bodygroup_name
               end
       end)
    (on_Exception (fun e =>
       ret (mkResponse 500 (ErrorBody "Internal server error during upload")))).

(** [zipf.write(file_path, arcname)] on the archive at [zip_path]. *)
Definition zip_write (zip_path file_path arcname : string) : M unit :=
  perform env (OpZipWrite file_path arcname) ;;
  w <- get ;;
  let members :=
    match lookup_file zip_path (files (fs w)) with
    | Some (Archive ms) => ms
    | _ => []
    end in
  match lookup_file file_path (files (fs w)) with
  | Some x =>
      modify (fun w => set_fs (put_file zip_path (Archive (members ++ [(arcname, x)]))
                                 (fs w)) w)
  | None =>
      if is_dir file_path (fs w)
      then modify (fun w => set_fs (put_file zip_path
                     (Archive (members ++ [(arcname +:+ "/", Text EmptyString)]))
                     (fs w)) w)
      else raise (OSError ("[Errno 2] No such file or directory: " +:+ file_path))
  end.

Definition create_result_zip (result_files : list string)
  (zip_path original_fbx_path : string) : M unit :=
  perform env (OpZipOpen zip_path) ;;
  w <- get ;;
  if negb (is_dir (dirname zip_path) (fs w))
  then raise (OSError ("[Errno 2] No such file or directory: " +:+ zip_path))
  else
    modify (fun w => set_fs (put_file zip_path (Archive []) (fs w)) w) ;;
    for_each result_files (fun file_path =>
      ex <- path_exists file_path ;;
      if ex then zip_write zip_path file_path (basename file_path) else ret tt) ;;
    ex <- path_exists original_fbx_path ;;
    if ex
    then zip_write zip_path original_fbx_path
           ("original_" +:+ basename original_fbx_path)
    else ret tt.

(** The closure [progress_callback] of [process_fbx_job]. *)
Definition progress_callback (job_id : string) (pct : Z) (text : string) : M unit :=
  assign_progress job_id pct ;;
  w <- get ;;
  update_job job_id (Job.append_log ("[" +:+ env_hms env w +:+ "] " +:+ text)).

Definition mark_failed (job_id : string) (text log_line : string) : M unit :=
  update_job job_id (Job.set_status Job.failed) ;;
  update_job job_id (Job.set_error_message text) ;;
  update_job job_id (Job.append_log log_line).

(** The body of the [try] of [process_fbx_job]. *)
Definition job_body (job_id fbx_path : string) (scale : pyfloat)
  (bodygroup_name : string) : M unit :=
  update_job job_id (Job.set_status Job.processing) ;;
  update_job job_id (Job.append_log ("Starting FBX processing for job " +:+ job_id)) ;;
  let output_dir := join OUTPUT_FOLDER job_id in
  makedirs env output_dir ;;
  result <- FBXProcessor.convert_fbx_to_mdl env fbx_path output_dir scale bodygroup_name
              (Some (progress_callback job_id)) ;;
  match result with
  | FBXProcessor.Success files _ =>
      let zip_path := join output_dir (job_id +:+ "_result.zip") in
      create_result_zip files zip_path fbx_path ;;
      update_job job_id (Job.set_status Job.completed) ;;
      update_job job_id (Job.set_result_file zip_path) ;;
      assign_progress job_id 100 ;;
      update_job job_id (Job.append_log "Conversion completed successfully!")
  | FBXProcessor.Failure error =>
      mark_failed job_id error ("Conversion failed: " +:+ error)
  end.

(** The [finally] clause of [process_fbx_job]. *)
Definition remove_upload (fbx_path : string) : M unit :=
  try_except
    (ex <- path_exists fbx_path ;;
     if ex then remove env fbx_path else ret tt)
    (on_Exception (fun _ => ret tt)).

Definition process_fbx_job (job_id fbx_path : string) (scale : pyfloat)
  (bodygroup_name : string) : M unit :=
  w <- get ;;
  match jobs w !! job_id with
  | None => raise (mkExn Exception ("KeyError: " +:+ job_id))
  | Some _ =>
      try_finally
        (try_except
           (job_body job_id fbx_path scale bodygroup_name)
           (on_Exception (fun e =>
              mark_failed job_id (message e) ("Error: " +:+ message e))))
        (remove_upload fbx_path)
  end.

Definition cleanup_job (job_id : string) : M unit :=
  w <- get ;;
  match jobs w !! job_id with
  | None => ret tt
  | Some _ =>
      let output_dir := join OUTPUT_FOLDER job_id in
      ex <- path_exists output_dir ;;
      (if ex then rmtree_ignore_errors output_dir else ret tt) ;;
      modify (fun w => set_jobs (delete job_id (jobs w)) w)
  end.

Definition is_terminal (s : Job.status) : bool :=
  Job.status_eqb s Job.completed || Job.status_eqb s Job.failed.

Definition status_response (job : Job.t) : response :=
  mkResponse 200
    (StatusBody (Job.job_id job) (Job.job_status job) (Job.progress job)
       (last_ten (Job.log job)) (Job.error_message job)
       (match Job.result_file job with Some _ => true | None => false end)).

Definition get_job_status (job_id : string) : M response :=
  w <- get ;;
  match jobs w !! job_id with
  | None => ret (mkResponse 404 (ErrorBody "Job not found"))
  | Some job =>
      if is_terminal (Job.job_status job)
         && (Job.created_at job <? env_time env w - one_hour)
      then cleanup_job job_id ;; ret (mkResponse 404 (ErrorBody "Job expired"))
      else ret (status_response job)
  end.

(** One pass of the loop of [cleanup_old_jobs], after its sleep. *)
Definition sweep : M unit :=
  try_except
    (w <- get ;;
     let current_time := env_time env w in
     let jobs_to_remove :=
       map fst (List.filter (fun kv => one_hour <? current_time - Job.created_at (snd kv))
                            (map_to_list (jobs w))) in
     for_each jobs_to_remove cleanup_job)
    (on_Exception (fun _ => ret tt)).

End WithEnv.

End App.

(** ** utils.py: SandboxValidator *)

Module SandboxValidator.
Import Py.

Definition safe_chars : string :=
  "abcdefghijklmnopqrstuvwxyzABCDEFGHIJKLMNOPQRSTUVWXYZ0123456789._-".

(** [c in safe_chars]. *)
Definition is_safe (c : ascii) : bool :=
  existsb (Ascii.eqb c) (list_ascii_of_string safe_chars).

Definition backslash : string := String (ascii_of_nat 92) EmptyString.

Definition validate_filename (filename : string) : bool :=
  if contains ".." filename || contains "/" filename || contains backslash filename
  then false
  else if negb (forallb is_safe (list_ascii_of_string filename)) then false
  else if (255 <? String.length filename)%nat then false
  else true.

(** [''.join(c if c in safe_chars else '_' for c in filename)]. *)
Fixpoint replace_unsafe (s : string) : string :=
  match s with
  | EmptyString => EmptyString
  | String c s' => String (if is_safe c then c else "_"%char) (replace_unsafe s')
  end.

Definition sanitize_filename (filename : string) : string :=
  let filename := basename filename in
  let sanitized := replace_unsafe filename in
  let sanitized :=
    if startswith sanitized "." then "file_" +:+ sanitized else sanitized in
  if (100 <? String.length sanitized)%nat
  then
    let '(name, ext) := splitext sanitized in
    take 95 name +:+ ext
  else sanitized.

End SandboxValidator.

(** ** fbx_processor.py: [validate_requirements] *)

Module Requirements.
Import Py Sys IO FBXProcessor.
Open Scope io_scope.

Section WithEnv.
Variable env : Env.

(** One tool check: [subprocess.run([tool, "--version"], ...)] inside
    [try: ... except: ...]; the bare [except] catches everything.  No
    working directory is given: the process runs in the current one,
    written ["."]. *)
Definition tool_errors (tool text : string) : M (list string) :=
  try_except
    (r <- run_process env [tool; "--version"] "." ;;
     let '(returncode, _, _) := r in
     ret (if negb (returncode =? 0) then [text] else []))
    (fun _ => Some (ret [text])).

Definition validate_requirements : M (bool * list string) :=
  blender <- tool_errors blender_path "Blender not found or not working" ;;
  wine <- tool_errors wine_path "Wine not found or not working" ;;
  found <- path_exists studiomdl_path ;;
  let errors :=
    blender ++ wine ++
    (if negb found then ["studiomdl.exe not found at " +:+ studiomdl_path] else []) in
  ret ((length errors =? 0)%nat, errors).

End WithEnv.

End Requirements.

(** ** app.py: download and health *)

Module Endpoints.
Import Py Sys IO.
Open Scope io_scope.

(** What [download_result] answers: a JSON error with its status, or
    the file sent as an attachment. *)
Inductive download :=
| DownloadError (code : Z) (error : string)
| Attachment (path download_name mimetype : string).

Definition download_result (job_id : string) : M download :=
  w <- get ;;
  match jobs w !! job_id with
  | None => ret (DownloadError 404 "Job not found")
  | Some job =>
      if negb (Job.status_eqb (Job.job_status job) Job.completed)
         || negb (truthy (Job.result_file job))
      then ret (DownloadError 404 "No result available")
      else
        match Job.result_file job with
        | None => ret (DownloadError 404 "No result available")
        | Some result_file =>
            ex <- path_exists result_file ;;
            if negb ex
            then ret (DownloadError 404 "Result file not found")
            else ret (Attachment result_file
                        ("converted_model_" +:+ job_id +:+ ".zip")
                        "application/zip")
        end
  end.

(** [health_check]: the numbers [active_jobs] and [total_jobs]. *)
Definition health_check : M (nat * nat) :=
  w <- get ;;
  let values := map snd (map_to_list (jobs w)) in
  ret (length (List.filter
                 (fun j => Job.status_eqb (Job.job_status j) Job.processing) values),
       length values).

End Endpoints.

(** ** Concrete environments and worlds *)

Module Scenario.
Import Py Sys.

(** A child process that behaves: Blender leaves a reference file and an
    idle clip in its working directory, the compiler leaves the model
    named after the descriptor. *)
Definition run_ok (cmd : list string) (cwd : string) (w : World) : proc_result * FS :=
  match cmd with
  | "blender" :: _ =>
      (Completed 0 "Conversion completed successfully!" EmptyString,
       put_file (join cwd "model_idle.smd") (Text "version 1")
         (put_file (join cwd "model_ref.smd") (Text "version 1") (fs w)))
  | ["wine"; _; qc] =>
      (Completed 0 "studiomdl done" EmptyString,
       put_file (join cwd (fst (splitext qc) +:+ ".mdl")) (Text "IDST") (fs w))
  | _ => (NotStarted (mkExn Exception "[Errno 2] No such file or directory"), fs w)
  end.

(** Blender exits with code 0 and leaves nothing. *)
Definition run_no_smd (cmd : list string) (cwd : string) (w : World) : proc_result * FS :=
  match cmd with
  | "blender" :: _ => (Completed 0 EmptyString EmptyString, fs w)
  | _ => run_ok cmd cwd w
  end.

(** The compiler does not finish in time. *)
Definition run_wine_timeout (cmd : list string) (cwd : string) (w : World)
  : proc_result * FS :=
  match cmd with
  | "wine" :: _ => (TimedOut, fs w)
  | _ => run_ok cmd cwd w
  end.

(** The compiler exits with code 1. *)
Definition run_wine_fails (cmd : list string) (cwd : string) (w : World)
  : proc_result * FS :=
  match cmd with
  | "wine" :: _ => (Completed 1 "compiling" "cannot open texture", fs w)
  | _ => run_ok cmd cwd w
  end.

(** Blender does not finish in time. *)
Definition run_stage1_timeout (cmd : list string) (cwd : string) (w : World)
  : proc_result * FS :=
  match cmd with
  | "blender" :: _ => (TimedOut, fs w)
  | _ => run_ok cmd cwd w
  end.

Definition no_fault (o : op) (w : World) : option exn := None.

Definition disk_full : exn := mkExn Exception "[Errno 28] No space left on device".

(** The disk is full when the result archive is opened. *)
Definition fault_on_zip (o : op) (w : World) : option exn :=
  match o with
  | OpZipOpen _ => Some disk_full
  | _ => None
  end.


(** The worker is interrupted during the first copy. *)
Definition interrupt : exn := mkExn BaseException "SystemExit".

Definition interrupt_on_copy (o : op) (w : World) : option exn :=
  match o with
  | OpCopy _ _ => Some interrupt
  | _ => None
  end.

Definition parse_float (s : string) : option pyfloat :=
  if String.eqb s "1.0" then Some (Finite 1)
  else if String.eqb s "0" then Some (Finite 0)
  else if String.eqb s "nan" then Some NaN
  else None.

Definition make_env (now : Z)
  (run : list string -> string -> World -> proc_result * FS)
  (fault : op -> World -> option exn) : Env :=
  mkEnv (fun _ => now) (fun _ => "12:00:00") (fun _ => "job-1")
        "/tmp" (fun _ => "k3x9")
        run fault
        SecurityValidator.magic_octet SecurityValidator.decode_ascii
        (fun s => s) parse_float (fun _ => "1.0")
        "import bpy".

Definition disk : FS :=
  mkFS ["/tmp"; "uploads"; "outputs"; "/usr/local/wine/cstrike"]
       [("/usr/local/wine/cstrike/studiomdl.exe", Text "MZ");
        ("uploads/job-1_model.fbx", Text "Kaydara FBX Binary")].

(** A world with no job. *)
Definition empty_world : World :=
  mkWorld disk ∅ RateLimiter.default_limiter [] [].

(** A world where job [job-1] was created at time 0 and its upload is
    saved. *)
Definition world_with_job : World :=
  mkWorld disk {[ "job-1" := Job.new "job-1" 0 ]} RateLimiter.default_limiter [] [].

(** The same job, picked up by its worker. *)
Definition world_processing : World :=
  mkWorld disk {[ "job-1" := Job.set_status Job.processing (Job.new "job-1" 0) ]}
          RateLimiter.default_limiter [] [].

(** A world where the scratch directory [/tmp/c] holds a descriptor. *)
Definition scratch_world : World :=
  mkWorld (mkFS (dirs disk ++ ["/tmp/c"])
                (files disk ++ [("/tmp/c/model.qc", Text "$modelname")]))
          ∅ RateLimiter.default_limiter [] [].

(** A binary FBX upload of 1 KiB. *)
Fixpoint padding (n : nat) : string :=
  match n with
  | O => EmptyString
  | S n' => String "0" (padding n')
  end.

Definition good_file : SecurityValidator.FileStorage :=
  SecurityValidator.mkFile "model.fbx" ("Kaydara FBX Binary" +:+ padding 1024) 0.

Definition good_request : App.request :=
  App.mkRequest "10.0.0.1" None (Some good_file) None None.

Definition request_without_file : App.request :=
  App.mkRequest "10.0.0.1" None None None None.

End Scenario.

(** ** Notions used in the proofs *)

Module Notions.
Import RateLimiter.

(** No stored list ever holds more than [max_requests] timestamps. *)
Definition bounded (N W : Z) (rl : t) : Prop :=
  max_requests rl = N /\ time_window rl = W /\
  forall ip, Z.of_nat (length (get_list ip (requests rl))) <= Z.max 0 N.

(** The stored list of client [c] agrees, after any later cleaning,
    with the admissions [A] made so far. *)
Definition tracks (c : string) (W last : Z) (A : list Z) (rl : t) : Prop :=
  forall now, last <= now ->
    clean now W (get_list c (requests rl)) = clean now W A.

(** The admissions of [c] after one more call. *)
Definition admitted_by (c : string) (rl : t) (ev : Z * call) (A : list Z) : list Z :=
  if fst (step rl ev) && is_admission_of c (snd ev) then A ++ [fst ev] else A.

End Notions.

Module StringNotions.


End StringNotions.

Module AppNotions.
Import Sys.

(** The request is turned away by one of the checks that follow the
    rate limiter: no file, an empty file name, a file that does not
    validate, a scale that does not parse or is out of range. *)
Definition rejected_after_admission (env : Env) (req : App.request) : bool :=
  match App.file_field req with
  | None => true
  | Some file =>
      String.eqb (SecurityValidator.filename file) EmptyString
      || negb (fst (SecurityValidator.validate_file (env_magic env) (env_decode env) file))
      || match env_float env (default "1.0" (App.form_scale req)) with
         | None => true
         | Some scale => float_le_0 scale || float_gt_100 scale
         end
  end.

End AppNotions.

Module PipelineNotions.
Import Py Sys.

(** The name that [mkdtemp] picks when [convert_fbx_to_mdl] is called
    in world [w], and the world once the directory is made. *)
Definition scratch_dir (env : Env) (w : World) : string :=
  join (env_tmpdir env)
       ("fbx_conversion_" +:+
        env_random_name env (record (Did (OpMkdtemp "fbx_conversion_")) w)).

Definition after_mkdtemp (env : Env) (w : World) : World :=
  let w1 := record (Did (OpMkdtemp "fbx_conversion_")) w in
  set_fs (add_dir (scratch_dir env w) (fs w1)) w1.

Definition script_path (d : string) : string := join d "convert_script.py".



End PipelineNotions.

Module WorkerNotions.
Import Sys.

(** The values assigned to the [progress] of job [job_id], oldest
    first. *)
Fixpoint progress_values (job_id : string) (t : list event) : list Z :=
  match t with
  | [] => []
  | Progress j pct :: t' =>
      if String.eqb j job_id then pct :: progress_values job_id t'
      else progress_values job_id t'
  | Did _ :: t' => progress_values job_id t'
  end.

(** A step that touches no job and assigns no progress. *)
Definition quiet (w w' : World) : Prop :=
  jobs w' = jobs w /\
  forall job_id, progress_values job_id (trace w') = progress_values job_id (trace w).

Definition quiet_comp {A} (m : M A) : Prop := forall w, quiet w (snd (m w)).

(** A step that assigns the values [ext], in this order, to the progress
    of job [job_id], and leaves its status alone. *)
Definition advances (job_id : string) (ext : list Z) (w w' : World) : Prop :=
  progress_values job_id (trace w') = progress_values job_id (trace w) ++ ext /\
  forall j, jobs w !! job_id = Some j ->
    exists j', jobs w' !! job_id = Some j' /\
               Job.progress j' = List.last ext (Job.progress j) /\
               Job.job_status j' = Job.job_status j /\
               Job.error_message j' = Job.error_message j.

(** The checkpoints of the pipeline. *)
Definition checkpoints : list Z := [10; 40; 60; 90; 100].

(** Non-decreasing lists. *)
Fixpoint non_decreasing (l : list Z) : Prop :=
  match l with
  | x :: (y :: _) as l' => x <= y /\ non_decreasing l'
  | _ => True
  end.

End WorkerNotions.

Module TrackNotions.
Import Sys WorkerNotions.

(** In world [w] the progress of job [job_id] has been assigned the
    values [L] and its record is [j]. *)
Definition at_job (job_id : string) (w : World) (L : list Z) (j : Job.t) : Prop :=
  progress_values job_id (trace w) = L /\ jobs w !! job_id = Some j.

End TrackNotions.

Module RunNotions.
Import WorkerNotions.

(** The initial runs of the checkpoints. *)
Definition initial_runs : list (list Z) :=
  [[]; [10]; [10; 40]; [10; 40; 60]; [10; 40; 60; 90]; checkpoints].

End RunNotions.

Module IsolationNotions.
Import RateLimiter.

Definition call_ip (c : call) : string :=
  match c with
  | Allowed ip | Remaining ip | ResetTime ip => ip
  end.

(** The calls of a history that are made for client [c]. *)
Definition restrict (c : string) (evs : list (Z * call)) : list (Z * call) :=
  List.filter (fun ev => String.eqb (call_ip (snd ev)) c) evs.

(** Two limiters that client [c] cannot tell apart. *)
Definition same_for (c : string) (rl1 rl2 : t) : Prop :=
  max_requests rl1 = max_requests rl2 /\
  time_window rl1 = time_window rl2 /\
  get_list c (requests rl1) = get_list c (requests rl2).

End IsolationNotions.

Module PathNotions.
Import Py.

(** The last component of a path has a character that is not a dot. *)
Definition name_part_has_char (s : string) : bool :=
  existsb (fun c => negb (Ascii.eqb c ".")) (list_ascii_of_string (basename s)).

End PathNotions.

Module SandboxNotions.

(** Every character of [s] is in [safe_chars]. *)
Definition all_safe (s : string) : bool :=
  forallb SandboxValidator.is_safe (list_ascii_of_string s).

End SandboxNotions.

Module ArchiveNotions.
Import Sys.

(** What writing [file_path] under the name [arcname] adds to an
    archive, on the file system [x]: the file with its content, an
    empty entry for a directory, nothing for a path that does not
    exist. *)
Definition entry (x : FS) (file_path arcname : string) : list (string * fdata) :=
  match lookup_file file_path (files x) with
  | Some d => [(arcname, d)]
  | None => if is_dir file_path x then [(arcname +:+ "/", Text EmptyString)] else []
  end.

(** Two file systems that differ at most in the file [p]. *)
Definition same_but (p : string) (a b : FS) : Prop :=
  dirs a = dirs b /\
  forall q, q <> p -> lookup_file q (files a) = lookup_file q (files b).

End ArchiveNotions.

(** * Proofs *)

(** ** RateLimiter: the sliding window *)

Section SlidingWindow.
Import RateLimiter Notions.

Lemma filter_length_mono {A} (f g : A -> bool) (l : list A) :
  (forall x, In x l -> f x = true -> g x = true) ->
  (length (List.filter f l) <= length (List.filter g l))%nat.
Proof.
  induction l as [|x l IH]; intros Hfg; simpl; [lia|].
  assert (IH' : (length (List.filter f l) <= length (List.filter g l))%nat).
  { apply IH. intros y Hy. apply Hfg. now right. }
  destruct (f x) eqn:Hf.
  - rewrite (Hfg x (or_introl eq_refl) Hf). simpl. lia.
  - destruct (g x); simpl; lia.
Qed.

Lemma filter_filter_absorb {A} (f g : A -> bool) (l : list A) :
  (forall x, f x = true -> g x = true) ->
  List.filter f (List.filter g l) = List.filter f l.
Proof.
  intros Hfg. induction l as [|x l IH]; simpl; [reflexivity|].
  destruct (g x) eqn:Hg; simpl.
  - now rewrite IH.
  - destruct (f x) eqn:Hf; [|exact IH].
    apply Hfg in Hf. congruence.
Qed.

Lemma clean_clean (now now' window : Z) (l : list Z) :
  now <= now' -> clean now' window (clean now window l) = clean now' window l.
Proof.
  intros Hle. apply filter_filter_absorb. intros x Hx.
  apply Z.ltb_lt in Hx. apply Z.ltb_lt. lia.
Qed.

Lemma clean_app (now window : Z) (l1 l2 : list Z) :
  clean now window (l1 ++ l2) = clean now window l1 ++ clean now window l2.
Proof. apply List.filter_app. Qed.

Lemma clean_In (now window r : Z) (l : list Z) :
  In r (clean now window l) <-> In r l /\ now - window < r.
Proof.
  unfold clean. rewrite List.filter_In, Z.ltb_lt. intuition lia.
Qed.

Lemma get_list_insert_eq ip l (reqs : gmap string (list Z)) :
  get_list ip (<[ip := l]> reqs) = l.
Proof. unfold get_list. now rewrite lookup_insert_eq. Qed.

Lemma get_list_insert_ne ip ip' l (reqs : gmap string (list Z)) :
  ip <> ip' -> get_list ip' (<[ip := l]> reqs) = get_list ip' reqs.
Proof. intros Hne. unfold get_list. now rewrite lookup_insert_ne. Qed.

Lemma get_list_touch ip ip' (reqs : gmap string (list Z)) :
  get_list ip' (touch ip reqs) = get_list ip' reqs.
Proof.
  unfold touch. destruct (decide (ip = ip')) as [->|Hne].
  - apply get_list_insert_eq.
  - now apply get_list_insert_ne.
Qed.

(** What one call does to the list stored for a client. *)
Lemma is_allowed_stored now ip rl ip' :
  get_list ip' (requests (snd (is_allowed now ip rl))) =
    if decide (ip = ip')
    then (let kept := clean now (time_window rl) (get_list ip (requests rl)) in
          if fst (is_allowed now ip rl) then kept ++ [now] else kept)
    else get_list ip' (requests rl).
Proof.
  unfold is_allowed.
  destruct (Z.of_nat _ <? max_requests rl); simpl;
    destruct (decide (ip = ip')) as [->|Hne];
    auto using get_list_insert_eq, get_list_insert_ne.
Qed.

Lemma is_allowed_config now ip rl :
  max_requests (snd (is_allowed now ip rl)) = max_requests rl /\
  time_window (snd (is_allowed now ip rl)) = time_window rl.
Proof. unfold is_allowed. destruct (_ <? _); simpl; auto. Qed.

Lemma step_config rl ev :
  max_requests (snd (step rl ev)) = max_requests rl /\
  time_window (snd (step rl ev)) = time_window rl.
Proof.
  destruct ev as [now [ip|ip|ip]]; simpl.
  - apply is_allowed_config.
  - auto.
  - unfold get_reset_time. destruct (get_list _ _); simpl; auto.
Qed.

(** A general invariant principle for [run]. *)
Lemma run_invariant (P : t -> Prop) c :
  (forall rl ev, P rl -> P (snd (step rl ev))) ->
  forall evs rl, P rl -> P (fst (run c rl evs)).
Proof.
  intros Hstep. induction evs as [|ev evs IH]; intros rl HP; simpl; [exact HP|].
  specialize (Hstep rl ev HP). destruct (step rl ev) as [ok rl'].
  specialize (IH rl' Hstep). destruct (run c rl' evs) as [rl'' adm]. exact IH.
Qed.

Lemma step_bounded N W rl ev : bounded N W rl -> bounded N W (snd (step rl ev)).
Proof.
  intros (HN & HW & Hb).
  destruct (step_config rl ev) as [Hc1 Hc2].
  split; [congruence|]. split; [congruence|]. intros ip'.
  destruct ev as [now [ip|ip|ip]]; simpl.
  - rewrite is_allowed_stored. destruct (decide (ip = ip')) as [->|Hne]; [|apply Hb].
    cbv zeta. unfold is_allowed.
    destruct (Z.of_nat _ <? max_requests rl) eqn:Hlt; simpl.
    + apply Z.ltb_lt in Hlt. rewrite length_app. simpl. lia.
    + specialize (Hb ip').
      pose proof (List.filter_length_le
        (fun r => now - r <? time_window rl) (get_list ip' (requests rl))).
      unfold clean. lia.
  - destruct (decide (ip = ip')) as [->|Hne].
    + rewrite get_list_insert_eq. specialize (Hb ip').
      pose proof (List.filter_length_le
        (fun r => now - r <? time_window rl) (get_list ip' (requests rl))).
      unfold clean. lia.
    + rewrite get_list_insert_ne by assumption. apply Hb.
  - unfold get_reset_time. destruct (get_list ip (requests rl)); simpl;
      rewrite get_list_touch; apply Hb.
Qed.

Lemma init_bounded N W : bounded N W (init N W).
Proof.
  repeat split. intros ip. unfold get_list, init. simpl.
  rewrite lookup_empty. simpl. lia.
Qed.

Lemma run_bounded N W c evs : bounded N W (fst (run c (init N W) evs)).
Proof.
  apply run_invariant; [intros; now apply step_bounded | apply init_bounded].
Qed.

(** The minimum of a list is one of its elements. *)
Lemma list_min_In x l : In (list_min x l) (x :: l).
Proof.
  unfold list_min. revert x. induction l as [|y l IH]; intros x; [now left|].
  change (fold_left Z.min (y :: l) x) with (fold_left Z.min l (Z.min x y)).
  destruct (IH (Z.min x y)) as [H|H].
  - destruct (Z.min_spec x y) as [[_ E]|[_ E]].
    + left. rewrite <- H. symmetry. exact E.
    + right. left. rewrite <- H. symmetry. exact E.
  - right. right. exact H.
Qed.

Lemma filter_drops_one {A} (f : A -> bool) (l : list A) (x : A) :
  In x l -> f x = false -> (length (List.filter f l) < length l)%nat.
Proof.
  induction l as [|y l IH]; simpl; [tauto|].
  intros [->|Hin] Hf.
  - rewrite Hf. pose proof (List.filter_length_le f l). lia.
  - specialize (IH Hin Hf). destruct (f y); simpl; lia.
Qed.

Lemma step_tracks c W last A rl ev :
  time_window rl = W -> last <= fst ev -> tracks c W last A rl ->
  tracks c W (fst ev) (admitted_by c rl ev A) (snd (step rl ev)).
Proof.
  intros HW Hle Htr t Ht. unfold admitted_by.
  destruct ev as [now [ip|ip|ip]]; simpl in *.
  - rewrite is_allowed_stored. destruct (decide (ip = c)) as [->|Hne].
    + rewrite String.eqb_refl, andb_true_r. cbv zeta. rewrite HW.
      destruct (fst (is_allowed now c rl)).
      * rewrite !clean_app, clean_clean by assumption.
        rewrite Htr by lia. reflexivity.
      * rewrite clean_clean by assumption. apply Htr. lia.
    + apply String.eqb_neq in Hne. rewrite Hne, andb_false_r. apply Htr. lia.
  - destruct (decide (ip = c)) as [->|Hne].
    + rewrite get_list_insert_eq, HW, clean_clean by assumption. apply Htr. lia.
    + rewrite get_list_insert_ne by assumption. apply Htr. lia.
  - unfold get_reset_time. destruct (get_list ip (requests rl)); simpl;
      rewrite get_list_touch; apply Htr; lia.
Qed.

Lemma step_window N W c last A rl ev :
  max_requests rl = N -> time_window rl = W -> last <= fst ev ->
  tracks c W last A rl ->
  (forall a, Z.of_nat (length (List.filter (in_interval a W) A)) <= N) ->
  forall a,
    Z.of_nat (length (List.filter (in_interval a W) (admitted_by c rl ev A))) <= N.
Proof.
  intros HN HW Hle Htr HA a. unfold admitted_by.
  destruct (fst (step rl ev) && is_admission_of c (snd ev)) eqn:Hadm; [|apply HA].
  apply andb_true_iff in Hadm. destruct Hadm as [Hok Hc].
  destruct ev as [now [ip|ip|ip]]; simpl in Hc; try discriminate.
  apply String.eqb_eq in Hc. subst ip. simpl in *.
  rewrite List.filter_app, length_app. simpl.
  destruct (in_interval a W now) eqn:Hin; simpl; [|specialize (HA a); lia].
  unfold is_allowed in Hok. rewrite HN, HW in Hok.
  destruct (Z.of_nat _ <? N) eqn:Hlt; [|discriminate].
  apply Z.ltb_lt in Hlt. rewrite (Htr now Hle) in Hlt.
  assert (Hsub : (length (List.filter (in_interval a W) A)
                  <= length (clean now W A))%nat).
  { apply filter_length_mono. intros x _ Hx. unfold in_interval in *.
    apply andb_true_iff in Hx, Hin. rewrite Z.leb_le, Z.ltb_lt in *. lia. }
  lia.
Qed.

Lemma run_app_admitted c rl ev evs A :
  A ++ snd (run c rl (ev :: evs)) =
  admitted_by c rl ev A ++ snd (run c (snd (step rl ev)) evs).
Proof.
  simpl. unfold admitted_by. destruct (step rl ev) as [ok rl']. simpl.
  destruct (run c rl' evs) as [rl'' adm]. simpl.
  destruct (ok && _); [now rewrite <- app_assoc | reflexivity].
Qed.

Lemma run_window N W c evs :
  forall rl last A,
    max_requests rl = N -> time_window rl = W ->
    tracks c W last A rl -> clock_monotone last evs ->
    (forall a, Z.of_nat (length (List.filter (in_interval a W) A)) <= N) ->
    forall a,
      Z.of_nat (length (List.filter (in_interval a W) (A ++ snd (run c rl evs)))) <= N.
Proof.
  induction evs as [|ev evs IH]; intros rl last A HN HW Htr Hmono HA a.
  - simpl. rewrite app_nil_r. apply HA.
  - destruct Hmono as [Hle Hmono]. rewrite run_app_admitted.
    destruct (step_config rl ev) as [Hc1 Hc2].
    apply (IH (snd (step rl ev)) (fst ev)); try congruence; try assumption.
    + eapply step_tracks; eassumption.
    + eapply step_window; eassumption.
Qed.

End SlidingWindow.

(** C1. Sliding-window log of the rate limiter, for a limiter built with
    [max_requests = N >= 0] and [time_window = W]:
    (a) over any history of calls made at non-decreasing clock readings,
        a client is admitted at most [N] times inside any interval
        [[a, a + W)];
    (b) a call that finds [N] or more stored timestamps inside the
        trailing window answers [False] and stores only the cleaned list;
    (c) in a reachable state, a call made once [W] has elapsed since the
        oldest stored timestamp answers [True] and stores its timestamp;
    (d) each call keeps exactly the stored timestamps [r] with
        [now - W < r], answers [True] iff fewer than [N] remain, appends
        [now] only then, and leaves the other clients' lists alone. *)
Theorem rate_limiter_sliding_window (N W : Z) (HN : 0 <= N) :
  (forall c evs t0 a,
      RateLimiter.clock_monotone t0 evs ->
      Z.of_nat (length (List.filter (RateLimiter.in_interval a W)
                          (snd (RateLimiter.run c (RateLimiter.init N W) evs)))) <= N) /\
  (forall rl now ip,
      RateLimiter.max_requests rl = N -> RateLimiter.time_window rl = W ->
      N <= Z.of_nat (length (RateLimiter.clean now W
                               (RateLimiter.get_list ip (RateLimiter.requests rl)))) ->
      fst (RateLimiter.is_allowed now ip rl) = false /\
      RateLimiter.get_list ip (RateLimiter.requests (snd (RateLimiter.is_allowed now ip rl)))
        = RateLimiter.clean now W (RateLimiter.get_list ip (RateLimiter.requests rl))) /\
  (forall c evs ip now x l,
      let rl := fst (RateLimiter.run c (RateLimiter.init N W) evs) in
      RateLimiter.get_list ip (RateLimiter.requests rl) = x :: l ->
      W <= now - RateLimiter.list_min x l ->
      fst (RateLimiter.is_allowed now ip rl) = true /\
      RateLimiter.get_list ip (RateLimiter.requests (snd (RateLimiter.is_allowed now ip rl)))
        = RateLimiter.clean now W (x :: l) ++ [now]) /\
  (forall rl now ip,
      RateLimiter.max_requests rl = N -> RateLimiter.time_window rl = W ->
      let stored := RateLimiter.get_list ip (RateLimiter.requests rl) in
      let kept := RateLimiter.clean now W stored in
      let '(ok, rl') := RateLimiter.is_allowed now ip rl in
      (forall r, In r kept <-> In r stored /\ now - W < r) /\
      (ok = true <-> Z.of_nat (length kept) < N) /\
      RateLimiter.get_list ip (RateLimiter.requests rl')
        = (if ok then kept ++ [now] else kept) /\
      (forall ip', ip' <> ip ->
         RateLimiter.get_list ip' (RateLimiter.requests rl')
           = RateLimiter.get_list ip' (RateLimiter.requests rl))).
Proof.
  split; [|split; [|split]].
  - (* a *)
    intros c evs t0 a Hmono.
    change (snd (RateLimiter.run c (RateLimiter.init N W) evs))
      with ([] ++ snd (RateLimiter.run c (RateLimiter.init N W) evs)).
    eapply run_window; try reflexivity; try eassumption.
    + intros t _. reflexivity.
    + intros a'. simpl. lia.
  - (* b *)
    intros rl now ip HN' HW' Hfull.
    assert (E : fst (RateLimiter.is_allowed now ip rl) = false).
    { unfold RateLimiter.is_allowed. rewrite HN', HW'.
      destruct (Z.of_nat _ <? N) eqn:E; [apply Z.ltb_lt in E; lia | reflexivity]. }
    split; [exact E|].
    rewrite is_allowed_stored, decide_True by reflexivity. cbv zeta.
    rewrite E. now rewrite HW'.
  - (* c *)
    intros c evs ip now x l rl Hst Hold.
    destruct (run_bounded N W c evs) as (HN' & HW' & Hb). fold rl in HN', HW', Hb.
    assert (Hok : fst (RateLimiter.is_allowed now ip rl) = true).
    { unfold RateLimiter.is_allowed. rewrite HN', HW', Hst.
      assert (Hlt : (length (RateLimiter.clean now W (x :: l)) < length (x :: l))%nat).
      { apply (filter_drops_one _ _ (RateLimiter.list_min x l)).
        - apply list_min_In.
        - apply Z.ltb_ge. lia. }
      specialize (Hb ip). rewrite Hst in Hb.
      destruct (Z.of_nat _ <? N) eqn:E; [reflexivity|].
      apply Z.ltb_ge in E. simpl length in *. lia. }
    split; [exact Hok|].
    rewrite is_allowed_stored, decide_True by reflexivity. cbv zeta.
    rewrite Hok, HW', Hst. reflexivity.
  - (* d *)
    intros rl now ip HN' HW' stored kept.
    pose proof (is_allowed_stored now ip rl) as Hst.
    destruct (RateLimiter.is_allowed now ip rl) as [ok rl'] eqn:E.
    assert (Hok : ok = (Z.of_nat (length kept) <? N)).
    { unfold RateLimiter.is_allowed in E. rewrite HN', HW' in E. fold stored kept in E.
      destruct (Z.of_nat (length kept) <? N); now inversion E. }
    simpl in Hst. split; [|split; [|split]].
    + intros r. apply clean_In.
    + rewrite Hok. apply Z.ltb_lt.
    + rewrite (Hst ip), decide_True by reflexivity. cbv zeta. rewrite HW'. reflexivity.
    + intros ip' Hne. rewrite (Hst ip'), decide_False by congruence. reflexivity.
Qed.

Lemma rate_limiter_sliding_window_witness :
  0 <= 5 /\
  RateLimiter.clock_monotone 0 RateLimiter.six_uploads /\
  Z.of_nat (length (List.filter (RateLimiter.in_interval 0 3600)
              (snd (RateLimiter.run "10.0.0.1" (RateLimiter.init 5 3600)
                      RateLimiter.six_uploads)))) <= 5 /\
  fst (RateLimiter.is_allowed 3600 "10.0.0.1"
         (fst (RateLimiter.run "10.0.0.1" (RateLimiter.init 5 3600)
                 RateLimiter.six_uploads))) = true.
Proof.
  destruct (rate_limiter_sliding_window 5 3600 ltac:(lia)) as (Ha & _ & Hc & _).
  split; [lia|]. split; [simpl; lia|]. split.
  - apply (Ha "10.0.0.1" RateLimiter.six_uploads 0 0). simpl. lia.
  - apply (Hc "10.0.0.1" RateLimiter.six_uploads "10.0.0.1" 3600 0 [10; 20; 30; 40]).
    + reflexivity.
    + vm_compute. discriminate.
Defined.

(** The sixth upload inside the hour is the one that is turned away. *)
Example six_uploads_admitted :
  snd (RateLimiter.run "10.0.0.1" RateLimiter.default_limiter RateLimiter.six_uploads)
  = [0; 10; 20; 30; 40].
Proof. reflexivity. Qed.

(** ** RateLimiter: [get_reset_time] *)

Lemma list_min_le x l y : In y (x :: l) -> RateLimiter.list_min x l <= y.
Proof.
  unfold RateLimiter.list_min. revert x.
  assert (Hmono : forall l x, fold_left Z.min l x <= x).
  { induction l0 as [|z l0 IH]; intros x; simpl; [lia|].
    specialize (IH (Z.min x z)). lia. }
  induction l as [|z l IH]; intros x Hin.
  - destruct Hin as [->|[]]. simpl. lia.
  - simpl. destruct Hin as [->|[->|Hin]].
    + specialize (Hmono l (Z.min y z)). lia.
    + specialize (Hmono l (Z.min x y)). lia.
    + apply IH. now right.
Qed.

(** C8 as stated fails: for a client without stored timestamps the query
    answers 0, whatever the clock reads. *)
Lemma get_reset_time_empty_is_not_now :
  let now := 1700000000 in
  RateLimiter.get_list "10.0.0.1" (RateLimiter.requests RateLimiter.default_limiter) = [] /\
  fst (RateLimiter.get_reset_time "10.0.0.1" RateLimiter.default_limiter) = 0 /\
  fst (RateLimiter.get_reset_time "10.0.0.1" RateLimiter.default_limiter) <> now.
Proof. cbv zeta. split; [reflexivity|]. split; [reflexivity|]. vm_compute. discriminate. Qed.

(** A timestamp that has left the trailing window but was not cleaned by
    a later admission call still determines the answer. *)
Example get_reset_time_uses_stale_timestamp :
  let rl := snd (RateLimiter.is_allowed 0 "10.0.0.1" RateLimiter.default_limiter) in
  fst (RateLimiter.get_reset_time "10.0.0.1" rl) = 3600.
Proof. reflexivity. Qed.

(** C8 (amended). [get_reset_time] answers the least stored timestamp of
    the client plus [time_window]; it answers 0 when nothing is stored.
    The stored lists are read as they are: the query neither reads the
    clock nor cleans. *)
Theorem get_reset_time_spec (ip : string) (rl : RateLimiter.t) :
  let stored := RateLimiter.get_list ip (RateLimiter.requests rl) in
  let '(answer, rl') := RateLimiter.get_reset_time ip rl in
  (stored = [] -> answer = 0) /\
  (stored <> [] ->
     exists oldest, In oldest stored /\ (forall r, In r stored -> oldest <= r) /\
                    answer = oldest + RateLimiter.time_window rl) /\
  (forall ip', RateLimiter.get_list ip' (RateLimiter.requests rl')
               = RateLimiter.get_list ip' (RateLimiter.requests rl)) /\
  RateLimiter.max_requests rl' = RateLimiter.max_requests rl /\
  RateLimiter.time_window rl' = RateLimiter.time_window rl.
Proof.
  intros stored. unfold RateLimiter.get_reset_time. fold stored.
  destruct stored as [|x l] eqn:E.
  - split; [reflexivity|]. split; [congruence|]. split; [|auto].
    intros ip'. simpl. apply get_list_touch.
  - split; [discriminate|]. split; [|split; [|auto]].
    + intros _. exists (RateLimiter.list_min x l).
      split; [apply list_min_In|]. split; [apply list_min_le | reflexivity].
    + intros ip'. simpl. apply get_list_touch.
Qed.

Lemma get_reset_time_spec_witness :
  let rl := fst (RateLimiter.run "10.0.0.1" RateLimiter.default_limiter
                   RateLimiter.six_uploads) in
  RateLimiter.get_list "10.0.0.1" (RateLimiter.requests rl) <> [] /\
  exists oldest,
    In oldest (RateLimiter.get_list "10.0.0.1" (RateLimiter.requests rl)) /\
    fst (RateLimiter.get_reset_time "10.0.0.1" rl) = oldest + 3600.
Proof.
  cbv zeta.
  pose proof (get_reset_time_spec "10.0.0.1"
                (fst (RateLimiter.run "10.0.0.1" RateLimiter.default_limiter
                        RateLimiter.six_uploads))) as H.
  cbv zeta in H.
  destruct (RateLimiter.get_reset_time _ _) as [answer rl'].
  destruct H as (_ & H & _).
  assert (Hne : RateLimiter.get_list "10.0.0.1"
            (RateLimiter.requests
               (fst (RateLimiter.run "10.0.0.1" RateLimiter.default_limiter
                       RateLimiter.six_uploads))) <> []) by (vm_compute; discriminate).
  split; [exact Hne|].
  destruct (H Hne) as (oldest & Hin & _ & Hans).
  exists oldest. split; [exact Hin | exact Hans].
Defined.

(** ** Strings and paths *)

Lemma string_app_cons (c : ascii) (s t : string) :
  String c s +:+ t = String c (s +:+ t).
Proof. reflexivity. Qed.

Lemma string_app_nil_l (t : string) : EmptyString +:+ t = t.
Proof. reflexivity. Qed.

(** [simpl] leaves [+:+] folded; this unfolds it on constructors. *)
Ltac sapp0 := rewrite ?string_app_cons, ?string_app_nil_l.
Ltac sapp := sapp0; simpl.

Section PyStrings.
Import Py StringNotions.

Lemma string_app_assoc (s t u : string) : (s +:+ t) +:+ u = s +:+ (t +:+ u).
Proof. induction s as [|c s IH]; sapp; [reflexivity | now rewrite IH]. Qed.

Lemma string_length_app (s t : string) :
  String.length (s +:+ t) = (String.length s + String.length t)%nat.
Proof. induction s as [|c s IH]; sapp; [reflexivity | now rewrite IH]. Qed.

Lemma drop_app_length (s t : string) (k : nat) :
  drop (String.length s + k) (s +:+ t) = drop k t.
Proof. induction s as [|c s IH]; sapp; [reflexivity | exact IH]. Qed.

Lemma drop_app_le (k : nat) (s t : string) :
  (k <= String.length s)%nat -> drop k (s +:+ t) = drop k s +:+ t.
Proof.
  revert s. induction k as [|k IH]; intros s Hk; [reflexivity|].
  destruct s as [|c s]; simpl in *; [lia|]. sapp. apply IH. lia.
Qed.

Lemma take_app_length (s t : string) (k : nat) :
  take (String.length s + k) (s +:+ t) = s +:+ take k t.
Proof. induction s as [|c s IH]; sapp; [reflexivity | now rewrite IH]. Qed.

Lemma string_length_drop (k : nat) (s : string) :
  String.length (drop k s) = (String.length s - k)%nat.
Proof.
  revert s. induction k as [|k IH]; intros s; simpl; [lia|].
  destruct s as [|c s]; simpl; [reflexivity | apply IH].
Qed.

Lemma list_ascii_of_string_app (s t : string) :
  list_ascii_of_string (s +:+ t) = list_ascii_of_string s ++ list_ascii_of_string t.
Proof. induction s as [|c s IH]; sapp; [reflexivity | now rewrite IH]. Qed.

Lemma prefix_app (p t : string) : String.prefix p (p +:+ t) = true.
Proof.
  induction p as [|c p IH]; sapp; [now destruct t|].
  destruct (ascii_dec c c); [exact IH | congruence].
Qed.

Lemma contains_app_r (p s t : string) :
  contains p t = true -> contains p (s +:+ t) = true.
Proof.
  intros H. induction s as [|c s IH]; sapp; [exact H|].
  rewrite IH. apply orb_true_r.
Qed.

Lemma contains_self_app (p t : string) : contains p (p +:+ t) = true.
Proof.
  destruct p as [|c p]; [now destruct t|].
  change (contains (String c p) (String c p +:+ t))
    with (String.prefix (String c p) (String c p +:+ t)
          || contains (String c p) (p +:+ t)).
  now rewrite prefix_app.
Qed.

Lemma rfind_range (c : ascii) (s : string) :
  -1 <= rfind c s < Z.of_nat (String.length s).
Proof.
  induction s as [|a s IH]; simpl rfind; simpl String.length; [lia|].
  destruct (0 <=? rfind c s) eqn:E.
  - apply Z.leb_le in E. lia.
  - destruct (Ascii.eqb a c); lia.
Qed.

Lemma rfind_app (c : ascii) (s t : string) :
  rfind c (s +:+ t) =
    if 0 <=? rfind c t then Z.of_nat (String.length s) + rfind c t else rfind c s.
Proof.
  induction s as [|a s IH].
  - sapp. destruct (0 <=? rfind c t) eqn:E; [reflexivity|].
    apply Z.leb_gt in E. pose proof (rfind_range c t). lia.
  - change (String a s +:+ t) with (String a (s +:+ t)).
    simpl rfind. rewrite IH. simpl String.length.
    destruct (0 <=? rfind c t) eqn:E.
    + apply Z.leb_le in E.
      replace (0 <=? Z.of_nat (String.length s) + rfind c t) with true
        by (symmetry; apply Z.leb_le; lia).
      lia.
    + reflexivity.
Qed.


Lemma prefix_cons (a b : ascii) (p s : string) :
  String.prefix (String a p) (String b s)
  = if Ascii.eqb a b then String.prefix p s else false.
Proof.
  change (String.prefix (String a p) (String b s))
    with (match ascii_dec a b with left _ => String.prefix p s | right _ => false end).
  destruct (ascii_dec a b) as [->|Hne].
  - now rewrite Ascii.eqb_refl.
  - apply Ascii.eqb_neq in Hne. now rewrite Hne.
Qed.

Lemma prefix_nil (s : string) : String.prefix EmptyString s = true.
Proof. now destruct s. Qed.


Lemma contains_cons (p : string) (c : ascii) (s : string) :
  contains p (String c s) = String.prefix p (String c s) || contains p s.
Proof. reflexivity. Qed.



Lemma endswith_ref_walk (base : string) :
  endswith (base +:+ "_walk.smd") "_ref.smd" = false.
Proof.
  unfold endswith. rewrite string_length_app. simpl String.length.
  replace (String.length base + 9 - 8)%nat with (String.length base + 1)%nat by lia.
  rewrite drop_app_length. apply andb_false_r.
Qed.

End PyStrings.

(** ** The build descriptor *)

Section Descriptor.
Import Py QC.

Lemma take_drop (k : nat) (s : string) : take k s +:+ drop k s = s.
Proof.
  revert s. induction k as [|k IH]; intros s; [reflexivity|].
  destruct s as [|c s]; [reflexivity|]. simpl take. simpl drop.
  rewrite string_app_cons. now rewrite IH.
Qed.









Lemma string_app_nil_r (s : string) : s +:+ EmptyString = s.
Proof. induction s as [|c s IH]; sapp0; [reflexivity | now rewrite IH]. Qed.








End Descriptor.


(** The selection is by substring, not by suffix: a clip whose name
    merely holds [_ref] becomes the reference. *)
Example qc_reference_by_substring :
  QC.pick_reference ["/tmp/c/m_ref.smd"; "/tmp/c/m_reflect.smd"]
  = (Some "m_reflect.smd", []).
Proof. reflexivity. Qed.



(** ** SecurityValidator: what [validate_file] does to the handle *)

(** C3 as stated fails: a handle that is read from position 5 is left at
    position 0. *)
Lemma validate_file_moves_position :
  let file := SecurityValidator.mkFile "model.fbx" "Kaydara FBX Binary" 5 in
  let file' := snd (SecurityValidator.validate_file
                      SecurityValidator.magic_octet SecurityValidator.decode_ascii file) in
  SecurityValidator.position file' = 0%nat /\
  SecurityValidator.position file' <> SecurityValidator.position file.
Proof. cbv zeta. split; [reflexivity | vm_compute; discriminate]. Qed.

(** C3 (amended). Whatever the library calls answer:
    the name and the bytes of the handle are never changed; the read
    position is left where it was when the name or the extension is
    refused, and is set to 0 whenever the bytes are read, so a handle
    that starts at position 0 is returned as it was; the verdict depends
    on the name and the bytes only, not on the starting position. *)
Theorem validate_file_handle
  (magic_from_buffer : string -> option string) (decode_ignore : string -> string)
  (file : SecurityValidator.FileStorage) :
  let validate := SecurityValidator.validate_file magic_from_buffer decode_ignore in
  let reads := negb (String.eqb (SecurityValidator.filename file) EmptyString)
               && SecurityValidator._validate_extension (SecurityValidator.filename file) in
  SecurityValidator.filename (snd (validate file)) = SecurityValidator.filename file /\
  SecurityValidator.data (snd (validate file)) = SecurityValidator.data file /\
  SecurityValidator.position (snd (validate file))
    = (if reads then 0%nat else SecurityValidator.position file) /\
  (SecurityValidator.position file = 0%nat -> snd (validate file) = file) /\
  (forall file2,
     SecurityValidator.filename file2 = SecurityValidator.filename file ->
     SecurityValidator.data file2 = SecurityValidator.data file ->
     fst (validate file2) = fst (validate file)).
Proof.
  cbv zeta. destruct file as [name content pos].
  unfold SecurityValidator.validate_file. simpl.
  destruct (String.eqb name EmptyString) eqn:Hname; simpl.
  - repeat split; auto.
    intros [name2 content2 pos2]. simpl. intros -> ->. now rewrite Hname.
  - destruct (SecurityValidator._validate_extension name) eqn:Hext; simpl.
    + repeat split; auto.
      * intros ->. reflexivity.
      * intros [name2 content2 pos2]. simpl. intros -> ->.
        now rewrite Hname, Hext.
    + repeat split; auto.
      intros [name2 content2 pos2]. simpl. intros -> ->. now rewrite Hname, Hext.
Qed.

Lemma validate_file_handle_witness :
  let file := SecurityValidator.mkFile "model.fbx" "Kaydara FBX Binary" 0 in
  SecurityValidator.position file = 0%nat /\
  snd (SecurityValidator.validate_file
         SecurityValidator.magic_octet SecurityValidator.decode_ascii file) = file.
Proof.
  cbv zeta. split; [reflexivity|].
  destruct (validate_file_handle SecurityValidator.magic_octet
              SecurityValidator.decode_ascii
              (SecurityValidator.mkFile "model.fbx" "Kaydara FBX Binary" 0))
    as (_ & _ & _ & H & _).
  exact (H eq_refl).
Defined.

(** ** The upload handler and the rate limiter *)

(** C10. An upload that the rate limiter admits and that one of the
    later checks turns away (no file, empty file name, invalid file,
    invalid scale) is answered with status 400, creates no job and
    starts no worker, and still leaves the client's stored list one
    timestamp longer: the cleaned list followed by the time of the
    attempt. *)
Theorem rejected_upload_consumes_slot (env : Sys.Env) (req : App.request) (w : Sys.World) :
  let now := Sys.env_time env w in
  let ip := App.client_ip_of req in
  let rl := Sys.limiter w in
  let kept := RateLimiter.clean now (RateLimiter.time_window rl)
                (RateLimiter.get_list ip (RateLimiter.requests rl)) in
  fst (RateLimiter.is_allowed now ip rl) = true ->
  AppNotions.rejected_after_admission env req = true ->
  exists text w',
    App.upload_file env req w = (Sys.Ok (App.mkResponse 400 (App.ErrorBody text)), w') /\
    RateLimiter.get_list ip (RateLimiter.requests (Sys.limiter w')) = kept ++ [now] /\
    length (RateLimiter.get_list ip (RateLimiter.requests (Sys.limiter w')))
      = S (length kept) /\
    Sys.jobs w' = Sys.jobs w /\ Sys.threads w' = Sys.threads w /\
    Sys.fs w' = Sys.fs w /\ Sys.trace w' = Sys.trace w.
Proof.
  intros now ip rl kept Hadm Hrej.
  pose proof (is_allowed_stored now ip rl ip) as Hst.
  rewrite decide_True in Hst by reflexivity. cbv zeta in Hst. rewrite Hadm in Hst.
  fold kept in Hst.
  assert (Hlen : forall l, l = kept ++ [now] -> length l = S (length kept)).
  { intros l ->. rewrite length_app. simpl. lia. }
  unfold App.upload_file, Sys.try_except, Sys.bind, Sys.get, Sys.modify, Sys.ret.
  fold now ip rl.
  destruct (RateLimiter.is_allowed now ip rl) as [allowed rl'] eqn:E.
  simpl in Hadm, Hst. subst allowed. simpl.
  unfold AppNotions.rejected_after_admission in Hrej.
  destruct (App.file_field req) as [file|].
  - destruct (String.eqb (SecurityValidator.filename file) EmptyString) eqn:Hname.
    + eexists _, _. split; [reflexivity|]. simpl. auto 10.
    + simpl in Hrej.
      destruct (SecurityValidator.validate_file _ _ file) as [valid file'] eqn:Hv.
      simpl in Hrej. destruct valid; simpl in *.
      * destruct (Sys.env_float env _) as [scale|].
        -- rewrite Hrej. eexists _, _. split; [reflexivity|]. simpl. auto 10.
        -- eexists _, _. split; [reflexivity|]. simpl. auto 10.
      * eexists _, _. split; [reflexivity|]. simpl. auto 10.
  - eexists _, _. split; [reflexivity|]. simpl. auto 10.
Qed.

Lemma rejected_upload_consumes_slot_witness :
  let env := Scenario.make_env 0 Scenario.run_ok Scenario.no_fault in
  fst (RateLimiter.is_allowed 0 "10.0.0.1" (Sys.limiter Scenario.empty_world)) = true /\
  AppNotions.rejected_after_admission env Scenario.request_without_file = true /\
  exists text w',
    App.upload_file env Scenario.request_without_file Scenario.empty_world
      = (Sys.Ok (App.mkResponse 400 (App.ErrorBody text)), w') /\
    RateLimiter.get_list "10.0.0.1" (RateLimiter.requests (Sys.limiter w')) = [0].
Proof.
  cbv zeta. split; [reflexivity|]. split; [reflexivity|].
  destruct (rejected_upload_consumes_slot
              (Scenario.make_env 0 Scenario.run_ok Scenario.no_fault)
              Scenario.request_without_file Scenario.empty_world eq_refl eq_refl)
    as (text & w' & Hrun & Hlist & _).
  exists text, w'. split; [exact Hrun | exact Hlist].
Defined.

(** ** The job registry: retention *)

Section Registry.
Import Sys IO App.
Variable env : Env.

(** [cleanup_job] never raises and removes exactly its job. *)
Lemma cleanup_job_jobs (job_id : string) (w : World) :
  fst (cleanup_job job_id w) = Ok tt /\
  jobs (snd (cleanup_job job_id w)) = delete job_id (jobs w).
Proof.
  unfold cleanup_job, bind, get, modify, ret, path_exists, rmtree_ignore_errors.
  destruct (jobs w !! job_id) as [job|] eqn:Hjob.
  - cbn. destruct (exists_path _ (fs w)); cbn; auto.
  - cbn. split; [reflexivity|]. symmetry. now apply delete_id.
Qed.

Lemma for_each_cleanup (l : list string) (w : World) :
  fst (for_each l cleanup_job w) = Ok tt /\
  forall k, jobs (snd (for_each l cleanup_job w)) !! k =
            if bool_decide (k ∈ l) then None else jobs w !! k.
Proof.
  revert w. induction l as [|x l IH]; intros w.
  - cbn. split; [reflexivity|]. intros k.
    rewrite bool_decide_eq_false_2; [reflexivity | apply not_elem_of_nil].
  - cbn [for_each]. unfold bind.
    destruct (cleanup_job_jobs x w) as [Hr Hj].
    destruct (cleanup_job x w) as [r w1]. cbn in Hr, Hj. subst r. cbn beta iota.
    destruct (IH w1) as [Hr' Hj']. split; [exact Hr'|].
    intros k. rewrite Hj', Hj.
    destruct (decide (k = x)) as [->|Hne].
    + rewrite (bool_decide_eq_true_2 (x ∈ x :: l)) by (apply elem_of_cons; now left).
      rewrite lookup_delete_eq. now destruct (bool_decide (x ∈ l)).
    + rewrite lookup_delete_ne by congruence.
      destruct (bool_decide (k ∈ l)) eqn:Hin.
      * apply bool_decide_eq_true in Hin.
        rewrite bool_decide_eq_true_2; [reflexivity | apply elem_of_cons; now right].
      * apply bool_decide_eq_false in Hin.
        rewrite bool_decide_eq_false_2; [reflexivity|].
        intros Hin'. apply elem_of_cons in Hin'. tauto.
Qed.

Lemma sweep_removes_old (job_id : string) (job : Job.t) (w : World) :
  jobs w !! job_id = Some job ->
  one_hour < env_time env w - Job.created_at job ->
  fst (sweep env w) = Ok tt /\ jobs (snd (sweep env w)) !! job_id = None.
Proof.
  intros Hjob Hold. unfold sweep, try_except, bind, get.
  set (l := map fst (List.filter _ (map_to_list (jobs w)))).
  destruct (for_each_cleanup l w) as [Hr Hj].
  destruct (for_each l cleanup_job w) as [r w'] eqn:E. cbn in Hr, Hj. subst r.
  cbn. split; [reflexivity|]. rewrite Hj.
  rewrite bool_decide_eq_true_2; [reflexivity|].
  apply list_elem_of_In. unfold l. apply in_map_iff. exists (job_id, job).
  split; [reflexivity|]. apply List.filter_In. split.
  - apply list_elem_of_In. now apply elem_of_map_to_list.
  - cbn. apply Z.ltb_lt. exact Hold.
Qed.

End Registry.

(** C6 as stated fails: two hours after its creation a job that is
    still processing is answered with its record, and stays in the
    registry. *)
Lemma stale_processing_job_still_visible :
  let env := Scenario.make_env 7200 Scenario.run_ok Scenario.no_fault in
  let job := Job.set_status Job.processing (Job.new "job-1" 0) in
  Sys.jobs Scenario.world_processing !! "job-1" = Some job /\
  App.one_hour < Sys.env_time env Scenario.world_processing - Job.created_at job /\
  App.get_job_status env "job-1" Scenario.world_processing
    = (Sys.Ok (App.mkResponse 200
                 (App.StatusBody "job-1" Job.processing 0 [] None false)),
       Scenario.world_processing).
Proof. cbv zeta. split; [reflexivity|]. split; reflexivity. Qed.

(** C6 (amended). For a job in the registry:
    (a) while its status is queued or processing, a status query is
        answered with the record and evicts nothing, whatever the age
        of the job;
    (b) once its status is completed or failed, a query made more than
        one hour after its creation is answered 404 and evicts it;
    (c) one pass of the periodic sweep made more than one hour after
        its creation evicts it whatever its status, and the next query
        is answered 404. *)
Theorem job_visibility_after_retention
  (env : Sys.Env) (job_id : string) (job : Job.t) (w : Sys.World) :
  Sys.jobs w !! job_id = Some job ->
  (App.is_terminal (Job.job_status job) = false ->
   App.get_job_status env job_id w = (Sys.Ok (App.status_response job), w) /\
   App.code (App.status_response job) = 200) /\
  (App.is_terminal (Job.job_status job) = true ->
   Job.created_at job < Sys.env_time env w - App.one_hour ->
   exists w',
     App.get_job_status env job_id w
       = (Sys.Ok (App.mkResponse 404 (App.ErrorBody "Job expired")), w') /\
     Sys.jobs w' !! job_id = None) /\
  (App.one_hour < Sys.env_time env w - Job.created_at job ->
   exists w',
     App.sweep env w = (Sys.Ok tt, w') /\
     Sys.jobs w' !! job_id = None /\
     forall env', App.get_job_status env' job_id w'
       = (Sys.Ok (App.mkResponse 404 (App.ErrorBody "Job not found")), w')).
Proof.
  intros Hjob. split; [|split].
  - intros Hlive. split; [|reflexivity].
    unfold App.get_job_status, Sys.bind, Sys.get. rewrite Hjob, Hlive. reflexivity.
  - intros Hterm Hold.
    unfold App.get_job_status, Sys.bind at 1, Sys.get. rewrite Hjob, Hterm.
    replace (Job.created_at job <? Sys.env_time env w - App.one_hour) with true
      by (symmetry; now apply Z.ltb_lt).
    cbn [andb]. unfold Sys.bind.
    destruct (cleanup_job_jobs job_id w) as [Hr Hj].
    destruct (App.cleanup_job job_id w) as [r w'] eqn:E. cbn in Hr, Hj. subst r.
    exists w'. split; [reflexivity|]. rewrite Hj. apply lookup_delete_eq.
  - intros Hold.
    destruct (sweep_removes_old env job_id job w Hjob Hold) as [Hr Hj].
    destruct (App.sweep env w) as [r w'] eqn:E. cbn in Hr, Hj. subst r.
    exists w'. split; [reflexivity|]. split; [exact Hj|].
    intros env'. unfold App.get_job_status, Sys.bind, Sys.get. now rewrite Hj.
Qed.

Lemma job_visibility_after_retention_witness :
  let env := Scenario.make_env 7200 Scenario.run_ok Scenario.no_fault in
  let job := Job.set_status Job.processing (Job.new "job-1" 0) in
  Sys.jobs Scenario.world_processing !! "job-1" = Some job /\
  App.is_terminal (Job.job_status job) = false /\
  App.one_hour < Sys.env_time env Scenario.world_processing - Job.created_at job /\
  App.code (App.status_response job) = 200 /\
  exists w', App.sweep env Scenario.world_processing = (Sys.Ok tt, w') /\
             Sys.jobs w' !! "job-1" = None.
Proof.
  cbv zeta.
  destruct (job_visibility_after_retention
              (Scenario.make_env 7200 Scenario.run_ok Scenario.no_fault) "job-1"
              (Job.set_status Job.processing (Job.new "job-1" 0))
              Scenario.world_processing eq_refl) as (Ha & _ & Hc).
  split; [reflexivity|]. split; [reflexivity|]. split; [reflexivity|].
  split; [exact (proj2 (Ha eq_refl))|].
  destruct (Hc eq_refl) as (w' & Hs & Hj & _).
  exists w'. split; [exact Hs | exact Hj].
Defined.

(** ** The compile stage and its log *)

Section CompileLog.
Import Py Sys IO FBXProcessor.
Variable env : Env.

Lemma lookup_store (p : string) (x : fdata) (l : list (string * fdata)) :
  lookup_file p (store p x l) = Some x.
Proof.
  induction l as [|[q y] l IH]; simpl.
  - now rewrite String.eqb_refl.
  - destruct (String.eqb p q) eqn:E; simpl; rewrite E; [reflexivity | exact IH].
Qed.

Lemma bind_Ok {A B} (m : M A) (k : A -> M B) (w w1 : World) (a : A) :
  m w = (Ok a, w1) -> bind m k w = k a w1.
Proof. intros H. unfold bind. now rewrite H. Qed.

Lemma bind_Raise {A B} (m : M A) (k : A -> M B) (w w1 : World) (e : exn) :
  m w = (Raise e, w1) -> bind m k w = (Raise e, w1).
Proof. intros H. unfold bind. now rewrite H. Qed.

(** A loop that only tests paths leaves the world as it is. *)
Lemma collect_tests {A B} (l : list A) (body : A -> M (option B)) (w : World) :
  (forall x w, exists o, body x w = (Ok o, w)) ->
  exists r, collect l body w = (Ok r, w).
Proof.
  intros Hbody. induction l as [|x l IH]; cbn [collect].
  - now exists [].
  - destruct (Hbody x w) as [o Ho]. destruct IH as [r Hr].
    rewrite (bind_Ok _ _ _ _ _ Ho), (bind_Ok _ _ _ _ _ Hr).
    eexists. reflexivity.
Qed.

Lemma find_generated_world (qc_file output_dir log_path : string) (w : World) :
  snd (find_generated qc_file output_dir log_path w) = w.
Proof.
  unfold find_generated. cbv zeta.
  edestruct (collect_tests possible_extensions
               (fun ext =>
                  (ex <- path_exists
                           (join output_dir
                              (fst (splitext (basename qc_file)) +:+ ext)) ;;
                   ret (if ex
                        then Some (join output_dir
                                     (fst (splitext (basename qc_file)) +:+ ext))
                        else None))%io) w) as [r Hr].
  { intros x w0. eexists. reflexivity. }
  rewrite (bind_Ok _ _ _ _ _ Hr). destruct (negb _); reflexivity.
Qed.

End CompileLog.

(** C7 as stated fails: when the compiler does not finish in time, no
    log is written. *)
Lemma compile_timeout_writes_no_log :
  let env := Scenario.make_env 0 Scenario.run_wine_timeout Scenario.no_fault in
  let out := FBXProcessor._compile_mdl env "/tmp/c/model.qc" "/tmp/c"
               Scenario.scratch_world in
  fst out = Sys.Raise (FBXProcessor.Exception_ "studiomdl compilation timed out") /\
  Sys.is_file (FBXProcessor.compile_log_path "/tmp/c") (Sys.fs (snd out)) = false /\
  Sys.trace (snd out)
    = [Sys.Did (Sys.OpRun (FBXProcessor.wine_cmd "/tmp/c/model.qc") "/tmp/c")].
Proof. cbv zeta. split; [reflexivity|]. split; reflexivity. Qed.

(** With exit code 1 the log is written, and the stage then fails. *)
Example compile_failure_writes_log :
  let env := Scenario.make_env 0 Scenario.run_wine_fails Scenario.no_fault in
  let out := FBXProcessor._compile_mdl env "/tmp/c/model.qc" "/tmp/c"
               Scenario.scratch_world in
  fst out = Sys.Raise (FBXProcessor.Exception_
    "studiomdl compilation error: studiomdl compilation failed. Check compile.log for details.") /\
  Sys.lookup_file "/tmp/c/compile.log" (Sys.files (Sys.fs (snd out)))
    = Some (Sys.Text (FBXProcessor.compile_log_text
                        (FBXProcessor.wine_cmd "/tmp/c/model.qc") 1
                        "compiling" "cannot open texture")).
Proof. cbv zeta. split; reflexivity. Qed.

(** C7 (amended). For a call of the compile stage:
    (a) if the compiler binary is present and the compiler process
        exits, with any exit code, and the log can be written, then
        after the call [compile.log] in the working directory holds
        the command, the exit code and the whole of stdout and stderr;
    (b) if the process times out or cannot be started, the stage raises
        and writes nothing: the world is the one the process left;
    (c) if the compiler binary is absent, the stage raises at once and
        the world is unchanged. *)
Theorem compile_log_written_when_compiler_exits
  (env : Sys.Env) (qc_file output_dir : string) (w : Sys.World) :
  let cmd := FBXProcessor.wine_cmd qc_file in
  let log_path := FBXProcessor.compile_log_path output_dir in
  let started := Sys.record (Sys.Did (Sys.OpRun cmd output_dir)) w in
  let out := FBXProcessor._compile_mdl env qc_file output_dir w in
  (forall returncode stdout stderr fs',
     Sys.exists_path FBXProcessor.studiomdl_path (Sys.fs w) = true ->
     Sys.env_run env cmd output_dir w = (Sys.Completed returncode stdout stderr, fs') ->
     Sys.env_fault env (Sys.OpWrite log_path) (Sys.set_fs fs' started) = None ->
     Sys.is_dir (Py.dirname log_path) fs' = true ->
     Sys.lookup_file log_path (Sys.files (Sys.fs (snd out)))
       = Some (Sys.Text (FBXProcessor.compile_log_text cmd returncode stdout stderr))) /\
  (forall r fs',
     Sys.exists_path FBXProcessor.studiomdl_path (Sys.fs w) = true ->
     Sys.env_run env cmd output_dir w = (r, fs') ->
     r = Sys.TimedOut \/ (exists e, r = Sys.NotStarted e) ->
     (exists e, fst out = Sys.Raise e) /\ snd out = Sys.set_fs fs' started) /\
  (Sys.exists_path FBXProcessor.studiomdl_path (Sys.fs w) = false ->
   out = (Sys.Raise (FBXProcessor.Exception_
                       ("studiomdl.exe not found at " +:+ FBXProcessor.studiomdl_path)),
          w)).
Proof.
  cbv zeta. split; [|split].
  - intros returncode stdout stderr fs' Hexe Hrun Hfault Hdir.
    unfold FBXProcessor._compile_mdl.
    rewrite (bind_Ok _ _ w w true) by (unfold IO.path_exists, Sys.bind, Sys.get, Sys.ret;
                                        now rewrite Hexe).
    cbn [negb]. unfold Sys.try_except.
    erewrite bind_Ok; cycle 1.
    { unfold IO.run_process. rewrite Hrun. reflexivity. }
    cbv beta iota zeta.
    erewrite bind_Ok; cycle 1.
    { unfold IO.write_file.
      erewrite bind_Ok; cycle 1.
      { unfold IO.perform. rewrite Hfault. reflexivity. }
      unfold Sys.bind, Sys.get. cbn [Sys.fs Sys.set_fs Sys.record]. rewrite Hdir.
      reflexivity. }
    set (w2 := Sys.set_fs _ _).
    assert (Hlog : Sys.lookup_file (FBXProcessor.compile_log_path output_dir)
                     (Sys.files (Sys.fs w2))
                   = Some (Sys.Text (FBXProcessor.compile_log_text
                                       (FBXProcessor.wine_cmd qc_file)
                                       returncode stdout stderr))).
    { unfold w2. cbn. apply lookup_store. }
    destruct (negb (returncode =? 0)).
    + cbn. exact Hlog.
    + pose proof (find_generated_world qc_file output_dir
                    (FBXProcessor.compile_log_path output_dir) w2) as Hw.
      destruct (FBXProcessor.find_generated _ _ _ w2) as [[files|e] w3].
      * cbn in Hw |- *. now subst w3.
      * cbn in Hw. subst w3. unfold FBXProcessor.stage_handlers.
        destruct (Sys.is_TimeoutExpired e); [exact Hlog|].
        destruct (Sys.is_Exception e); exact Hlog.
  - intros r fs' Hexe Hrun Hr.
    unfold FBXProcessor._compile_mdl.
    rewrite (bind_Ok _ _ w w true) by (unfold IO.path_exists, Sys.bind, Sys.get, Sys.ret;
                                        now rewrite Hexe).
    cbn [negb]. unfold Sys.try_except.
    destruct Hr as [-> | [e ->]].
    + erewrite bind_Raise; cycle 1.
      { unfold IO.run_process. rewrite Hrun. reflexivity. }
      cbn. split; [eexists; reflexivity | reflexivity].
    + erewrite bind_Raise; cycle 1.
      { unfold IO.run_process. rewrite Hrun. reflexivity. }
      unfold FBXProcessor.stage_handlers.
      destruct (Sys.is_TimeoutExpired e); [cbn; eauto|].
      destruct (Sys.is_Exception e); cbn; eauto.
  - intros Hexe. unfold FBXProcessor._compile_mdl.
    rewrite (bind_Ok _ _ w w false) by (unfold IO.path_exists, Sys.bind, Sys.get, Sys.ret;
                                         now rewrite Hexe).
    reflexivity.
Qed.

Lemma compile_log_written_when_compiler_exits_witness :
  let env := Scenario.make_env 0 Scenario.run_wine_fails Scenario.no_fault in
  let cmd := FBXProcessor.wine_cmd "/tmp/c/model.qc" in
  Sys.exists_path FBXProcessor.studiomdl_path (Sys.fs Scenario.scratch_world) = true /\
  Sys.env_run env cmd "/tmp/c" Scenario.scratch_world
    = (Sys.Completed 1 "compiling" "cannot open texture", Sys.fs Scenario.scratch_world) /\
  Sys.lookup_file (FBXProcessor.compile_log_path "/tmp/c")
    (Sys.files (Sys.fs (snd (FBXProcessor._compile_mdl env "/tmp/c/model.qc" "/tmp/c"
                               Scenario.scratch_world))))
    = Some (Sys.Text (FBXProcessor.compile_log_text cmd 1
                        "compiling" "cannot open texture")).
Proof.
  cbv zeta. split; [reflexivity|]. split; [reflexivity|].
  destruct (compile_log_written_when_compiler_exits
              (Scenario.make_env 0 Scenario.run_wine_fails Scenario.no_fault)
              "/tmp/c/model.qc" "/tmp/c" Scenario.scratch_world) as (Ha & _).
  exact (Ha 1 "compiling" "cannot open texture" (Sys.fs Scenario.scratch_world)
           eq_refl eq_refl eq_refl eq_refl).
Defined.

(** ** The conversion pipeline: failure of stage 1 and cleanup *)

Section Pipeline.
Import Py Sys IO FBXProcessor PipelineNotions.
Variable env : Env.

Lemma try_finally_world {A} (m : M A) (f : M unit) (w : World) :
  snd (try_finally m f w) = snd (f (snd (m w))).
Proof.
  unfold try_finally. destruct (m w) as [r w']. cbn.
  destruct (f w') as [[u|e] w'']; reflexivity.
Qed.

Lemma is_dir_filter_under (d : string) (l : list string) :
  existsb (String.eqb d) (List.filter (fun q => negb (under d q)) l) = false.
Proof.
  induction l as [|q l IH]; simpl; [reflexivity|].
  destruct (under d q) eqn:Hu; simpl; [exact IH|].
  rewrite IH, orb_false_r. unfold under in Hu.
  apply orb_false_iff in Hu. destruct Hu as [Hq _].
  now rewrite String.eqb_sym.
Qed.

Lemma is_dir_rmtree (d : string) (x : FS) : is_dir d (rmtree_fs d x) = false.
Proof.
  unfold rmtree_fs. destruct (is_dir d x) eqn:E; [|exact E].
  unfold is_dir. cbn. apply is_dir_filter_under.
Qed.

Lemma cleanup_spec (d : string) (w : World) :
  d <> EmptyString ->
  fst (cleanup d w) = Ok tt /\
  is_dir d (fs (snd (cleanup d w))) = false /\
  (exists_path d (fs w) = true ->
   cleanup d w = (Ok tt, set_fs (rmtree_fs d (fs w)) (record (Did (OpRmtree d)) w))).
Proof.
  intros Hd. apply String.eqb_neq in Hd.
  unfold cleanup, bind, path_exists, get, ret. rewrite Hd. cbn.
  destruct (exists_path d (fs w)) eqn:Hex; cbn.
  - split; [reflexivity|]. split; [apply is_dir_rmtree | reflexivity].
  - split; [reflexivity|]. split; [|discriminate].
    unfold exists_path in Hex. now apply orb_false_iff in Hex.
Qed.

Lemma join_nonempty (a b : string) : b <> EmptyString -> join a b <> EmptyString.
Proof.
  intros Hb. unfold join. destruct (startswith b "/"); [exact Hb|].
  destruct (_ || _).
  - destruct a; sapp0; [exact Hb | discriminate].
  - destruct a; sapp0; discriminate.
Qed.

Lemma scratch_dir_nonempty (w : World) : scratch_dir env w <> EmptyString.
Proof. apply join_nonempty. discriminate. Qed.

Lemma mkdtemp_ok (w : World) :
  env_fault env (OpMkdtemp "fbx_conversion_") w = None ->
  mkdtemp env "fbx_conversion_" w = (Ok (scratch_dir env w), after_mkdtemp env w).
Proof.
  intros H. unfold mkdtemp, bind, perform, get, modify, ret. rewrite H. reflexivity.
Qed.


Lemma convert_unfold (fbx_path output_dir : string) (scale : pyfloat)
  (bodygroup_name : string) (cb : callback) (w : World) :
  env_fault env (OpMkdtemp "fbx_conversion_") w = None ->
  convert_fbx_to_mdl env fbx_path output_dir scale bodygroup_name cb w =
    try_finally
      (try_except
         (pipeline env fbx_path output_dir scale bodygroup_name cb (scratch_dir env w))
         (on_Exception (fun e => ret (Failure (message e)))))
      (cleanup (scratch_dir env w)) (after_mkdtemp env w).
Proof.
  intros H. unfold convert_fbx_to_mdl.
  now rewrite (bind_Ok _ _ _ _ _ (mkdtemp_ok w H)).
Qed.

End Pipeline.



(** ** The worker and the upload handler under faults *)


(** C2, the failing input: the conversion succeeds and the disk is full
    when the result archive is opened.  Progress 100 was reported by the
    pipeline before the archive is built; the job ends failed with
    progress 100. *)
Lemma zip_fault_leaves_failed_job_at_100 :
  let env := Scenario.make_env 0 Scenario.run_ok Scenario.fault_on_zip in
  let out := App.process_fbx_job env "job-1" "uploads/job-1_model.fbx"
               (Sys.Finite 1) "default" Scenario.world_with_job in
  fst out = Sys.Ok tt /\
  (Job.job_status <$> Sys.jobs (snd out) !! "job-1") = Some Job.failed /\
  (Job.progress <$> Sys.jobs (snd out) !! "job-1") = Some 100 /\
  (Job.error_message <$> Sys.jobs (snd out) !! "job-1")
    = Some (Some "[Errno 28] No space left on device") /\
  List.filter (fun e => match e with Sys.Progress _ _ => true | _ => false end)
              (Sys.trace (snd out))
    = [Sys.Progress "job-1" 10; Sys.Progress "job-1" 40; Sys.Progress "job-1" 60;
       Sys.Progress "job-1" 90; Sys.Progress "job-1" 100].
Proof. cbv zeta. vm_compute. repeat split. Qed.

(** ** Steps that touch no job *)

Section Quiet.
Import Py Sys IO WorkerNotions.
Variable env : Env.

Lemma progress_values_app (job_id : string) (t1 t2 : list event) :
  progress_values job_id (t1 ++ t2)
  = progress_values job_id t1 ++ progress_values job_id t2.
Proof.
  induction t1 as [|[o|j pct] t1 IH]; simpl; [reflexivity | exact IH |].
  destruct (String.eqb j job_id); simpl; now rewrite IH.
Qed.

Lemma quiet_refl (w : World) : quiet w w.
Proof. split; [reflexivity | intros; reflexivity]. Qed.

Lemma quiet_trans (w1 w2 w3 : World) : quiet w1 w2 -> quiet w2 w3 -> quiet w1 w3.
Proof.
  intros [Hj1 Hp1] [Hj2 Hp2]. split; [congruence|].
  intros job_id. now rewrite Hp2, Hp1.
Qed.

Lemma quiet_set_fs (x : FS) (w : World) : quiet w (set_fs x w).
Proof. split; [reflexivity | intros; reflexivity]. Qed.

Lemma quiet_record_did (o : op) (w : World) : quiet w (record (Did o) w).
Proof.
  split; [reflexivity|]. intros job_id. cbn.
  rewrite progress_values_app. cbn. apply app_nil_r.
Qed.

Lemma quiet_ret {A} (a : A) : quiet_comp (ret a).
Proof. intros w. apply quiet_refl. Qed.

Lemma quiet_raise {A} (e : exn) : quiet_comp (@raise A e).
Proof. intros w. apply quiet_refl. Qed.

Lemma quiet_bind {A B} (m : M A) (k : A -> M B) :
  quiet_comp m -> (forall a, quiet_comp (k a)) -> quiet_comp (bind m k).
Proof.
  intros Hm Hk w. unfold bind. specialize (Hm w).
  destruct (m w) as [[a|e] w1]; cbn in *; [|exact Hm].
  eapply quiet_trans; [exact Hm | apply Hk].
Qed.

Lemma quiet_get_bind {B} (k : World -> M B) :
  (forall w0, quiet_comp (k w0)) -> quiet_comp (bind get k).
Proof. intros Hk. apply quiet_bind; [intros w; apply quiet_refl | exact Hk]. Qed.

Lemma quiet_try_except {A} (m : M A) (h : exn -> option (M A)) :
  quiet_comp m -> (forall e h', h e = Some h' -> quiet_comp h') ->
  quiet_comp (try_except m h).
Proof.
  intros Hm Hh w. unfold try_except. specialize (Hm w).
  destruct (m w) as [[a|e] w1]; cbn in *; [exact Hm|].
  destruct (h e) as [h'|] eqn:E; [|exact Hm].
  eapply quiet_trans; [exact Hm | now apply (Hh e h')].
Qed.

Lemma quiet_try_finally {A} (m : M A) (f : M unit) :
  quiet_comp m -> quiet_comp f -> quiet_comp (try_finally m f).
Proof.
  intros Hm Hf w. rewrite try_finally_world.
  eapply quiet_trans; [apply Hm | apply Hf].
Qed.

Lemma quiet_stage_handlers {A} (a b : string) (e : exn) (h' : M A) :
  FBXProcessor.stage_handlers a b e = Some h' -> quiet_comp h'.
Proof.
  unfold FBXProcessor.stage_handlers.
  destruct (is_TimeoutExpired e); [intros [= <-]; apply quiet_raise|].
  destruct (is_Exception e); [intros [= <-]; apply quiet_raise | discriminate].
Qed.

Lemma quiet_on_Exception {A} (h : exn -> M A) (e : exn) (h' : M A) :
  (forall e, quiet_comp (h e)) -> on_Exception h e = Some h' -> quiet_comp h'.
Proof.
  intros Hh. unfold on_Exception. destruct (is_Exception e); [|discriminate].
  intros [= <-]. apply Hh.
Qed.

Lemma quiet_modify_fs (f : World -> FS) :
  quiet_comp (modify (fun w => set_fs (f w) w)).
Proof. intros w. apply quiet_set_fs. Qed.

Lemma quiet_perform (o : op) : quiet_comp (perform env o).
Proof.
  intros w. unfold perform. destruct (env_fault env o w); apply quiet_record_did.
Qed.

Lemma quiet_collect {A B} (l : list A) (body : A -> M (option B)) :
  (forall x, quiet_comp (body x)) -> quiet_comp (collect l body).
Proof.
  intros Hb. induction l as [|x l IH]; cbn [collect]; [apply quiet_ret|].
  apply quiet_bind; [apply Hb|]. intros o.
  apply quiet_bind; [exact IH|]. intros rest. apply quiet_ret.
Qed.

Lemma quiet_for_each {A} (l : list A) (body : A -> M unit) :
  (forall x, quiet_comp (body x)) -> quiet_comp (for_each l body).
Proof.
  intros Hb. induction l as [|x l IH]; cbn [for_each]; [apply quiet_ret|].
  apply quiet_bind; [apply Hb | intros _; exact IH].
Qed.

End Quiet.

(** Decomposes a computation, by its syntax, into steps known to be
    quiet. *)
Ltac quiet_step :=
  lazymatch goal with
  | |- WorkerNotions.quiet_comp (Sys.ret _) => apply quiet_ret
  | |- WorkerNotions.quiet_comp (Sys.raise _) => apply quiet_raise
  | |- WorkerNotions.quiet_comp (IO.perform _ _) => apply quiet_perform
  | |- WorkerNotions.quiet_comp (Sys.modify _) => apply quiet_modify_fs
  | |- WorkerNotions.quiet_comp (Sys.bind Sys.get _) => apply quiet_get_bind; intros ?
  | |- WorkerNotions.quiet_comp (Sys.bind _ _) => apply quiet_bind; [|intros ?]
  | |- WorkerNotions.quiet_comp (if ?b then _ else _) => destruct b
  | |- WorkerNotions.quiet_comp (match ?x with _ => _ end) => destruct x
  end.

Ltac quiet_auto := repeat quiet_step.

Section QuietStages.
Import Py Sys IO WorkerNotions FBXProcessor.
Variable env : Env.

Lemma quiet_mkdtemp (prefix : string) : quiet_comp (mkdtemp env prefix).
Proof. unfold mkdtemp. quiet_auto. Qed.

Lemma quiet_write_file (path : string) (x : fdata) : quiet_comp (write_file env path x).
Proof. unfold write_file. quiet_auto. Qed.

Lemma quiet_run_process (cmd : list string) (cwd : string) :
  quiet_comp (run_process env cmd cwd).
Proof.
  intros w. unfold run_process. destruct (env_run env cmd cwd w) as [r fs'].
  assert (H : quiet w (set_fs fs' (record (Did (OpRun cmd cwd)) w))).
  { eapply quiet_trans; [apply quiet_record_did | apply quiet_set_fs]. }
  destruct r; exact H.
Qed.

Lemma quiet_listdir (d : string) : quiet_comp (listdir env d).
Proof. unfold listdir. quiet_auto. Qed.

Lemma quiet_path_exists (p : string) : quiet_comp (path_exists p).
Proof. unfold path_exists. quiet_auto. Qed.

Lemma quiet_copy2 (src dst : string) : quiet_comp (copy2 env src dst).
Proof. unfold copy2. quiet_auto. Qed.

Lemma quiet_rmtree (d : string) : quiet_comp (rmtree_ignore_errors d).
Proof.
  intros w. unfold rmtree_ignore_errors, modify. cbn.
  eapply quiet_trans; [apply quiet_record_did | apply quiet_set_fs].
Qed.

Lemma quiet_makedirs (d : string) : quiet_comp (makedirs env d).
Proof. unfold makedirs. quiet_auto. Qed.

Lemma quiet_remove (p : string) : quiet_comp (remove env p).
Proof. unfold remove. quiet_auto. Qed.

Lemma quiet_convert_fbx_to_smd (fbx_path d : string) :
  quiet_comp (_convert_fbx_to_smd env fbx_path d).
Proof.
  unfold _convert_fbx_to_smd.
  apply quiet_bind; [apply quiet_write_file | intros _].
  apply quiet_try_except; [|intros ? ? ?; eapply quiet_stage_handlers; eassumption].
  apply quiet_bind; [apply quiet_run_process | intros [[rc out] err]].
  destruct (negb (rc =? 0)); [apply quiet_raise|].
  apply quiet_bind; [apply quiet_listdir | intros names].
  destruct (smd_paths d names); [apply quiet_raise | apply quiet_ret].
Qed.

Lemma quiet_generate_qc_file (fbx_path : string) (smd_files : list string)
  (d : string) (scale : pyfloat) (bodygroup_name : string) :
  quiet_comp (_generate_qc_file env fbx_path smd_files d scale bodygroup_name).
Proof.
  unfold _generate_qc_file.
  apply quiet_bind; [apply quiet_write_file | intros _; apply quiet_ret].
Qed.

Lemma quiet_find_generated (qc_file d log_path : string) :
  quiet_comp (find_generated qc_file d log_path).
Proof. intros w. rewrite find_generated_world. apply quiet_refl. Qed.

Lemma quiet_compile_mdl (qc_file d : string) : quiet_comp (_compile_mdl env qc_file d).
Proof.
  unfold _compile_mdl.
  apply quiet_bind; [apply quiet_path_exists | intros found].
  destruct (negb found); [apply quiet_raise|].
  apply quiet_try_except; [|intros ? ? ?; eapply quiet_stage_handlers; eassumption].
  apply quiet_bind; [apply quiet_run_process | intros [[rc out] err]].
  apply quiet_bind; [apply quiet_write_file | intros _].
  destruct (negb (rc =? 0)); [apply quiet_raise | apply quiet_find_generated].
Qed.

Lemma quiet_copy_results (output_dir : string) (result_files : list string) :
  quiet_comp (collect result_files (fun file_path =>
    (ex <- path_exists file_path ;;
     if ex
     then
       let dest_path := join output_dir (basename file_path) in
       copy2 env file_path dest_path ;;
       ret (Some dest_path)
     else ret None)%io)).
Proof.
  apply quiet_collect. intros file_path.
  apply quiet_bind; [apply quiet_path_exists | intros ex].
  destruct ex; [|apply quiet_ret].
  apply quiet_bind; [apply quiet_copy2 | intros _; apply quiet_ret].
Qed.

Lemma quiet_cleanup (d : string) : quiet_comp (cleanup d).
Proof.
  unfold cleanup.
  apply quiet_bind; [apply quiet_path_exists | intros ex].
  destruct (_ && _); [apply quiet_rmtree | apply quiet_ret].
Qed.

Lemma quiet_zip_write (zip_path file_path arcname : string) :
  quiet_comp (App.zip_write env zip_path file_path arcname).
Proof. unfold App.zip_write. quiet_auto. Qed.

Lemma quiet_create_result_zip (files : list string) (zip_path original : string) :
  quiet_comp (App.create_result_zip env files zip_path original).
Proof.
  unfold App.create_result_zip.
  apply quiet_bind; [apply quiet_perform | intros _].
  apply quiet_get_bind. intros w0.
  destruct (negb _); [apply quiet_raise|].
  apply quiet_bind; [apply quiet_modify_fs | intros _].
  apply quiet_bind.
  - apply quiet_for_each. intros file_path.
    apply quiet_bind; [apply quiet_path_exists | intros ex].
    destruct ex; [apply quiet_zip_write | apply quiet_ret].
  - intros _. apply quiet_bind; [apply quiet_path_exists | intros ex].
    destruct ex; [apply quiet_zip_write | apply quiet_ret].
Qed.

Lemma quiet_remove_upload (fbx_path : string) :
  quiet_comp (App.remove_upload env fbx_path).
Proof.
  unfold App.remove_upload.
  apply quiet_try_except.
  - apply quiet_bind; [apply quiet_path_exists | intros ex].
    destruct ex; [apply quiet_remove | apply quiet_ret].
  - intros e h' H.
    apply (quiet_on_Exception (fun _ => ret tt) e h'); [|exact H].
    intros _. apply quiet_ret.
Qed.

End QuietStages.

(** ** Progress of a job over the run of its worker *)

Section Progress.
Import Py Sys IO WorkerNotions TrackNotions FBXProcessor App.
Variable env : Env.
Variable J : string.

Lemma last_cons_default {A} (l : list A) (a d d' : A) :
  List.last (a :: l) d = List.last (a :: l) d'.
Proof.
  revert a. induction l as [|b l IH]; intros a; [reflexivity|].
  change (List.last (a :: b :: l) d) with (List.last (b :: l) d).
  change (List.last (a :: b :: l) d') with (List.last (b :: l) d').
  apply IH.
Qed.

Lemma last_app_default {A} (l1 l2 : list A) (d : A) :
  List.last (l1 ++ l2) d = List.last l2 (List.last l1 d).
Proof.
  revert d. induction l1 as [|x l1 IH]; intros d; [reflexivity|].
  destruct l1 as [|y l1].
  - destruct l2 as [|a l2]; [reflexivity|].
    change (List.last ([x] ++ a :: l2) d) with (List.last (a :: l2) d).
    change (List.last [x] d) with x. apply last_cons_default.
  - change (List.last ((x :: y :: l1) ++ l2) d) with (List.last ((y :: l1) ++ l2) d).
    change (List.last (x :: y :: l1) d) with (List.last (y :: l1) d).
    apply IH.
Qed.

Lemma advances_quiet (w w' : World) : quiet w w' -> advances J [] w w'.
Proof.
  intros [Hj Hp]. split; [now rewrite Hp, app_nil_r|].
  intros j Hl. exists j. rewrite Hj. auto.
Qed.

Lemma advances_trans (e1 e2 : list Z) (w w1 w2 : World) :
  advances J e1 w w1 -> advances J e2 w1 w2 -> advances J (e1 ++ e2) w w2.
Proof.
  intros [Hp1 Hj1] [Hp2 Hj2]. split; [now rewrite Hp2, Hp1, app_assoc|].
  intros j Hl. destruct (Hj1 j Hl) as (j1 & Hl1 & Hpr1 & Hs1 & He1).
  destruct (Hj2 j1 Hl1) as (j2 & Hl2 & Hpr2 & Hs2 & He2).
  exists j2. split; [exact Hl2|]. rewrite last_app_default.
  repeat split; congruence.
Qed.

Lemma advances_then_quiet (ext : list Z) (w w1 w2 : World) :
  advances J ext w w1 -> quiet w1 w2 -> advances J ext w w2.
Proof.
  intros H1 H2. rewrite <- (app_nil_r ext).
  eapply advances_trans; [exact H1 | now apply advances_quiet].
Qed.

Lemma callback_advances (pct : Z) (text : string) (w : World) :
  exists w1, progress_callback env J pct text w = (Ok tt, w1) /\
             advances J [pct] w w1.
Proof.
  eexists. split; [reflexivity|]. split.
  - cbn. rewrite progress_values_app. cbn. now rewrite String.eqb_refl.
  - intros j Hl. cbn. rewrite !lookup_alter_eq, Hl. cbn.
    eexists. split; [reflexivity|]. auto.
Qed.

(** The pipeline driven by the callback of the worker: the values
    reported are an initial run of the checkpoints, all of them when it
    returns. *)
Lemma pipeline_advances (fbx_path output_dir : string) (scale : pyfloat)
  (bodygroup_name d : string) (w : World) :
  let o := pipeline env fbx_path output_dir scale bodygroup_name
             (Some (progress_callback env J)) d w in
  exists ext,
    advances J ext w (snd o) /\
    In ext [[10]; [10; 40]; [10; 40; 60]; [10; 40; 60; 90]; checkpoints] /\
    (forall r, fst o = Ok r -> ext = checkpoints).
Proof.
  cbv zeta. unfold pipeline, report.
  destruct (callback_advances 10 "Converting FBX to SMD using Blender..." w)
    as (w1 & E1 & A1).
  rewrite (bind_Ok _ _ _ _ _ E1).
  pose proof (quiet_convert_fbx_to_smd env fbx_path d w1) as Q2.
  destruct (_convert_fbx_to_smd env fbx_path d w1) as [[smd_files|e] w2] eqn:E2;
    cbn in Q2.
  2:{ rewrite (bind_Raise _ _ _ _ _ E2). exists [10]. cbn.
      split; [eapply advances_then_quiet; eassumption|].
      split; [auto | discriminate]. }
  rewrite (bind_Ok _ _ _ _ _ E2).
  assert (A2 : advances J [10] w w2) by (eapply advances_then_quiet; eassumption).
  destruct (callback_advances 40 "Generating QC file..." w2) as (w3 & E3 & A3).
  rewrite (bind_Ok _ _ _ _ _ E3).
  assert (A3' : advances J [10; 40] w w3) by (apply (advances_trans [10] [40] w w2 w3); assumption).
  pose proof (quiet_generate_qc_file env fbx_path smd_files d scale bodygroup_name w3)
    as Q4.
  destruct (_generate_qc_file env fbx_path smd_files d scale bodygroup_name w3)
    as [[qc_file|e] w4] eqn:E4; cbn in Q4.
  2:{ rewrite (bind_Raise _ _ _ _ _ E4). exists [10; 40]. cbn.
      split; [eapply advances_then_quiet; eassumption|].
      split; [auto | discriminate]. }
  rewrite (bind_Ok _ _ _ _ _ E4).
  assert (A4 : advances J [10; 40] w w4) by (eapply advances_then_quiet; eassumption).
  destruct (callback_advances 60 "Compiling MDL file..." w4) as (w5 & E5 & A5).
  rewrite (bind_Ok _ _ _ _ _ E5).
  assert (A5' : advances J [10; 40; 60] w w5)
    by (apply (advances_trans [10; 40] [60] w w4 w5); assumption).
  pose proof (quiet_compile_mdl env qc_file d w5) as Q6.
  destruct (_compile_mdl env qc_file d w5) as [[mdl_files|e] w6] eqn:E6; cbn in Q6.
  2:{ rewrite (bind_Raise _ _ _ _ _ E6). exists [10; 40; 60]. cbn.
      split; [eapply advances_then_quiet; eassumption|].
      split; [auto | discriminate]. }
  rewrite (bind_Ok _ _ _ _ _ E6). cbv zeta.
  assert (A6 : advances J [10; 40; 60] w w6) by (eapply advances_then_quiet; eassumption).
  destruct (callback_advances 90 "Copying results..." w6) as (w7 & E7 & A7).
  rewrite (bind_Ok _ _ _ _ _ E7).
  assert (A7' : advances J [10; 40; 60; 90] w w7)
    by (apply (advances_trans [10; 40; 60] [90] w w6 w7); assumption).
  pose proof (quiet_copy_results env output_dir (smd_files ++ [qc_file] ++ mdl_files) w7)
    as Q8.
  match goal with
  | |- context [bind (collect ?l ?body) ?k w7] =>
      destruct (collect l body w7) as [[final_files|e] w8] eqn:E8
  end; cbn in Q8.
  2:{ rewrite (bind_Raise _ _ _ _ _ E8). exists [10; 40; 60; 90]. cbn.
      split; [eapply advances_then_quiet; eassumption|].
      split; [auto | discriminate]. }
  rewrite (bind_Ok _ _ _ _ _ E8).
  assert (A8 : advances J [10; 40; 60; 90] w w8)
    by (eapply advances_then_quiet; eassumption).
  destruct (callback_advances 100 "Conversion completed!" w8) as (w9 & E9 & A9).
  rewrite (bind_Ok _ _ _ _ _ E9).
  exists checkpoints. cbn [ret fst snd].
  split; [apply (advances_trans [10; 40; 60; 90] [100] w w8 w9); assumption|].
  split; [cbn; auto 10 | reflexivity].
Qed.

Lemma convert_advances (fbx_path output_dir : string) (scale : pyfloat)
  (bodygroup_name : string) (w : World) :
  let o := convert_fbx_to_mdl env fbx_path output_dir scale bodygroup_name
             (Some (progress_callback env J)) w in
  exists ext,
    advances J ext w (snd o) /\
    In ext [[]; [10]; [10; 40]; [10; 40; 60]; [10; 40; 60; 90]; checkpoints] /\
    (forall files text, fst o = Ok (Success files text) -> ext = checkpoints).
Proof.
  cbv zeta. unfold convert_fbx_to_mdl.
  pose proof (quiet_mkdtemp env "fbx_conversion_" w) as Q1.
  destruct (mkdtemp env "fbx_conversion_" w) as [[d|e] w1] eqn:E1; cbn in Q1.
  2:{ rewrite (bind_Raise _ _ _ _ _ E1). exists []. cbn.
      split; [now apply advances_quiet|]. split; [auto | intros ? ? Hr; cbn in Hr; congruence]. }
  rewrite (bind_Ok _ _ _ _ _ E1).
  destruct (pipeline_advances fbx_path output_dir scale bodygroup_name d w1)
    as (ext & A & Hin & Hok).
  assert (A' : advances J ext w (snd (pipeline env fbx_path output_dir scale
                 bodygroup_name (Some (progress_callback env J)) d w1))).
  { change ext with ([] ++ ext).
    eapply advances_trans; [apply advances_quiet; exact Q1 | exact A]. }
  assert (Hin' : In ext [[]; [10]; [10; 40]; [10; 40; 60]; [10; 40; 60; 90];
                         checkpoints]) by (right; exact Hin).
  clear A Hin. exists ext.
  unfold try_finally, try_except.
  destruct (pipeline env fbx_path output_dir scale bodygroup_name
              (Some (progress_callback env J)) d w1) as [[r|e] w2]; cbn in A', Hok.
  - pose proof (quiet_cleanup d w2) as Q3.
    destruct (cleanup d w2) as [[u|e] w3]; cbn in Q3 |- *.
    + split; [eapply advances_then_quiet; eassumption|].
      split; [exact Hin'|]. intros files text _. now apply (Hok r).
    + split; [eapply advances_then_quiet; eassumption|].
      split; [exact Hin' | intros ? ? Hr; cbn in Hr; congruence].
  - unfold on_Exception, ret. destruct (is_Exception e); cbv beta iota.
    + pose proof (quiet_cleanup d w2) as Q3.
      destruct (cleanup d w2) as [[u|e'] w3]; cbn in Q3 |- *.
      * split; [eapply advances_then_quiet; eassumption|].
        split; [exact Hin' | intros ? ? Hr; cbn in Hr; congruence].
      * split; [eapply advances_then_quiet; eassumption|].
        split; [exact Hin' | intros ? ? Hr; cbn in Hr; congruence].
    + pose proof (quiet_cleanup d w2) as Q3.
      destruct (cleanup d w2) as [[u|e'] w3]; cbn in Q3 |- *.
      * split; [eapply advances_then_quiet; eassumption|].
        split; [exact Hin' | intros ? ? Hr; cbn in Hr; congruence].
      * split; [eapply advances_then_quiet; eassumption|].
        split; [exact Hin' | intros ? ? Hr; cbn in Hr; congruence].
Qed.

Lemma at_quiet (w w' : World) (L : list Z) (j : Job.t) :
  at_job J w L j -> quiet w w' -> at_job J w' L j.
Proof. intros [Hp Hl] [Hj Hq]. split; [now rewrite Hq | now rewrite Hj]. Qed.

Lemma at_update (f : Job.t -> Job.t) (w : World) (L : list Z) (j : Job.t) :
  at_job J w L j ->
  exists w', update_job J f w = (Ok tt, w') /\ at_job J w' L (f j).
Proof.
  intros [Hp Hl]. eexists. split; [reflexivity|].
  split; [exact Hp|]. cbn. now rewrite lookup_alter_eq, Hl.
Qed.

Lemma at_assign (pct : Z) (w : World) (L : list Z) (j : Job.t) :
  at_job J w L j ->
  exists w', assign_progress J pct w = (Ok tt, w') /\
             at_job J w' (L ++ [pct]) (Job.set_progress pct j).
Proof.
  intros [Hp Hl]. eexists. split; [reflexivity|]. split.
  - cbn. rewrite progress_values_app, Hp. cbn. now rewrite String.eqb_refl.
  - cbn. now rewrite lookup_alter_eq, Hl.
Qed.

Lemma at_advances (ext : list Z) (w w' : World) (L : list Z) (j : Job.t) :
  at_job J w L j -> advances J ext w w' ->
  exists j', at_job J w' (L ++ ext) j' /\
             Job.progress j' = List.last ext (Job.progress j) /\
             Job.job_status j' = Job.job_status j /\
             Job.error_message j' = Job.error_message j.
Proof.
  intros [Hp Hl] [Hq Hj]. destruct (Hj j Hl) as (j' & Hl' & H1 & H2 & H3).
  exists j'. split; [|auto]. split; [now rewrite Hq, Hp | exact Hl'].
Qed.

Lemma at_mark_failed (text line : string) (w : World) (L : list Z) (j : Job.t) :
  at_job J w L j ->
  exists w' j', mark_failed J text line w = (Ok tt, w') /\ at_job J w' L j' /\
                Job.job_status j' = Job.failed /\
                Job.error_message j' = Some text /\
                Job.progress j' = Job.progress j.
Proof.
  intros [Hp Hl]. eexists _, _. split; [reflexivity|]. split; [split|].
  - exact Hp.
  - cbn. rewrite !lookup_alter_eq, Hl. reflexivity.
  - auto.
Qed.

End Progress.

(** ** The worker: how a job ends *)

Section Worker.
Import Py Sys IO WorkerNotions TrackNotions RunNotions FBXProcessor App.
Variable env : Env.
Variable J : string.

Lemma job_body_outcome (fbx_path : string) (scale : pyfloat) (bodygroup_name : string)
  (w : World) (L : list Z) (j : Job.t) :
  at_job J w L j ->
  let o := job_body env J fbx_path scale bodygroup_name w in
  exists ext j',
    at_job J (snd o) (L ++ ext) j' /\
    Job.progress j' = List.last ext (Job.progress j) /\
    match fst o with
    | Ok _ =>
        (Job.job_status j' = Job.completed /\ ext = checkpoints ++ [100]) \/
        (Job.job_status j' = Job.failed /\ is_Some (Job.error_message j') /\
         In ext initial_runs)
    | Raise _ => Job.job_status j' = Job.processing /\ In ext initial_runs
    end.
Proof.
  intros Hat. cbv zeta. unfold job_body.
  destruct (at_update J (Job.set_status Job.processing) w L j Hat)
    as (w1 & E1 & At1).
  rewrite (bind_Ok _ _ _ _ _ E1).
  destruct (at_update J
              (Job.append_log ("Starting FBX processing for job " +:+ J)) w1 L _ At1)
    as (w2 & E2 & At2).
  rewrite (bind_Ok _ _ _ _ _ E2). cbv zeta.
  set (j2 := Job.append_log _ (Job.set_status Job.processing j)) in At2.
  assert (Hj2 : Job.progress j2 = Job.progress j /\ Job.job_status j2 = Job.processing)
    by (split; reflexivity).
  destruct Hj2 as [Hp2 Hs2]. clearbody j2.
  pose proof (quiet_makedirs env (join OUTPUT_FOLDER J) w2) as Q3.
  destruct (makedirs env (join OUTPUT_FOLDER J) w2) as [[u|e] w3] eqn:E3; cbn in Q3.
  2:{ rewrite (bind_Raise _ _ _ _ _ E3). exists [], j2. cbn.
      rewrite app_nil_r. split; [eapply at_quiet; eassumption|].
      split; [exact Hp2|]. split; [exact Hs2 | now left]. }
  rewrite (bind_Ok _ _ _ _ _ E3).
  assert (At3 : at_job J w3 L j2) by (eapply at_quiet; eassumption).
  destruct (convert_advances env J fbx_path (join OUTPUT_FOLDER J) scale
              bodygroup_name w3) as (ext & A & Hin & Hok).
  destruct (convert_fbx_to_mdl env fbx_path (join OUTPUT_FOLDER J) scale
              bodygroup_name (Some (progress_callback env J)) w3)
    as [[r|e] w4] eqn:E4; cbn in A, Hok.
  2:{ rewrite (bind_Raise _ _ _ _ _ E4).
      destruct (at_advances J ext w3 w4 L j2 At3 A) as (j4 & At4 & Hp4 & Hs4 & _).
      exists ext, j4. cbn. split; [exact At4|].
      split; [congruence|]. split; [congruence | exact Hin]. }
  rewrite (bind_Ok _ _ _ _ _ E4).
  destruct (at_advances J ext w3 w4 L j2 At3 A) as (j4 & At4 & Hp4 & Hs4 & _).
  destruct r as [files text|error].
  - specialize (Hok files text eq_refl). subst ext.
    set (zip_path := join (join OUTPUT_FOLDER J) (J +:+ "_result.zip")).
    pose proof (quiet_create_result_zip env files zip_path fbx_path w4) as Q5.
    destruct (create_result_zip env files zip_path fbx_path w4) as [[u'|e] w5] eqn:E5;
      cbn in Q5.
    2:{ rewrite (bind_Raise _ _ _ _ _ E5). exists checkpoints, j4. cbn [fst snd].
        split; [eapply at_quiet; eassumption|].
        split; [congruence|]. split; [congruence | exact Hin]. }
    rewrite (bind_Ok _ _ _ _ _ E5).
    assert (At5 : at_job J w5 (L ++ checkpoints) j4) by (eapply at_quiet; eassumption).
    destruct (at_update J (Job.set_status Job.completed) w5 _ _ At5)
      as (w6 & E6 & At6).
    rewrite (bind_Ok _ _ _ _ _ E6).
    destruct (at_update J (Job.set_result_file zip_path) w6 _ _ At6)
      as (w7 & E7 & At7).
    rewrite (bind_Ok _ _ _ _ _ E7).
    destruct (at_assign J 100 w7 _ _ At7) as (w8 & E8 & At8).
    rewrite (bind_Ok _ _ _ _ _ E8).
    destruct (at_update J (Job.append_log "Conversion completed successfully!")
                w8 _ _ At8) as (w9 & E9 & At9).
    rewrite E9. eexists (checkpoints ++ [100]), _. cbn [fst snd].
    split; [rewrite app_assoc; exact At9|].
    split; [reflexivity|]. left. split; reflexivity.
  - destruct (at_mark_failed J error ("Conversion failed: " +:+ error) w4 _ j4 At4)
      as (w5 & j5 & E5 & At5 & Hs5 & He5 & Hp5).
    rewrite E5. exists ext, j5. cbn [fst snd].
    split; [exact At5|]. split; [congruence|].
    right. split; [exact Hs5|]. split; [rewrite He5; eauto | exact Hin].
Qed.

Lemma process_unfold (fbx_path : string) (scale : pyfloat) (bodygroup_name : string)
  (w : World) (j : Job.t) :
  jobs w !! J = Some j ->
  process_fbx_job env J fbx_path scale bodygroup_name w =
    try_finally
      (try_except
         (job_body env J fbx_path scale bodygroup_name)
         (on_Exception (fun e =>
            mark_failed J (message e) ("Error: " +:+ message e))))
      (remove_upload env fbx_path) w.
Proof. intros Hl. unfold process_fbx_job, bind, get. now rewrite Hl. Qed.

(** How a run of the worker leaves its job: completed after all the
    checkpoints and a last 100; or failed, with an error message, after
    an initial run of the checkpoints; or still processing, when a
    fault that is no [Exception] escaped. *)
Lemma worker_outcome (fbx_path : string) (scale : pyfloat) (bodygroup_name : string)
  (w : World) (j : Job.t) :
  jobs w !! J = Some j ->
  let o := process_fbx_job env J fbx_path scale bodygroup_name w in
  exists ext j',
    progress_values J (trace (snd o)) = progress_values J (trace w) ++ ext /\
    jobs (snd o) !! J = Some j' /\
    Job.progress j' = List.last ext (Job.progress j) /\
    ((Job.job_status j' = Job.completed /\ ext = checkpoints ++ [100]) \/
     (Job.job_status j' = Job.failed /\ is_Some (Job.error_message j') /\
      In ext initial_runs) \/
     (Job.job_status j' = Job.processing /\ In ext initial_runs /\
      exists e, fst o = Raise e)).
Proof.
  intros Hl. cbv zeta. rewrite (process_unfold _ _ _ _ _ Hl).
  assert (Hat : at_job J w (progress_values J (trace w)) j) by (split; [reflexivity | exact Hl]).
  destruct (job_body_outcome fbx_path scale bodygroup_name w _ j Hat)
    as (ext & j1 & At1 & Hp1 & Hcase).
  unfold try_finally, try_except.
  destruct (job_body env J fbx_path scale bodygroup_name w) as [[u|e] w1];
    cbn [fst snd] in At1, Hcase.
  - pose proof (quiet_remove_upload env fbx_path w1) as Q.
    destruct (remove_upload env fbx_path w1) as [[u'|e'] w2]; cbn in Q;
      destruct (at_quiet J w1 w2 _ j1 At1 Q) as [Hpv Hj];
      exists ext, j1; cbn [fst snd];
      (split; [exact Hpv|]); (split; [exact Hj|]); (split; [exact Hp1|]);
      destruct Hcase as [Hc | Hf]; auto.
  - destruct Hcase as [Hs1 Hin]. unfold on_Exception.
    destruct (is_Exception e).
    + destruct (at_mark_failed J (message e) ("Error: " +:+ message e) w1 _ j1 At1)
        as (w1' & j1' & E & At1' & Hs & He & Hp).
      rewrite E.
      pose proof (quiet_remove_upload env fbx_path w1') as Q.
      destruct (remove_upload env fbx_path w1') as [[u'|e'] w2]; cbn in Q;
        destruct (at_quiet J w1' w2 _ j1' At1' Q) as [Hpv Hj];
        exists ext, j1'; cbn [fst snd];
        (split; [exact Hpv|]); (split; [exact Hj|]); (split; [congruence|]);
        right; left; (split; [exact Hs|]); (split; [rewrite He; eauto | exact Hin]).
    + pose proof (quiet_remove_upload env fbx_path w1) as Q.
      destruct (remove_upload env fbx_path w1) as [[u'|e'] w2]; cbn in Q;
        destruct (at_quiet J w1 w2 _ j1 At1 Q) as [Hpv Hj];
        exists ext, j1; cbn [fst snd];
        (split; [exact Hpv|]); (split; [exact Hj|]); (split; [exact Hp1|]);
        right; right; (split; [exact Hs1|]); (split; [exact Hin|]); eauto.
Qed.

End Worker.

(** The part of C2 that the code keeps: over a run of the worker on a
    job whose progress is at most 10 (a new job has 0), the values
    assigned to its progress never decrease, and a job that ends
    completed has progress 100. *)
Lemma worker_progress_monotone (env : Sys.Env) (J fbx_path : string)
  (scale : Sys.pyfloat) (bodygroup_name : string) (w : Sys.World) (j : Job.t) :
  Sys.jobs w !! J = Some j ->
  Job.progress j <= 10 ->
  let w' := snd (App.process_fbx_job env J fbx_path scale bodygroup_name w) in
  exists ext j',
    WorkerNotions.progress_values J (Sys.trace w')
      = WorkerNotions.progress_values J (Sys.trace w) ++ ext /\
    WorkerNotions.non_decreasing (Job.progress j :: ext) /\
    Sys.jobs w' !! J = Some j' /\
    Job.progress j' = List.last ext (Job.progress j) /\
    (Job.job_status j' = Job.completed -> Job.progress j' = 100).
Proof.
  intros Hl Hp. cbv zeta.
  destruct (worker_outcome env J fbx_path scale bodygroup_name w j Hl)
    as (ext & j' & Hpv & Hj & Hlast & Hcase).
  exists ext, j'. split; [exact Hpv|].
  assert (Hruns : forall l, In l RunNotions.initial_runs ->
                            WorkerNotions.non_decreasing (Job.progress j :: l)).
  { intros l Hin. cbn in Hin.
    repeat (destruct Hin as [<- | Hin]; [cbn; lia|]). destruct Hin. }
  split; [|split; [exact Hj | split; [exact Hlast|]]].
  - destruct Hcase as [[_ ->] | [(_ & _ & Hin) | (_ & Hin & _)]]; auto.
    cbn. lia.
  - intros Hdone. destruct Hcase as [[_ ->] | [(Hs & _) | (Hs & _)]].
    + rewrite Hlast. reflexivity.
    + congruence.
    + congruence.
Qed.

(** The part of C9 that the code keeps: a run of the worker that
    returns leaves its job completed, or failed with an error message. *)
Lemma worker_ends_terminal (env : Sys.Env) (J fbx_path : string)
  (scale : Sys.pyfloat) (bodygroup_name : string) (w : Sys.World) (j : Job.t) :
  Sys.jobs w !! J = Some j ->
  let o := App.process_fbx_job env J fbx_path scale bodygroup_name w in
  fst o = Sys.Ok tt ->
  exists j', Sys.jobs (snd o) !! J = Some j' /\
             (Job.job_status j' = Job.completed \/
              (Job.job_status j' = Job.failed /\ is_Some (Job.error_message j'))).
Proof.
  intros Hl. cbv zeta. intros Hok.
  destruct (worker_outcome env J fbx_path scale bodygroup_name w j Hl)
    as (ext & j' & _ & Hj & _ & Hcase).
  exists j'. split; [exact Hj|].
  destruct Hcase as [[Hs _] | [(Hs & He & _) | (_ & _ & e & He)]]; auto.
  rewrite Hok in He. discriminate.
Qed.

(** * Further properties *)

(** ** RateLimiter: the remaining-requests query and client isolation *)

Section RemainingRequests.
Import RateLimiter.

Lemma clean_idempotent (now window : Z) (l : list Z) :
  clean now window (clean now window l) = clean now window l.
Proof. apply clean_clean. lia. Qed.

Lemma is_allowed_fst (now : Z) (ip : string) (rl : t) :
  fst (is_allowed now ip rl)
  = (Z.of_nat (length (clean now (time_window rl) (get_list ip (requests rl))))
     <? max_requests rl).
Proof. unfold is_allowed. now destruct (_ <? _). Qed.

End RemainingRequests.

(** [get_remaining_requests] and [is_allowed] agree: at one clock
    reading a request is admitted exactly when the query answers a
    positive number; the answer lies between 0 and [max_requests]; and
    asking first changes neither the verdict nor the state that
    [is_allowed] leaves. *)
Theorem remaining_agrees_with_admission (now : Z) (ip : string) (rl : RateLimiter.t) :
  let remaining := fst (RateLimiter.get_remaining_requests now ip rl) in
  let asked := snd (RateLimiter.get_remaining_requests now ip rl) in
  (fst (RateLimiter.is_allowed now ip rl) = true <-> 0 < remaining) /\
  0 <= remaining <= Z.max 0 (RateLimiter.max_requests rl) /\
  RateLimiter.is_allowed now ip asked = RateLimiter.is_allowed now ip rl.
Proof.
  cbv zeta. split; [|split].
  - rewrite is_allowed_fst, Z.ltb_lt. unfold RateLimiter.get_remaining_requests.
    cbn [fst]. lia.
  - unfold RateLimiter.get_remaining_requests. cbn [fst]. lia.
  - unfold RateLimiter.get_remaining_requests, RateLimiter.is_allowed. cbn.
    rewrite get_list_insert_eq, clean_idempotent.
    destruct (_ <? _); unfold RateLimiter.set_requests; cbn;
      now rewrite insert_insert_eq.
Qed.

(** After an admitted request the answer of the query, at the same
    clock reading, is one less than before, provided the window is
    positive (with a window of 0 or less the new timestamp is cleaned
    away at once). *)
Theorem admission_uses_one_request (now : Z) (ip : string) (rl : RateLimiter.t) :
  0 < RateLimiter.time_window rl ->
  fst (RateLimiter.is_allowed now ip rl) = true ->
  fst (RateLimiter.get_remaining_requests now ip (snd (RateLimiter.is_allowed now ip rl)))
  = fst (RateLimiter.get_remaining_requests now ip rl) - 1.
Proof.
  intros HW Hadm.
  pose proof (is_allowed_stored now ip rl ip) as Hst.
  rewrite decide_True in Hst by reflexivity. cbv zeta in Hst. rewrite Hadm in Hst.
  destruct (is_allowed_config now ip rl) as [HN HW'].
  rewrite is_allowed_fst in Hadm. apply Z.ltb_lt in Hadm.
  unfold RateLimiter.get_remaining_requests. cbn [fst].
  rewrite Hst, HN, HW', clean_app, clean_idempotent, length_app.
  unfold RateLimiter.clean at 2. cbn [List.filter].
  replace (now - now <? RateLimiter.time_window rl) with true
    by (symmetry; apply Z.ltb_lt; lia).
  cbn [length]. lia.
Qed.

Lemma admission_uses_one_request_witness :
  0 < RateLimiter.time_window RateLimiter.default_limiter /\
  fst (RateLimiter.is_allowed 0 "10.0.0.1" RateLimiter.default_limiter) = true /\
  fst (RateLimiter.get_remaining_requests 0 "10.0.0.1"
         (snd (RateLimiter.is_allowed 0 "10.0.0.1" RateLimiter.default_limiter))) = 4.
Proof.
  split; [reflexivity|]. split; [reflexivity|].
  exact (admission_uses_one_request 0 "10.0.0.1" RateLimiter.default_limiter
           eq_refl eq_refl).
Defined.

(** Whatever calls are made, in whatever order and at whatever clock
    readings, no client's stored list ever holds more than
    [max_requests] timestamps (none at all when [max_requests] is
    negative), and the configuration is never changed. *)
Theorem stored_list_never_exceeds_limit
  (N W : Z) (c : string) (evs : list (Z * RateLimiter.call)) (ip : string) :
  let rl := fst (RateLimiter.run c (RateLimiter.init N W) evs) in
  Z.of_nat (length (RateLimiter.get_list ip (RateLimiter.requests rl))) <= Z.max 0 N /\
  RateLimiter.max_requests rl = N /\ RateLimiter.time_window rl = W.
Proof.
  cbv zeta. destruct (run_bounded N W c evs) as (HN & HW & Hb). auto.
Qed.

Section Isolation.
Import RateLimiter IsolationNotions.

Lemma get_reset_time_stored (ip ip' : string) (rl : t) :
  get_list ip' (requests (snd (get_reset_time ip rl))) = get_list ip' (requests rl).
Proof.
  unfold get_reset_time. destruct (get_list ip (requests rl)); cbn;
    apply get_list_touch.
Qed.

Lemma step_stored_other (c : string) (rl : t) (ev : Z * call) :
  call_ip (snd ev) <> c ->
  get_list c (requests (snd (step rl ev))) = get_list c (requests rl).
Proof.
  destruct ev as [now [ip|ip|ip]]; cbn; intros Hne.
  - rewrite is_allowed_stored. now rewrite decide_False.
  - now apply get_list_insert_ne.
  - unfold get_reset_time. destruct (get_list ip (requests rl)); cbn;
      apply get_list_touch.
Qed.

Lemma step_other (c : string) (rl1 rl2 : t) (ev : Z * call) :
  call_ip (snd ev) <> c -> same_for c rl1 rl2 ->
  same_for c (snd (step rl1 ev)) rl2 /\ is_admission_of c (snd ev) = false.
Proof.
  intros Hne (HN & HW & Hl). destruct (step_config rl1 ev) as [H1 H2].
  split.
  - split; [congruence|]. split; [congruence|].
    now rewrite step_stored_other.
  - destruct ev as [now [ip|ip|ip]]; cbn in *; [|reflexivity..].
    now apply String.eqb_neq.
Qed.

Lemma step_same (c : string) (rl1 rl2 : t) (ev : Z * call) :
  call_ip (snd ev) = c -> same_for c rl1 rl2 ->
  fst (step rl1 ev) = fst (step rl2 ev) /\
  same_for c (snd (step rl1 ev)) (snd (step rl2 ev)).
Proof.
  intros Hc (HN & HW & Hl).
  destruct (step_config rl1 ev) as [H1 H2]. destruct (step_config rl2 ev) as [H3 H4].
  destruct ev as [now [ip|ip|ip]]; cbn in Hc; subst ip; cbn [step fst snd].
  - assert (Hf : fst (is_allowed now c rl1) = fst (is_allowed now c rl2))
      by (rewrite !is_allowed_fst; congruence).
    split; [exact Hf|].
    split; [cbn in *; congruence|]. split; [cbn in *; congruence|].
    rewrite !is_allowed_stored, !decide_True by reflexivity. cbv zeta.
    rewrite Hf, HW, Hl. reflexivity.
  - split; [reflexivity|].
    split; [cbn in *; congruence|]. split; [cbn in *; congruence|].
    cbn. rewrite !get_list_insert_eq. congruence.
  - split; [reflexivity|].
    split; [cbn in *; congruence|]. split; [cbn in *; congruence|].
    rewrite !get_reset_time_stored. exact Hl.
Qed.

Lemma run_restrict (c : string) (evs : list (Z * call)) :
  forall rl1 rl2, same_for c rl1 rl2 ->
    snd (run c rl1 evs) = snd (run c rl2 (restrict c evs)) /\
    same_for c (fst (run c rl1 evs)) (fst (run c rl2 (restrict c evs))).
Proof.
  induction evs as [|ev evs IH]; intros rl1 rl2 Hs; [split; [reflexivity | exact Hs]|].
  cbn [restrict List.filter]. fold (restrict c evs).
  destruct (String.eqb (call_ip (snd ev)) c) eqn:Hc.
  - apply String.eqb_eq in Hc.
    destruct (step_same c rl1 rl2 ev Hc Hs) as [Hf Hs'].
    specialize (IH _ _ Hs'). cbn [run].
    destruct (step rl1 ev) as [ok1 rl1']. destruct (step rl2 ev) as [ok2 rl2'].
    cbn [fst snd] in *. subst ok2.
    destruct (run c rl1' evs) as [r1 a1]. destruct (run c rl2' (restrict c evs)) as [r2 a2].
    cbn [fst snd] in *. destruct IH as [-> IH]. split; [reflexivity | exact IH].
  - apply String.eqb_neq in Hc.
    destruct (step_other c rl1 rl2 ev Hc Hs) as [Hs' Hadm].
    specialize (IH _ _ Hs'). cbn [run].
    destruct (step rl1 ev) as [ok1 rl1']. cbn [fst snd] in *.
    destruct (run c rl1' evs) as [r1 a1]. cbn [fst snd] in *.
    rewrite Hadm, andb_false_r. exact IH.
Qed.

End Isolation.

(** Clients do not interfere: over any history, the clock readings at
    which client [c] is admitted, and the list stored for [c] at the
    end, are those of the history with every call of another client
    left out. *)
Theorem clients_are_isolated
  (N W : Z) (c : string) (evs : list (Z * RateLimiter.call)) :
  let all := RateLimiter.run c (RateLimiter.init N W) evs in
  let own := RateLimiter.run c (RateLimiter.init N W) (IsolationNotions.restrict c evs) in
  snd all = snd own /\
  RateLimiter.get_list c (RateLimiter.requests (fst all))
  = RateLimiter.get_list c (RateLimiter.requests (fst own)).
Proof.
  cbv zeta.
  destruct (run_restrict c evs (RateLimiter.init N W) (RateLimiter.init N W))
    as [Ha (_ & _ & Hl)]; [repeat split|].
  split; assumption.
Qed.

(** ** SecurityValidator: what the gate refuses and what it lets through *)

Section Gate.
Import Py SecurityValidator.
Variable magic_from_buffer : string -> option string.
Variable decode_ignore : string -> string.

Lemma lower_app (a b : string) : lower (a +:+ b) = lower a +:+ lower b.
Proof. induction a as [|c a IH]; sapp0; cbn [lower]; [reflexivity | now rewrite IH]. Qed.

(** The verdict in one expression. *)
Lemma validate_file_verdict (file : FileStorage) :
  fst (validate_file magic_from_buffer decode_ignore file)
  = negb (String.eqb (filename file) EmptyString)
    && _validate_extension (filename file)
    && content_checks magic_from_buffer decode_ignore (data file).
Proof.
  unfold validate_file.
  destruct (String.eqb (filename file) EmptyString); [reflexivity|].
  destruct (_validate_extension (filename file)); reflexivity.
Qed.

Lemma lower_ascii_not_upper_F (c : ascii) : lower_ascii c <> "F"%char.
Proof. destruct c as [[] [] [] [] [] [] [] []]; vm_compute; discriminate. Qed.

Lemma lower_drop (k : nat) (s : string) : lower (drop k s) = drop k (lower s).
Proof.
  revert s. induction k as [|k IH]; intros s; [reflexivity|].
  destruct s as [|c s]; [reflexivity | apply IH].
Qed.

(** The extension of a lowercased name is never [.FBX]. *)
Lemma splitext_lower_ext (s : string) : snd (splitext (lower s)) <> ".FBX".
Proof.
  unfold splitext. destruct (_ && _); [|discriminate]. cbn [snd].
  rewrite <- lower_drop. intros H.
  destruct (drop _ s) as [|c1 [|c2 r]]; try discriminate.
  cbn [lower] in H. injection H as _ H2 _. now apply lower_ascii_not_upper_F in H2.
Qed.

End Gate.

(** A file whose bytes hold a deny-listed marker, written in any mix of
    upper and lower case and placed anywhere, is refused: whatever its
    name, its size, its magic bytes and whatever the MIME detection
    answers. *)
Theorem dangerous_marker_is_refused
  (magic_from_buffer : string -> option string) (decode_ignore : string -> string)
  (name before marker after : string) (pos : nat) :
  In (Py.lower marker) SecurityValidator.dangerous_patterns ->
  fst (SecurityValidator.validate_file magic_from_buffer decode_ignore
         (SecurityValidator.mkFile name (before +:+ marker +:+ after) pos)) = false.
Proof.
  intros Hin. rewrite validate_file_verdict. cbn [SecurityValidator.data].
  assert (Hs : SecurityValidator._validate_content_safety (before +:+ marker +:+ after)
               = false).
  { unfold SecurityValidator._validate_content_safety. apply negb_false_iff.
    apply existsb_exists. exists (Py.lower marker). split; [exact Hin|].
    rewrite !lower_app. apply contains_app_r, contains_self_app. }
  unfold SecurityValidator.content_checks. rewrite Hs.
  now rewrite !andb_false_r.
Qed.

Lemma dangerous_marker_is_refused_witness :
  In (Py.lower "<ScRiPt") SecurityValidator.dangerous_patterns /\
  fst (SecurityValidator.validate_file SecurityValidator.magic_octet
         SecurityValidator.decode_ascii
         (SecurityValidator.mkFile "model.fbx"
            ("Kaydara FBX Binary" +:+ "<ScRiPt" +:+ Scenario.padding 1024) 0)) = false.
Proof.
  split; [cbn; auto|].
  apply (dangerous_marker_is_refused SecurityValidator.magic_octet
           SecurityValidator.decode_ascii "model.fbx" "Kaydara FBX Binary" "<ScRiPt"
           (Scenario.padding 1024) 0).
  cbn. auto.
Defined.

(** What an accepted file is known to satisfy: its name is not empty,
    the extension of the lowercased name is [.fbx], it has between
    1 KiB and 100 MiB, its lowercased bytes hold no deny-listed marker,
    and either it starts with the binary magic, or its decoded text
    holds the four section keywords. *)
Theorem accepted_file_guarantees
  (magic_from_buffer : string -> option string) (decode_ignore : string -> string)
  (file : SecurityValidator.FileStorage) :
  fst (SecurityValidator.validate_file magic_from_buffer decode_ignore file) = true ->
  let name := SecurityValidator.filename file in
  let content := SecurityValidator.data file in
  name <> EmptyString /\
  snd (Py.splitext (Py.lower name)) = ".fbx" /\
  1024 <= Z.of_nat (String.length content) <= 104857600 /\
  (forall pattern, In pattern SecurityValidator.dangerous_patterns ->
                   Py.contains pattern (Py.lower content) = false) /\
  (Py.startswith content "Kaydara FBX Binary" = true \/
   forall element,
     In element ["FBXHeaderExtension"; "FBXVersion"; "Definitions"; "Objects"] ->
     Py.contains element (decode_ignore content) = true).
Proof.
  rewrite validate_file_verdict. intros H. cbv zeta.
  apply andb_true_iff in H. destruct H as [H Hc].
  apply andb_true_iff in H. destruct H as [Hn He].
  unfold SecurityValidator.content_checks in Hc.
  apply andb_true_iff in Hc. destruct Hc as [Hc Hstruct].
  apply andb_true_iff in Hc. destruct Hc as [Hc Hsafe].
  apply andb_true_iff in Hc. destruct Hc as [Hsize _].
  split; [now apply negb_true_iff, String.eqb_neq in Hn|].
  split.
  { unfold SecurityValidator._validate_extension, SecurityValidator.mem_string in He.
    cbn [existsb SecurityValidator.allowed_extensions] in He.
    rewrite orb_false_r in He. apply orb_true_iff in He.
    destruct He as [He|He]; apply String.eqb_eq in He; [exact He|].
    now apply splitext_lower_ext in He. }
  split.
  { unfold SecurityValidator._validate_file_size in Hsize.
    apply andb_true_iff in Hsize. destruct Hsize as [H1 H2].
    apply Z.leb_le in H1, H2.
    unfold SecurityValidator.min_file_size, SecurityValidator.max_file_size in *. lia. }
  split.
  { intros pattern Hin. unfold SecurityValidator._validate_content_safety in Hsafe.
    apply negb_true_iff in Hsafe.
    destruct (Py.contains pattern _) eqn:E; [|reflexivity].
    assert (existsb (fun p => Py.contains p (Py.lower (SecurityValidator.data file)))
              SecurityValidator.dangerous_patterns = true)
      by (apply existsb_exists; eauto).
    congruence. }
  unfold SecurityValidator._validate_fbx_structure in Hstruct.
  destruct (Py.startswith _ "Kaydara FBX Binary"); [now left|]. right.
  destruct (_ || _); [|discriminate].
  unfold SecurityValidator._validate_ascii_fbx in Hstruct.
  intros element Hin. rewrite forallb_forall in Hstruct. now apply Hstruct.
Qed.

Lemma accepted_file_guarantees_witness :
  fst (SecurityValidator.validate_file SecurityValidator.magic_octet
         SecurityValidator.decode_ascii Scenario.good_file) = true /\
  1024 <= Z.of_nat (String.length (SecurityValidator.data Scenario.good_file))
       <= 104857600.
Proof.
  split; [vm_compute; reflexivity|].
  destruct (accepted_file_guarantees SecurityValidator.magic_octet
              SecurityValidator.decode_ascii Scenario.good_file)
    as (_ & _ & H & _); [vm_compute; reflexivity | exact H].
Defined.

(** ** Paths: extensions *)

Section Extensions.
Import Py PathNotions.

Lemma take_length_app (t u : string) : take (String.length t) (t +:+ u) = t.
Proof.
  replace (String.length t) with (String.length t + 0)%nat by lia.
  rewrite take_app_length. destruct u; apply string_app_nil_r.
Qed.

Lemma drop_length_app (t u : string) : drop (String.length t) (t +:+ u) = u.
Proof.
  replace (String.length t) with (String.length t + 0)%nat by lia.
  now rewrite drop_app_length.
Qed.

(** An extension [ext] that starts with its only dot and holds no
    slash is split off exactly when the last component of what
    precedes it has a character other than a dot. *)
Lemma splitext_app_ext (t ext : string) :
  rfind "." ext = 0 -> rfind "/" ext = -1 ->
  splitext (t +:+ ext) = if name_part_has_char t then (t, ext) else (t +:+ ext, EmptyString).
Proof.
  intros Hdot Hsep. unfold splitext.
  pose proof (rfind_range "/" t) as Hr.
  rewrite !rfind_app, Hdot, Hsep. cbn [Z.leb Z.compare].
  change (0 <=? -1) with false. change (0 <=? 0) with true. cbv iota.
  rewrite Z.add_0_r.
  replace (rfind "/" t <? Z.of_nat (String.length t)) with true
    by (symmetry; apply Z.ltb_lt; lia).
  cbn [andb].
  assert (Hnd : has_non_dot (t +:+ ext) (rfind "/" t + 1) (Z.of_nat (String.length t))
                = name_part_has_char t).
  { unfold has_non_dot, name_part_has_char, basename.
    set (k := Z.to_nat (rfind "/" t + 1)).
    assert (Hk : (k <= String.length t)%nat) by (unfold k; lia).
    rewrite drop_app_le by exact Hk.
    replace (Z.to_nat (Z.of_nat (String.length t) - (rfind "/" t + 1)))
      with (String.length (drop k t))
      by (rewrite string_length_drop; unfold k; lia).
    now rewrite take_length_app. }
  rewrite Hnd. destruct (name_part_has_char t); [|reflexivity].
  rewrite Nat2Z.id. now rewrite take_length_app, drop_length_app.
Qed.

Lemma lower_ascii_eqb_slash (a : ascii) :
  Ascii.eqb (lower_ascii a) "/" = Ascii.eqb a "/".
Proof. destruct a as [[] [] [] [] [] [] [] []]; reflexivity. Qed.

Lemma lower_ascii_eqb_dot (a : ascii) :
  Ascii.eqb (lower_ascii a) "." = Ascii.eqb a ".".
Proof. destruct a as [[] [] [] [] [] [] [] []]; reflexivity. Qed.

Lemma rfind_lower_slash (s : string) : rfind "/" (lower s) = rfind "/" s.
Proof.
  induction s as [|a s IH]; [reflexivity|]. cbn [lower rfind].
  now rewrite IH, lower_ascii_eqb_slash.
Qed.

Lemma name_part_lower (s : string) :
  name_part_has_char (lower s) = name_part_has_char s.
Proof.
  unfold name_part_has_char, basename. rewrite rfind_lower_slash, <- lower_drop.
  generalize (drop (Z.to_nat (rfind "/" s + 1)) s). intros u.
  induction u as [|a u IH]; [reflexivity|]. cbn [lower list_ascii_of_string existsb].
  now rewrite IH, lower_ascii_eqb_dot.
Qed.

End Extensions.

(** The extension test ignores letter case: a name that ends in [.fbx]
    written in any mix of cases is accepted exactly when the last
    component of what precedes the extension has a character other
    than a dot; a name that is nothing but the extension, such as
    [.fbx], is refused. *)
Theorem extension_test_ignores_case (stem ext : string) :
  Py.lower ext = ".fbx" ->
  SecurityValidator._validate_extension (stem +:+ ext)
  = PathNotions.name_part_has_char stem.
Proof.
  intros Hext. unfold SecurityValidator._validate_extension.
  rewrite lower_app, Hext, splitext_app_ext by reflexivity.
  rewrite name_part_lower.
  destruct (PathNotions.name_part_has_char stem); reflexivity.
Qed.

Lemma extension_test_ignores_case_witness :
  Py.lower ".FbX" = ".fbx" /\
  SecurityValidator._validate_extension ("My Model" +:+ ".FbX") = true /\
  SecurityValidator._validate_extension (EmptyString +:+ ".FbX") = false.
Proof.
  split; [reflexivity|].
  split; [exact (extension_test_ignores_case "My Model" ".FbX" eq_refl)|].
  exact (extension_test_ignores_case EmptyString ".FbX" eq_refl).
Defined.

(** The name of a sequence: for a clip file [base_NAME.smd], where
    [NAME] holds no slash, the descriptor names the sequence [NAME],
    whatever [base] and [NAME] are. *)
Theorem sequence_name_strips_prefix (base name : string) :
  Py.rfind "/" name = -1 ->
  QC.sequence_name base (base +:+ "_" +:+ name +:+ ".smd") = name.
Proof.
  intros Hname. unfold QC.sequence_name.
  replace (base +:+ "_" +:+ name +:+ ".smd")
    with ((base +:+ "_" +:+ name) +:+ ".smd")
    by (now rewrite !string_app_assoc).
  rewrite splitext_app_ext by reflexivity.
  assert (Hc : PathNotions.name_part_has_char (base +:+ "_" +:+ name) = true).
  { unfold PathNotions.name_part_has_char, Py.basename.
    pose proof (rfind_range "/" base) as Hr.
    rewrite rfind_app.
    replace (Py.rfind "/" ("_" +:+ name)) with (-1)
      by (rewrite string_app_cons; cbn [Py.rfind]; rewrite string_app_nil_l, Hname;
          reflexivity).
    change (0 <=? -1) with false. cbv iota.
    rewrite drop_app_le by lia.
    rewrite list_ascii_of_string_app, existsb_app. apply orb_true_iff. right.
    reflexivity. }
  rewrite Hc. cbn [fst]. rewrite <- string_app_assoc.
  unfold Py.startswith. rewrite prefix_app.
  rewrite string_app_assoc, (drop_app_length base ("_" +:+ name) 1).
  reflexivity.
Qed.

Lemma sequence_name_strips_prefix_witness :
  Py.rfind "/" "run.fast" = -1 /\
  QC.sequence_name "model" ("model" +:+ "_" +:+ "run.fast" +:+ ".smd") = "run.fast".
Proof.
  split; [reflexivity|].
  exact (sequence_name_strips_prefix "model" "run.fast" eq_refl).
Defined.

(** ** SandboxValidator: file names *)

Section Sandbox.
Import Py SandboxValidator SandboxNotions.

Lemma all_safe_app (a b : string) : all_safe (a +:+ b) = all_safe a && all_safe b.
Proof. unfold all_safe. now rewrite list_ascii_of_string_app, forallb_app. Qed.

Lemma all_safe_replace (s : string) : all_safe (replace_unsafe s) = true.
Proof.
  unfold all_safe. induction s as [|c s IH]; [reflexivity|].
  cbn [replace_unsafe list_ascii_of_string forallb]. rewrite IH, andb_true_r.
  destruct (is_safe c) eqn:E; [exact E | reflexivity].
Qed.

Lemma replace_unsafe_safe (s : string) : all_safe s = true -> replace_unsafe s = s.
Proof.
  unfold all_safe. induction s as [|c s IH]; [reflexivity|].
  cbn [replace_unsafe list_ascii_of_string forallb]. intros H.
  apply andb_true_iff in H. destruct H as [Hc Hs]. now rewrite Hc, IH.
Qed.

Lemma all_safe_take (k : nat) (s : string) : all_safe s = true -> all_safe (take k s) = true.
Proof.
  intros H. rewrite <- (take_drop k s), all_safe_app in H.
  now apply andb_true_iff in H.
Qed.

Lemma all_safe_drop (k : nat) (s : string) : all_safe s = true -> all_safe (drop k s) = true.
Proof.
  intros H. rewrite <- (take_drop k s), all_safe_app in H.
  now apply andb_true_iff in H.
Qed.

Lemma all_safe_splitext (s : string) :
  all_safe s = true ->
  all_safe (fst (splitext s)) = true /\ all_safe (snd (splitext s)) = true.
Proof.
  intros H. unfold splitext. destruct (_ && _); cbn [fst snd].
  - split; [now apply all_safe_take | now apply all_safe_drop].
  - split; [exact H | reflexivity].
Qed.

(** A string of safe characters holds neither separator. *)
Lemma all_safe_no_char (ch : ascii) (s : string) :
  is_safe ch = false -> all_safe s = true ->
  contains (String ch EmptyString) s = false.
Proof.
  intros Hch. unfold all_safe. induction s as [|a s IH]; [reflexivity|].
  cbn [list_ascii_of_string forallb]. intros H.
  apply andb_true_iff in H. destruct H as [Ha Hs].
  rewrite contains_cons, prefix_cons, (IH Hs), orb_false_r.
  destruct (Ascii.eqb ch a) eqn:E; [|reflexivity].
  apply Ascii.eqb_eq in E. congruence.
Qed.

Lemma no_slash_rfind (s : string) : contains "/" s = false -> rfind "/" s = -1.
Proof.
  induction s as [|a s IH]; [reflexivity|].
  rewrite contains_cons, prefix_cons. intros H.
  apply orb_false_iff in H. destruct H as [Hp Hc].
  cbn [rfind]. rewrite (IH Hc). change (0 <=? -1) with false. cbv iota.
  rewrite Ascii.eqb_sym. destruct (Ascii.eqb "/" a); [|reflexivity].
  now rewrite prefix_nil in Hp.
Qed.

Lemma rfind_zero_head (c a : ascii) (s : string) :
  rfind c (String a s) = 0 -> a = c.
Proof.
  cbn [rfind]. pose proof (rfind_range c s) as Hr.
  destruct (0 <=? rfind c s) eqn:E.
  - apply Z.leb_le in E. lia.
  - destruct (Ascii.eqb a c) eqn:Ea; [now apply Ascii.eqb_eq in Ea | lia].
Qed.

(** The root of a name that starts with a character other than a dot
    starts with that character. *)
Lemma splitext_root_head (c : ascii) (s : string) :
  c <> "."%char ->
  exists root, fst (splitext (String c s)) = String c root.
Proof.
  intros Hc. unfold splitext.
  destruct (_ && _) eqn:E; cbn [fst]; [|eauto].
  apply andb_true_iff in E. destruct E as [Hlt _]. apply Z.ltb_lt in Hlt.
  pose proof (rfind_range "/" (String c s)) as Hsep.
  destruct (Z.to_nat (rfind "." (String c s))) as [|n] eqn:En.
  - assert (H0 : rfind "." (String c s) = 0) by lia.
    now apply rfind_zero_head in H0.
  - cbn [take]. eauto.
Qed.

Lemma startswith_dot_cons (c : ascii) (s : string) :
  startswith (String c s) "." = Ascii.eqb "." c.
Proof.
  unfold startswith. rewrite prefix_cons, prefix_nil.
  now destruct (Ascii.eqb "." c).
Qed.

End Sandbox.

(** Whatever name it is given, [sanitize_filename] returns a name made
    of safe characters only (letters, digits, dot, underscore, hyphen),
    which therefore holds neither a slash nor a backslash, and which
    does not start with a dot. *)
Theorem sanitized_name_is_safe (filename : string) :
  let s := SandboxValidator.sanitize_filename filename in
  SandboxNotions.all_safe s = true /\
  Py.contains "/" s = false /\
  Py.contains SandboxValidator.backslash s = false /\
  Py.startswith s "." = false.
Proof.
  cbv zeta.
  assert (Hsafe : SandboxNotions.all_safe (SandboxValidator.sanitize_filename filename)
                  = true).
  { unfold SandboxValidator.sanitize_filename.
    set (s1 := SandboxValidator.replace_unsafe (Py.basename filename)).
    assert (H1 : SandboxNotions.all_safe s1 = true) by apply all_safe_replace.
    set (s2 := if Py.startswith s1 "." then "file_" +:+ s1 else s1).
    assert (H2 : SandboxNotions.all_safe s2 = true).
    { unfold s2. destruct (Py.startswith s1 "."); [|exact H1].
      rewrite all_safe_app, H1. reflexivity. }
    destruct (100 <? String.length s2)%nat; [|exact H2].
    destruct (all_safe_splitext s2 H2) as [Hn He].
    destruct (Py.splitext s2) as [name ext]. cbn [fst snd] in *.
    rewrite all_safe_app, He, andb_true_r. now apply all_safe_take. }
  split; [exact Hsafe|].
  split; [now apply all_safe_no_char|].
  split; [now apply (all_safe_no_char (ascii_of_nat 92))|].
  unfold SandboxValidator.sanitize_filename.
  set (s1 := SandboxValidator.replace_unsafe (Py.basename filename)).
  set (s2 := if Py.startswith s1 "." then "file_" +:+ s1 else s1).
  assert (H2 : Py.startswith s2 "." = false).
  { unfold s2. destruct (Py.startswith s1 ".") eqn:E; [reflexivity | exact E]. }
  destruct (100 <? String.length s2)%nat eqn:Hlen; [|exact H2].
  destruct s2 as [|c s2']; [discriminate|].
  rewrite startswith_dot_cons in H2.
  assert (Hc : c <> "."%char) by (intros ->; discriminate).
  destruct (splitext_root_head c s2' Hc) as [root Hroot].
  destruct (Py.splitext (String c s2')) as [name ext]. cbn [fst] in Hroot. subst name.
  cbn [Py.take]. rewrite string_app_cons, startswith_dot_cons. exact H2.
Qed.

(** An accepted name is made of safe characters. *)
Lemma validate_filename_all_safe (filename : string) :
  SandboxValidator.validate_filename filename = true ->
  SandboxNotions.all_safe filename = true.
Proof.
  unfold SandboxValidator.validate_filename. fold (SandboxNotions.all_safe filename).
  destruct (_ || _); [intros H; discriminate H|].
  destruct (SandboxNotions.all_safe filename); [reflexivity | intros H; discriminate H].
Qed.

(** [validate_filename] accepts a name exactly when it holds no [..],
    is made of safe characters only and has at most 255 characters:
    its tests for a slash and a backslash never decide. *)
Theorem validate_filename_meaning (filename : string) :
  SandboxValidator.validate_filename filename
  = negb (Py.contains ".." filename)
    && SandboxNotions.all_safe filename
    && (String.length filename <=? 255)%nat.
Proof.
  unfold SandboxValidator.validate_filename. fold (SandboxNotions.all_safe filename).
  destruct (Py.contains ".." filename); [reflexivity|]. cbn [orb negb andb].
  destruct (SandboxNotions.all_safe filename) eqn:Hs.
  - rewrite (all_safe_no_char "/" filename eq_refl Hs).
    rewrite (all_safe_no_char (ascii_of_nat 92) filename eq_refl Hs
             : Py.contains SandboxValidator.backslash filename = false).
    cbn [orb negb].
    destruct (Nat.ltb_spec 255 (String.length filename));
      destruct (Nat.leb_spec (String.length filename) 255); try reflexivity; lia.
  - cbn [negb]. now destruct (_ || _).
Qed.

(** A name that [validate_filename] accepts, that has at most 100
    characters and does not start with a dot, is returned unchanged by
    [sanitize_filename]. *)
Theorem sanitize_keeps_valid_names (filename : string) :
  SandboxValidator.validate_filename filename = true ->
  (String.length filename <= 100)%nat ->
  Py.startswith filename "." = false ->
  SandboxValidator.sanitize_filename filename = filename.
Proof.
  intros Hv Hlen Hdot. apply validate_filename_all_safe in Hv. rename Hv into Hs.
  unfold SandboxValidator.sanitize_filename.
  assert (Hb : Py.basename filename = filename).
  { unfold Py.basename.
    rewrite (no_slash_rfind filename (all_safe_no_char "/" filename eq_refl Hs)).
    reflexivity. }
  rewrite Hb, (replace_unsafe_safe filename Hs), Hdot.
  destruct (Nat.ltb_spec 100 (String.length filename)); [lia | reflexivity].
Qed.

Lemma sanitize_keeps_valid_names_witness :
  SandboxValidator.validate_filename "model-01.fbx" = true /\
  (String.length "model-01.fbx" <= 100)%nat /\
  Py.startswith "model-01.fbx" "." = false /\
  SandboxValidator.sanitize_filename "model-01.fbx" = "model-01.fbx".
Proof.
  split; [reflexivity|]. split; [cbn; lia|]. split; [reflexivity|].
  apply sanitize_keeps_valid_names; [reflexivity | cbn; lia | reflexivity].
Defined.

(** A sanitized name can still be refused: two dots in a row survive. *)
Example sanitized_name_can_be_refused :
  SandboxValidator.sanitize_filename "a..b" = "a..b" /\
  SandboxValidator.validate_filename "a..b" = false.
Proof. split; reflexivity. Qed.

(** ** FBXProcessor: what the stages return and raise *)

Section Stages.
Import Py Sys IO FBXProcessor PipelineNotions.
Variable env : Env.

Lemma endswith_app_long (a b suffix : string) :
  (String.length suffix <= String.length b)%nat ->
  endswith (a +:+ b) suffix = endswith b suffix.
Proof.
  intros Hlen. unfold endswith. rewrite string_length_app.
  replace (String.length a + String.length b - String.length suffix)%nat
    with (String.length a + (String.length b - String.length suffix))%nat by lia.
  rewrite drop_app_length.
  destruct (Nat.leb_spec (String.length suffix) (String.length b)); [|lia].
  destruct (Nat.leb_spec (String.length suffix) (String.length a + String.length b));
    [reflexivity | lia].
Qed.

Lemma endswith_length (s suffix : string) :
  endswith s suffix = true -> (String.length suffix <= String.length s)%nat.
Proof.
  unfold endswith. intros H. apply andb_true_iff in H. destruct H as [H _].
  now apply Nat.leb_le in H.
Qed.

(** [join] puts something in front of its second argument. *)
Lemma join_app (a b : string) : exists front, join a b = front +:+ b.
Proof.
  unfold join. destruct (startswith b "/"); [now exists EmptyString|].
  destruct (_ || _); [now exists a|].
  exists (a +:+ "/"). now rewrite string_app_assoc.
Qed.

Lemma endswith_join (a b suffix : string) :
  (String.length suffix <= String.length b)%nat ->
  endswith (join a b) suffix = endswith b suffix.
Proof.
  intros Hlen. destruct (join_app a b) as [front ->]. now apply endswith_app_long.
Qed.

Lemma stage_handlers_raise {A} (timed_out wrapped : string) (e : exn) (w : World) :
  match @stage_handlers A timed_out wrapped e with
  | Some handler => exists e', handler w = (Raise e', w)
  | None => True
  end.
Proof.
  unfold stage_handlers. destruct (is_TimeoutExpired e); [eexists; reflexivity|].
  destruct (is_Exception e); [eexists; reflexivity | exact I].
Qed.

End Stages.

(** When stage 1 returns, Blender has exited with code 0 and the list
    returned is not empty; each path in it is the scratch directory
    joined with a name that the listing of that directory shows, and
    ends in [.smd]. *)
Theorem stage1_returns_smd_files
  (env : Sys.Env) (fbx_path d : string) (w w' : Sys.World) (smd_files : list string) :
  FBXProcessor._convert_fbx_to_smd env fbx_path d w = (Sys.Ok smd_files, w') ->
  smd_files <> [] /\
  (forall f, In f smd_files ->
     Py.endswith f ".smd" = true /\
     exists name, f = Py.join d name /\ In name (Sys.names_in d (Sys.fs w'))) /\
  exists w1 out err,
    Sys.env_run env
      (FBXProcessor.blender_cmd (PipelineNotions.script_path d) fbx_path d) d w1
    = (Sys.Completed 0 out err, Sys.fs w').
Proof.
  unfold FBXProcessor._convert_fbx_to_smd. fold (PipelineNotions.script_path d).
  unfold Sys.bind at 1.
  destruct (IO.write_file env _ _ w) as [[u|e] w1]; [|intros H; discriminate H].
  unfold Sys.try_except, Sys.bind at 1, IO.run_process.
  destruct (Sys.env_run env _ d w1) as [[rc out err| |e] fs'] eqn:Hrun.
  - destruct (rc =? 0) eqn:Hrc; cbn [negb].
    + apply Z.eqb_eq in Hrc. subst rc.
      unfold Sys.bind at 1, IO.listdir, Sys.bind at 1, IO.perform.
      destruct (Sys.env_fault env _ _) as [e|].
      * pose proof (stage_handlers_raise (A := list string)
                      "Blender conversion timed out" "Blender conversion error: " e
                      (Sys.record (Sys.Did (Sys.OpListdir d))
                         (Sys.set_fs fs'
                            (Sys.record
                               (Sys.Did (Sys.OpRun
                                  (FBXProcessor.blender_cmd
                                     (PipelineNotions.script_path d) fbx_path d) d))
                               w1)))) as Hh.
        destruct (FBXProcessor.stage_handlers _ _ e) as [h|].
        -- destruct Hh as [e' Hh]. rewrite Hh. intros H; discriminate H.
        -- intros H; discriminate H.
      * unfold Sys.bind, Sys.get. cbn [Sys.fs Sys.record Sys.set_fs].
        destruct (Sys.is_dir d fs').
        -- unfold Sys.ret.
           destruct (FBXProcessor.smd_paths d (Sys.names_in d fs')) as [|p ps] eqn:Hp.
           ++ intros H; discriminate H.
           ++ intros [= <- <-]. split; [discriminate|]. split.
              ** intros f Hin. rewrite <- Hp in Hin.
                 unfold FBXProcessor.smd_paths in Hin.
                 apply in_map_iff in Hin. destruct Hin as (name & <- & Hin).
                 apply List.filter_In in Hin. destruct Hin as [Hin Hsmd].
                 split; [|exists name; cbn; auto].
                 rewrite endswith_join; [exact Hsmd | now apply endswith_length].
              ** exists w1, out, err. exact Hrun.
        -- intros H; discriminate H.
    + intros H; discriminate H.
  - intros H; discriminate H.
  - pose proof (stage_handlers_raise (A := list string)
                  "Blender conversion timed out" "Blender conversion error: " e
                  (Sys.set_fs fs'
                     (Sys.record
                        (Sys.Did (Sys.OpRun
                           (FBXProcessor.blender_cmd
                              (PipelineNotions.script_path d) fbx_path d) d))
                        w1))) as Hh.
    destruct (FBXProcessor.stage_handlers _ _ e) as [h|].
    + destruct Hh as [e' Hh]. rewrite Hh. intros H; discriminate H.
    + intros H; discriminate H.
Qed.

Lemma stage1_returns_smd_files_witness :
  let env := Scenario.make_env 0 Scenario.run_ok Scenario.no_fault in
  exists files w',
    FBXProcessor._convert_fbx_to_smd env "uploads/job-1_model.fbx" "/tmp/c"
      Scenario.scratch_world = (Sys.Ok files, w') /\
    files <> [].
Proof.
  cbv zeta. eexists _, _. split; [vm_compute; reflexivity|].
  eapply (stage1_returns_smd_files
            (Scenario.make_env 0 Scenario.run_ok Scenario.no_fault)
            "uploads/job-1_model.fbx" "/tmp/c" Scenario.scratch_world).
  vm_compute. reflexivity.
Defined.

(** How stage 1 fails once its script is written: a timeout of Blender
    comes out as the [Exception] [Blender conversion timed out]; an exit
    code other than 0 comes out as an [Exception] whose message is the
    error output of Blender behind two prefixes; a fault that is no
    [Exception] passes through unchanged.  Nothing is listed in any of
    these cases. *)
Theorem stage1_failure_messages
  (env : Sys.Env) (fbx_path d : string) (w w1 : Sys.World) :
  let script := PipelineNotions.script_path d in
  let cmd := FBXProcessor.blender_cmd script fbx_path d in
  let ran fs' := Sys.set_fs fs' (Sys.record (Sys.Did (Sys.OpRun cmd d)) w1) in
  IO.write_file env script (Sys.Text (Sys.env_blender_script env)) w = (Sys.Ok tt, w1) ->
  (forall fs', Sys.env_run env cmd d w1 = (Sys.TimedOut, fs') ->
     FBXProcessor._convert_fbx_to_smd env fbx_path d w
     = (Sys.Raise (FBXProcessor.Exception_ "Blender conversion timed out"), ran fs')) /\
  (forall rc out err fs',
     Sys.env_run env cmd d w1 = (Sys.Completed rc out err, fs') -> rc <> 0 ->
     FBXProcessor._convert_fbx_to_smd env fbx_path d w
     = (Sys.Raise (FBXProcessor.Exception_
                     ("Blender conversion error: Blender conversion failed: " +:+ err)),
        ran fs')) /\
  (forall e fs',
     Sys.env_run env cmd d w1 = (Sys.NotStarted e, fs') -> Sys.is_Exception e = false ->
     FBXProcessor._convert_fbx_to_smd env fbx_path d w = (Sys.Raise e, ran fs')).
Proof.
  cbv zeta. intros Hwrite.
  unfold FBXProcessor._convert_fbx_to_smd. fold (PipelineNotions.script_path d).
  rewrite (bind_Ok _ _ _ _ _ Hwrite). unfold Sys.try_except.
  split; [|split].
  - intros fs' Hrun. erewrite bind_Raise; cycle 1.
    { unfold IO.run_process. rewrite Hrun. reflexivity. }
    reflexivity.
  - intros rc out err fs' Hrun Hrc. erewrite bind_Ok; cycle 1.
    { unfold IO.run_process. rewrite Hrun. reflexivity. }
    cbv beta iota. apply Z.eqb_neq in Hrc. rewrite Hrc. reflexivity.
  - intros e fs' Hrun He. erewrite bind_Raise; cycle 1.
    { unfold IO.run_process. rewrite Hrun. reflexivity. }
    unfold FBXProcessor.stage_handlers.
    destruct e as [[] text]; cbn in He |- *; try discriminate. reflexivity.
Qed.

Lemma stage1_failure_messages_witness :
  let env := Scenario.make_env 0 Scenario.run_stage1_timeout Scenario.no_fault in
  fst (FBXProcessor._convert_fbx_to_smd env "uploads/job-1_model.fbx" "/tmp/c"
         Scenario.scratch_world)
  = Sys.Raise (FBXProcessor.Exception_ "Blender conversion timed out").
Proof.
  cbv zeta.
  destruct (stage1_failure_messages
              (Scenario.make_env 0 Scenario.run_stage1_timeout Scenario.no_fault)
              "uploads/job-1_model.fbx" "/tmp/c" Scenario.scratch_world
              _ eq_refl) as (Ht & _).
  rewrite (Ht _ eq_refl). reflexivity.
Defined.

(** Once the scratch directory is made, [convert_fbx_to_mdl] lets no
    [Exception] escape, whatever the stages, the copies and the
    progress callback do: it returns a result, or a fault that is no
    [Exception] passes through. *)
Theorem convert_lets_no_exception_escape
  (env : Sys.Env) (fbx_path output_dir : string) (scale : Sys.pyfloat)
  (bodygroup_name : string) (cb : FBXProcessor.callback) (w : Sys.World) (e : Sys.exn) :
  Sys.env_fault env (Sys.OpMkdtemp "fbx_conversion_") w = None ->
  fst (FBXProcessor.convert_fbx_to_mdl env fbx_path output_dir scale bodygroup_name cb w)
  = Sys.Raise e ->
  Sys.is_Exception e = false.
Proof.
  intros Hmk. rewrite (convert_unfold env) by exact Hmk.
  unfold Sys.try_finally, Sys.try_except.
  set (d := PipelineNotions.scratch_dir env w).
  assert (Hclean : forall w0, fst (FBXProcessor.cleanup d w0) = Sys.Ok tt).
  { intros w0. apply (cleanup_spec d w0). apply scratch_dir_nonempty. }
  destruct (FBXProcessor.pipeline env fbx_path output_dir scale bodygroup_name cb d _)
    as [[r|e0] w2].
  - specialize (Hclean w2). destruct (FBXProcessor.cleanup d w2) as [[u|e'] w3];
      cbn in Hclean |- *; [discriminate | discriminate].
  - unfold Sys.on_Exception. destruct (Sys.is_Exception e0) eqn:He0.
    + unfold Sys.ret. specialize (Hclean w2).
      destruct (FBXProcessor.cleanup d w2) as [[u|e'] w3];
        cbn in Hclean |- *; discriminate.
    + specialize (Hclean w2).
      destruct (FBXProcessor.cleanup d w2) as [[u|e'] w3]; cbn in Hclean |- *.
      * intros [= <-]. exact He0.
      * discriminate.
Qed.

Lemma convert_lets_no_exception_escape_witness :
  let env := Scenario.make_env 0 Scenario.run_ok Scenario.interrupt_on_copy in
  let out := FBXProcessor.convert_fbx_to_mdl env "uploads/job-1_model.fbx"
               "outputs" (Sys.Finite 1) "default" None Scenario.world_with_job in
  Sys.env_fault env (Sys.OpMkdtemp "fbx_conversion_") Scenario.world_with_job = None /\
  fst out = Sys.Raise Scenario.interrupt /\
  Sys.is_Exception Scenario.interrupt = false.
Proof.
  cbv zeta. split; [reflexivity|].
  assert (H : fst (FBXProcessor.convert_fbx_to_mdl
                     (Scenario.make_env 0 Scenario.run_ok Scenario.interrupt_on_copy)
                     "uploads/job-1_model.fbx" "outputs" (Sys.Finite 1) "default" None
                     Scenario.world_with_job) = Sys.Raise Scenario.interrupt)
    by (vm_compute; reflexivity).
  split; [exact H|].
  exact (convert_lets_no_exception_escape
           (Scenario.make_env 0 Scenario.run_ok Scenario.interrupt_on_copy)
           "uploads/job-1_model.fbx" "outputs" (Sys.Finite 1) "default" None
           Scenario.world_with_job Scenario.interrupt eq_refl H).
Defined.

(** ** FBXProcessor: a compile stage that returns *)

Section CompileReturns.
Import Py Sys IO FBXProcessor.
Variable env : Env.

Lemma endswith_join_ext (d base ext suffix : string) :
  (String.length suffix <= String.length ext)%nat ->
  endswith (join d (base +:+ ext)) suffix = endswith ext suffix.
Proof.
  intros Hlen. rewrite endswith_join.
  - now apply endswith_app_long.
  - rewrite string_length_app. lia.
Qed.

(** A loop that keeps the paths that exist. *)
Lemma collect_existing {A} (l : list A) (f : A -> string) (w : World) :
  collect l (fun x => (ex <- path_exists (f x) ;;
                       ret (if ex then Some (f x) else None))%io) w
  = (Ok (map f (List.filter (fun x => exists_path (f x) (fs w)) l)), w).
Proof.
  induction l as [|x l IH]; [reflexivity|]. cbn [collect].
  rewrite (bind_Ok _ _ w w (if exists_path (f x) (fs w) then Some (f x) else None))
    by reflexivity.
  rewrite (bind_Ok _ _ _ _ _ IH). cbn [List.filter].
  destruct (exists_path (f x) (fs w)); reflexivity.
Qed.

(** The search for the files of the compiler returns only when the
    model itself is there. *)
Lemma find_generated_ok (qc_file d : string) (w w' : World) (files : list string) :
  let model := join d (fst (splitext (basename qc_file)) +:+ ".mdl") in
  let log_path := compile_log_path d in
  find_generated qc_file d log_path w = (Ok files, w') ->
  w' = w /\ exists_path model (fs w) = true /\ In model files /\
  List.last files EmptyString = log_path /\
  (forall f, In f files -> f = log_path \/ exists_path f (fs w) = true).
Proof.
  cbv zeta. unfold find_generated. cbv zeta.
  set (base := fst (splitext (basename qc_file))).
  rewrite (bind_Ok _ _ _ _ _
             (collect_existing possible_extensions
                (fun ext => join d (base +:+ ext)) w)).
  assert (E1 : endswith (join d (base +:+ ".mdl")) ".mdl" = true)
    by (rewrite endswith_join_ext by (cbn; lia); reflexivity).
  assert (E2 : endswith (join d (base +:+ ".mdl.vtx")) ".mdl" = false)
    by (rewrite endswith_join_ext by (cbn; lia); reflexivity).
  assert (E3 : endswith (join d (base +:+ ".phy")) ".mdl" = false)
    by (rewrite endswith_join_ext by (cbn; lia); reflexivity).
  assert (E4 : endswith (join d (base +:+ ".vvd")) ".mdl" = false)
    by (rewrite endswith_join_ext by (cbn; lia); reflexivity).
  assert (E5 : endswith (compile_log_path d) ".mdl" = false).
  { unfold compile_log_path. rewrite endswith_join by (cbn; lia). reflexivity. }
  unfold possible_extensions. cbn [List.filter].
  destruct (exists_path (join d (base +:+ ".mdl")) (fs w)) eqn:X1;
    destruct (exists_path (join d (base +:+ ".mdl.vtx")) (fs w)) eqn:X2;
    destruct (exists_path (join d (base +:+ ".phy")) (fs w)) eqn:X3;
    destruct (exists_path (join d (base +:+ ".vvd")) (fs w)) eqn:X4;
    cbn [map app existsb]; rewrite ?E1, ?E2, ?E3, ?E4, ?E5; cbn [orb negb];
    unfold raise, ret; intros H; try discriminate H;
    injection H as <- <-;
    (split; [reflexivity|]); (split; [reflexivity|]);
    (split; [cbn; auto|]); (split; [reflexivity|]);
    intros f Hf; cbn in Hf; intuition (subst; auto).
Qed.

End CompileReturns.

(** When the compile stage returns, the compiler binary was present and
    the compiler has exited with code 0; the log holds its transcript;
    the model file named after the descriptor exists and is among the
    files returned; every other file returned exists as well; and the
    log is the last of them. *)
Theorem compile_returns_model_and_log
  (env : Sys.Env) (qc_file d : string) (w w' : Sys.World) (files : list string) :
  let cmd := FBXProcessor.wine_cmd qc_file in
  let log_path := FBXProcessor.compile_log_path d in
  let model := Py.join d (fst (Py.splitext (Py.basename qc_file)) +:+ ".mdl") in
  FBXProcessor._compile_mdl env qc_file d w = (Sys.Ok files, w') ->
  Sys.exists_path FBXProcessor.studiomdl_path (Sys.fs w) = true /\
  (exists out err fs',
     Sys.env_run env cmd d w = (Sys.Completed 0 out err, fs') /\
     Sys.lookup_file log_path (Sys.files (Sys.fs w'))
     = Some (Sys.Text (FBXProcessor.compile_log_text cmd 0 out err))) /\
  Sys.exists_path model (Sys.fs w') = true /\
  In model files /\
  List.last files EmptyString = log_path /\
  (forall f, In f files -> Sys.exists_path f (Sys.fs w') = true).
Proof.
  cbv zeta. unfold FBXProcessor._compile_mdl.
  unfold Sys.bind at 1, IO.path_exists, Sys.bind at 1, Sys.get, Sys.ret.
  destruct (Sys.exists_path FBXProcessor.studiomdl_path (Sys.fs w)) eqn:Hexe;
    cbn [negb]; [|intros H; discriminate H].
  unfold Sys.try_except, Sys.bind at 1, IO.run_process.
  destruct (Sys.env_run env (FBXProcessor.wine_cmd qc_file) d w)
    as [[rc out err| |e] fs'] eqn:Hrun.
  - set (w1 := Sys.set_fs fs' _).
    unfold Sys.bind at 1.
    destruct (IO.write_file env (FBXProcessor.compile_log_path d)
                (Sys.Text (FBXProcessor.compile_log_text
                             (FBXProcessor.wine_cmd qc_file) rc out err)) w1)
      as [[u|e] w2] eqn:Hwrite.
    + assert (Hlog : Sys.lookup_file (FBXProcessor.compile_log_path d)
                       (Sys.files (Sys.fs w2))
                     = Some (Sys.Text (FBXProcessor.compile_log_text
                                         (FBXProcessor.wine_cmd qc_file) rc out err))).
      { revert Hwrite. unfold IO.write_file, Sys.bind at 1, IO.perform.
        destruct (Sys.env_fault env _ w1); [intros H; discriminate H|].
        unfold Sys.bind, Sys.get, Sys.modify, Sys.raise.
        destruct (Sys.is_dir _ _); intros H; [|discriminate H].
        injection H as _ Hw. subst w2.
        cbn [Sys.fs Sys.set_fs Sys.files Sys.put_file]. apply lookup_store. }
      destruct (rc =? 0) eqn:Hrc; cbn [negb].
      * apply Z.eqb_eq in Hrc. subst rc.
        destruct (FBXProcessor.find_generated qc_file d
                    (FBXProcessor.compile_log_path d) w2) as [[fl|e] w3] eqn:Hfind.
        -- intros [= <- <-].
           destruct (find_generated_ok qc_file d w2 w3 fl Hfind)
             as (-> & Hm & Hin & Hlast & Hall).
           split; [reflexivity|]. split; [eauto|].
           split; [exact Hm|]. split; [exact Hin|]. split; [exact Hlast|].
           intros f Hf. destruct (Hall f Hf) as [-> | Hex]; [|exact Hex].
           unfold Sys.exists_path, Sys.is_file. now rewrite Hlog, orb_true_r.
        -- pose proof (stage_handlers_raise (A := list string)
                         "studiomdl compilation timed out"
                         "studiomdl compilation error: " e w3) as Hh.
           destruct (FBXProcessor.stage_handlers _ _ e) as [h|].
           ++ destruct Hh as [e' Hh]. rewrite Hh. intros H; discriminate H.
           ++ intros H; discriminate H.
      * intros H; discriminate H.
    + pose proof (stage_handlers_raise (A := list string)
                    "studiomdl compilation timed out"
                    "studiomdl compilation error: " e w2) as Hh.
      destruct (FBXProcessor.stage_handlers _ _ e) as [h|].
      * destruct Hh as [e' Hh]. rewrite Hh. intros H; discriminate H.
      * intros H; discriminate H.
  - intros H; discriminate H.
  - set (w1 := Sys.set_fs fs' _).
    pose proof (stage_handlers_raise (A := list string)
                  "studiomdl compilation timed out"
                  "studiomdl compilation error: " e w1) as Hh.
    destruct (FBXProcessor.stage_handlers _ _ e) as [h|].
    + destruct Hh as [e' Hh]. rewrite Hh. intros H; discriminate H.
    + intros H; discriminate H.
Qed.

Lemma compile_returns_model_and_log_witness :
  let env := Scenario.make_env 0 Scenario.run_ok Scenario.no_fault in
  exists files w',
    FBXProcessor._compile_mdl env "/tmp/c/model.qc" "/tmp/c" Scenario.scratch_world
    = (Sys.Ok files, w') /\
    In "/tmp/c/model.mdl" files /\
    List.last files EmptyString = "/tmp/c/compile.log".
Proof.
  cbv zeta. eexists _, _. split; [vm_compute; reflexivity|].
  destruct (compile_returns_model_and_log
              (Scenario.make_env 0 Scenario.run_ok Scenario.no_fault)
              "/tmp/c/model.qc" "/tmp/c" Scenario.scratch_world _ _
              ltac:(vm_compute; reflexivity)) as (_ & _ & _ & Hin & Hlast & _).
  split; [exact Hin | exact Hlast].
Defined.

(** ** FBXProcessor: [validate_requirements] *)

Section ToolChecks.
Import Py Sys IO FBXProcessor Requirements.
Variable env : Env.

(** One tool check never raises: it gives no error exactly when the
    tool exits with code 0. *)
Lemma tool_errors_spec (tool text : string) (w : World) :
  let run := env_run env [tool; "--version"] "." w in
  let w' := set_fs (snd run) (record (Did (OpRun [tool; "--version"] ".")) w) in
  exists errors,
    tool_errors env tool text w = (Ok errors, w') /\
    (errors = [] \/ errors = [text]) /\
    (errors = [] <-> exists out err, fst run = Completed 0 out err).
Proof.
  cbv zeta. unfold tool_errors, try_except, bind, run_process.
  destruct (env_run env [tool; "--version"] "." w) as [[rc out err| |e] fs'];
    cbn [fst snd].
  - destruct (rc =? 0) eqn:Hrc; cbn [negb]; eexists; (split; [reflexivity|]).
    + apply Z.eqb_eq in Hrc. subst rc. split; [now left|]. split; [eauto | reflexivity].
    + apply Z.eqb_neq in Hrc. split; [now right|].
      split; [discriminate|]. intros (o & e & [= H _ _]). contradiction.
  - eexists. split; [reflexivity|]. split; [now right|].
    split; [discriminate|]. intros (o & e & H). discriminate H.
  - eexists. split; [reflexivity|]. split; [now right|].
    split; [discriminate|]. intros (o & e' & H). discriminate H.
Qed.

End ToolChecks.

(** [validate_requirements] never raises, not even on a fault that is
    no [Exception]: it returns a flag and at most three error messages;
    the flag is true exactly when the list is empty, which is exactly
    when Blender and then Wine exit with code 0 on [--version] and the
    compiler binary exists. *)
Theorem validate_requirements_reports (env : Sys.Env) (w : Sys.World) :
  let blender := Sys.env_run env [FBXProcessor.blender_path; "--version"] "." w in
  let w1 := Sys.set_fs (snd blender)
              (Sys.record (Sys.Did (Sys.OpRun [FBXProcessor.blender_path; "--version"]
                                      ".")) w) in
  let wine := Sys.env_run env [FBXProcessor.wine_path; "--version"] "." w1 in
  let w2 := Sys.set_fs (snd wine)
              (Sys.record (Sys.Did (Sys.OpRun [FBXProcessor.wine_path; "--version"]
                                      ".")) w1) in
  exists ok errors,
    Requirements.validate_requirements env w = (Sys.Ok (ok, errors), w2) /\
    (ok = true <-> errors = []) /\
    (length errors <= 3)%nat /\
    (ok = true <->
     (exists out err, fst blender = Sys.Completed 0 out err) /\
     (exists out err, fst wine = Sys.Completed 0 out err) /\
     Sys.exists_path FBXProcessor.studiomdl_path (Sys.fs w2) = true).
Proof.
  cbv zeta. unfold Requirements.validate_requirements.
  destruct (tool_errors_spec env FBXProcessor.blender_path
              "Blender not found or not working" w) as (e1 & H1 & Hs1 & Hi1).
  cbv zeta in H1, Hi1. rewrite (bind_Ok _ _ _ _ _ H1).
  set (w1 := Sys.set_fs
               (snd (Sys.env_run env [FBXProcessor.blender_path; "--version"] "." w))
               (Sys.record (Sys.Did (Sys.OpRun [FBXProcessor.blender_path; "--version"]
                                       ".")) w)) in *.
  destruct (tool_errors_spec env FBXProcessor.wine_path
              "Wine not found or not working" w1) as (e2 & H2 & Hs2 & Hi2).
  cbv zeta in H2, Hi2. rewrite (bind_Ok _ _ _ _ _ H2).
  set (w2 := Sys.set_fs
               (snd (Sys.env_run env [FBXProcessor.wine_path; "--version"] "." w1))
               (Sys.record (Sys.Did (Sys.OpRun [FBXProcessor.wine_path; "--version"]
                                       ".")) w1)) in *.
  rewrite (bind_Ok _ _ w2 w2 (Sys.exists_path FBXProcessor.studiomdl_path (Sys.fs w2)))
    by reflexivity.
  eexists _, _. split; [reflexivity|].
  assert (Hok : forall l : list string, (length l =? 0)%nat = true <-> l = []).
  { intros l. rewrite Nat.eqb_eq. destruct l; cbn; split; congruence. }
  split; [apply Hok|]. split.
  - destruct Hs1 as [-> | ->], Hs2 as [-> | ->];
      destruct (Sys.exists_path _ _); cbn; lia.
  - rewrite Hok, <- Hi1, <- Hi2.
    destruct (Sys.exists_path FBXProcessor.studiomdl_path (Sys.fs w2)); cbn [negb].
    + rewrite app_nil_r. split.
      * intros H. apply app_eq_nil in H. tauto.
      * intros (-> & -> & _). reflexivity.
    + split.
      * intros H. apply app_eq_nil in H. destruct H as [_ H].
        apply app_eq_nil in H. destruct H as [_ H]. discriminate H.
      * intros (_ & _ & H). discriminate H.
Qed.

(** ** FBXProcessor: progress reports and the result of a conversion *)

Section Reports.
Import Py Sys IO WorkerNotions FBXProcessor App.
Variable env : Env.
Variable J : string.

(** The copies of the pipeline end up in the output directory. *)
Lemma copy_results_shape (output_dir : string) (l : list string) :
  forall w w' files,
    collect l (fun file_path =>
      (ex <- path_exists file_path ;;
       if ex
       then
         let dest_path := join output_dir (basename file_path) in
         copy2 env file_path dest_path ;;
         ret (Some dest_path)
       else ret None)%io) w = (Ok files, w') ->
    Forall (fun p => exists f, In f l /\ p = join output_dir (basename f)) files.
Proof.
  induction l as [|x l IH]; intros w w' files.
  - cbn. intros [= <- _]. constructor.
  - cbn [collect]. unfold bind at 1.
    destruct ((ex <- path_exists x ;;
               if ex
               then
                 let dest_path := join output_dir (basename x) in
                 copy2 env x dest_path ;; ret (Some dest_path)
               else ret None)%io w) as [[o|e] w1] eqn:Hx; [|intros H; discriminate H].
    unfold bind at 1.
    destruct (collect l _ w1) as [[rest|e] w2] eqn:Hrest; [|intros H; discriminate H].
    specialize (IH _ _ _ Hrest).
    assert (IH' : Forall (fun p => exists f, In f (x :: l) /\
                                   p = join output_dir (basename f)) rest).
    { eapply Forall_impl; [exact IH|]. intros p (f & Hf & ->). exists f. cbn. auto. }
    unfold ret. intros [= <- <-].
    destruct o as [p|]; [|exact IH'].
    constructor; [|exact IH'].
    revert Hx. unfold bind at 1, path_exists, bind, get, ret.
    destruct (exists_path x (fs w)); [|intros H; discriminate H].
    destruct (copy2 env x _ w) as [[u|e] w3]; [|intros H; discriminate H].
    intros [= <- _]. exists x. cbn. auto.
Qed.

(** The pipeline, with the callback of the worker, in full: it returns
    only after all the checkpoints, with files of the output directory,
    and it raises only before the last checkpoint. *)
Lemma pipeline_reports (fbx_path output_dir : string) (scale : pyfloat)
  (bodygroup_name d : string) (w : World) :
  let o := pipeline env fbx_path output_dir scale bodygroup_name
             (Some (progress_callback env J)) d w in
  exists ext,
    advances J ext w (snd o) /\
    match fst o with
    | Ok r =>
        ext = checkpoints /\
        exists files text,
          r = Success files text /\
          Forall (fun p => exists f, p = join output_dir (basename f)) files
    | Raise _ => In ext [[10]; [10; 40]; [10; 40; 60]; [10; 40; 60; 90]]
    end.
Proof.
  cbv zeta. unfold pipeline, report.
  destruct (callback_advances env J 10 "Converting FBX to SMD using Blender..." w)
    as (w1 & E1 & A1).
  rewrite (bind_Ok _ _ _ _ _ E1).
  pose proof (quiet_convert_fbx_to_smd env fbx_path d w1) as Q2.
  destruct (_convert_fbx_to_smd env fbx_path d w1) as [[smd_files|e] w2] eqn:E2;
    cbn in Q2.
  2:{ rewrite (bind_Raise _ _ _ _ _ E2). exists [10]. cbn [fst snd].
      split; [eapply advances_then_quiet; eassumption | cbn; auto]. }
  rewrite (bind_Ok _ _ _ _ _ E2).
  assert (A2 : advances J [10] w w2) by (eapply advances_then_quiet; eassumption).
  destruct (callback_advances env J 40 "Generating QC file..." w2) as (w3 & E3 & A3).
  rewrite (bind_Ok _ _ _ _ _ E3).
  assert (A3' : advances J [10; 40] w w3)
    by (apply (advances_trans J [10] [40] w w2 w3); assumption).
  pose proof (quiet_generate_qc_file env fbx_path smd_files d scale bodygroup_name w3)
    as Q4.
  destruct (_generate_qc_file env fbx_path smd_files d scale bodygroup_name w3)
    as [[qc_file|e] w4] eqn:E4; cbn in Q4.
  2:{ rewrite (bind_Raise _ _ _ _ _ E4). exists [10; 40]. cbn [fst snd].
      split; [eapply advances_then_quiet; eassumption | cbn; auto]. }
  rewrite (bind_Ok _ _ _ _ _ E4).
  assert (A4 : advances J [10; 40] w w4) by (eapply advances_then_quiet; eassumption).
  destruct (callback_advances env J 60 "Compiling MDL file..." w4) as (w5 & E5 & A5).
  rewrite (bind_Ok _ _ _ _ _ E5).
  assert (A5' : advances J [10; 40; 60] w w5)
    by (apply (advances_trans J [10; 40] [60] w w4 w5); assumption).
  pose proof (quiet_compile_mdl env qc_file d w5) as Q6.
  destruct (_compile_mdl env qc_file d w5) as [[mdl_files|e] w6] eqn:E6; cbn in Q6.
  2:{ rewrite (bind_Raise _ _ _ _ _ E6). exists [10; 40; 60]. cbn [fst snd].
      split; [eapply advances_then_quiet; eassumption | cbn; auto]. }
  rewrite (bind_Ok _ _ _ _ _ E6). cbv zeta.
  assert (A6 : advances J [10; 40; 60] w w6) by (eapply advances_then_quiet; eassumption).
  destruct (callback_advances env J 90 "Copying results..." w6) as (w7 & E7 & A7).
  rewrite (bind_Ok _ _ _ _ _ E7).
  assert (A7' : advances J [10; 40; 60; 90] w w7)
    by (apply (advances_trans J [10; 40; 60] [90] w w6 w7); assumption).
  pose proof (quiet_copy_results env output_dir (smd_files ++ [qc_file] ++ mdl_files) w7)
    as Q8.
  match goal with
  | |- context [bind (collect ?l ?body) ?k w7] =>
      destruct (collect l body w7) as [[final_files|e] w8] eqn:E8
  end; cbn in Q8.
  2:{ rewrite (bind_Raise _ _ _ _ _ E8). exists [10; 40; 60; 90]. cbn [fst snd].
      split; [eapply advances_then_quiet; eassumption | cbn; auto]. }
  rewrite (bind_Ok _ _ _ _ _ E8).
  assert (A8 : advances J [10; 40; 60; 90] w w8)
    by (eapply advances_then_quiet; eassumption).
  destruct (callback_advances env J 100 "Conversion completed!" w8) as (w9 & E9 & A9).
  rewrite (bind_Ok _ _ _ _ _ E9).
  exists checkpoints. cbn [ret fst snd].
  split; [apply (advances_trans J [10; 40; 60; 90] [100] w w8 w9); assumption|].
  split; [reflexivity|]. eexists _, _. split; [reflexivity|].
  apply copy_results_shape in E8.
  eapply Forall_impl; [exact E8|]. intros p (f & _ & ->). eauto.
Qed.

End Reports.

(** With the callback of the worker, [convert_fbx_to_mdl] has reported
    progress 100 exactly when it returns success.  A success comes after
    the five checkpoints 10, 40, 60, 90, 100 in this order, and every
    file it names lies in the output directory; a failure, or a fault
    that escapes, comes after an initial run of the checkpoints that
    stops before 100. *)
Theorem convert_reports_100_iff_success
  (env : Sys.Env) (J fbx_path output_dir : string) (scale : Sys.pyfloat)
  (bodygroup_name : string) (w : Sys.World) :
  let o := FBXProcessor.convert_fbx_to_mdl env fbx_path output_dir scale bodygroup_name
             (Some (App.progress_callback env J)) w in
  exists ext,
    WorkerNotions.progress_values J (Sys.trace (snd o))
    = WorkerNotions.progress_values J (Sys.trace w) ++ ext /\
    match fst o with
    | Sys.Ok (FBXProcessor.Success files _) =>
        ext = WorkerNotions.checkpoints /\
        Forall (fun p => exists f, p = Py.join output_dir (Py.basename f)) files
    | _ => In ext [[]; [10]; [10; 40]; [10; 40; 60]; [10; 40; 60; 90]]
    end.
Proof.
  cbv zeta.
  destruct (Sys.env_fault env (Sys.OpMkdtemp "fbx_conversion_") w) as [e|] eqn:Hmk.
  - exists []. unfold FBXProcessor.convert_fbx_to_mdl.
    erewrite bind_Raise; cycle 1.
    { unfold IO.mkdtemp. erewrite bind_Raise; [reflexivity|].
      unfold IO.perform. rewrite Hmk. reflexivity. }
    cbn [fst snd Sys.trace Sys.record]. rewrite progress_values_app. cbn.
    split; [reflexivity | auto].
  - rewrite (convert_unfold env) by exact Hmk.
    set (d := PipelineNotions.scratch_dir env w).
    set (w1 := PipelineNotions.after_mkdtemp env w).
    assert (Q1 : WorkerNotions.quiet w w1).
    { pose proof (quiet_mkdtemp env "fbx_conversion_" w) as Q.
      now rewrite (mkdtemp_ok env w Hmk) in Q. }
    destruct (pipeline_reports env J fbx_path output_dir scale bodygroup_name d w1)
      as (ext & A & Hcase).
    assert (Hclean : forall w0, exists w3,
               FBXProcessor.cleanup d w0 = (Sys.Ok tt, w3) /\ WorkerNotions.quiet w0 w3).
    { intros w0. pose proof (quiet_cleanup d w0) as Q.
      destruct (cleanup_spec d w0 (scratch_dir_nonempty env w)) as (Hok & _).
      destruct (FBXProcessor.cleanup d w0) as [[[]|e] w3]; cbn in Hok, Q;
        [eauto | discriminate]. }
    assert (Hpv : forall w2 w3, WorkerNotions.advances J ext w1 w2 ->
                                WorkerNotions.quiet w2 w3 ->
               WorkerNotions.progress_values J (Sys.trace w3)
               = WorkerNotions.progress_values J (Sys.trace w) ++ ext).
    { intros w2 w3 [Ha _] [_ Hq]. destruct Q1 as [_ Hq1].
      now rewrite Hq, Ha, Hq1. }
    exists ext. unfold Sys.try_finally, Sys.try_except.
    destruct (FBXProcessor.pipeline env fbx_path output_dir scale bodygroup_name
                (Some (App.progress_callback env J)) d w1) as [[r|e] w2];
      cbn [fst snd] in A, Hcase.
    + destruct (Hclean w2) as (w3 & -> & Q3). cbn [fst snd].
      split; [now apply (Hpv w2 w3)|].
      destruct Hcase as (-> & files & text & -> & Hfiles). auto.
    + unfold Sys.on_Exception, Sys.ret.
      destruct (Sys.is_Exception e); destruct (Hclean w2) as (w3 & -> & Q3);
        cbn [fst snd]; (split; [now apply (Hpv w2 w3)|]); now right.
Qed.

(** ** app.py: the registry and the read-only endpoints *)

Section RegistryFrame.
Import Py Sys IO App.








Lemma status_eqb_eq (a b : Job.status) : Job.status_eqb a b = true <-> a = b.
Proof. destruct a, b; cbn; split; intros H; congruence. Qed.

Lemma last_ten_suffix {A} (l : list A) :
  exists older, l = older ++ last_ten l /\
                length (last_ten l) = Nat.min 10 (length l).
Proof.
  unfold last_ten. exists (List.firstn (length l - 10) l).
  split; [symmetry; apply List.firstn_skipn|].
  rewrite List.length_skipn. lia.
Qed.

End RegistryFrame.



(** A status query that finds a job it does not evict changes nothing
    and answers with code 200 and the last entries of the job's log: the
    whole log when it has at most ten entries, its last ten otherwise. *)
Theorem status_reports_last_ten_log_entries
  (env : Sys.Env) (job_id : string) (job : Job.t) (w : Sys.World) :
  Sys.jobs w !! job_id = Some job ->
  App.is_terminal (Job.job_status job)
    && (Job.created_at job <? Sys.env_time env w - App.one_hour) = false ->
  exists older shown,
    App.get_job_status env job_id w
    = (Sys.Ok (App.mkResponse 200
                 (App.StatusBody (Job.job_id job) (Job.job_status job)
                    (Job.progress job) shown (Job.error_message job)
                    (bool_decide (is_Some (Job.result_file job))))), w) /\
    Job.log job = older ++ shown /\
    length shown = Nat.min 10 (length (Job.log job)).
Proof.
  intros Hjob Hkeep.
  destruct (last_ten_suffix (Job.log job)) as (older & Happ & Hlen).
  exists older, (App.last_ten (Job.log job)).
  split; [|split; assumption].
  unfold App.get_job_status, Sys.bind, Sys.get. rewrite Hjob, Hkeep.
  unfold Sys.ret, App.status_response. repeat f_equal.
  destruct (Job.result_file job); reflexivity.
Qed.

Lemma status_reports_last_ten_log_entries_witness :
  let env := Scenario.make_env 7200 Scenario.run_ok Scenario.no_fault in
  let job := Job.append_log "b" (Job.append_log "a" (Job.new "job-1" 0)) in
  let w := Sys.set_jobs {[ "job-1" := job ]} Scenario.empty_world in
  Sys.jobs w !! "job-1" = Some job /\
  App.is_terminal (Job.job_status job)
    && (Job.created_at job <? Sys.env_time env w - App.one_hour) = false /\
  exists older shown,
    App.get_job_status env "job-1" w
    = (Sys.Ok (App.mkResponse 200
                 (App.StatusBody "job-1" Job.queued 0 shown None false)), w) /\
    ["a"; "b"] = older ++ shown /\ length shown = 2%nat.
Proof.
  cbv zeta. split; [reflexivity|]. split; [reflexivity|].
  exact (status_reports_last_ten_log_entries
           (Scenario.make_env 7200 Scenario.run_ok Scenario.no_fault) "job-1"
           (Job.append_log "b" (Job.append_log "a" (Job.new "job-1" 0)))
           (Sys.set_jobs
              {[ "job-1" := Job.append_log "b" (Job.append_log "a" (Job.new "job-1" 0)) ]}
              Scenario.empty_world)
           eq_refl eq_refl).
Defined.

(** The health check changes nothing and never raises; its total is the
    size of the registry, its number of active jobs is at most the
    total, and it is 0 exactly when no job of the registry has the
    status processing. *)
Theorem health_check_counts (w : Sys.World) :
  exists active total,
    Endpoints.health_check w = (Sys.Ok (active, total), w) /\
    total = size (Sys.jobs w) /\
    (active <= total)%nat /\
    (active = 0%nat <->
     forall k j, Sys.jobs w !! k = Some j -> Job.job_status j <> Job.processing).
Proof.
  unfold Endpoints.health_check, Sys.bind, Sys.get, Sys.ret.
  eexists _, _. split; [reflexivity|]. split; [|split].
  - rewrite length_map. apply length_map_to_list.
  - apply List.filter_length_le.
  - split.
    + intros H0 k j Hk Hp.
      apply List.length_zero_iff_nil in H0.
      assert (Hin : In j (List.filter
                (fun j => Job.status_eqb (Job.job_status j) Job.processing)
                (map snd (map_to_list (Sys.jobs w))))).
      { apply List.filter_In. split.
        - apply in_map_iff. exists (k, j). split; [reflexivity|].
          apply list_elem_of_In. now apply elem_of_map_to_list.
        - now apply status_eqb_eq. }
      rewrite H0 in Hin. destruct Hin.
    + intros Hnone.
      destruct (List.filter _ _) as [|j rest] eqn:E; [reflexivity|].
      exfalso.
      assert (Hin : In j (j :: rest)) by (left; reflexivity).
      rewrite <- E in Hin. apply List.filter_In in Hin. destruct Hin as [Hin Hs].
      apply in_map_iff in Hin. destruct Hin as ([k j'] & Hj & Hin). cbn in Hj. subst j'.
      apply list_elem_of_In in Hin. apply elem_of_map_to_list in Hin.
      apply (Hnone k j Hin). now apply status_eqb_eq.
Qed.

(** A download request changes nothing and never raises.  It sends a
    file exactly when the job is in the registry with the status
    completed, a non-empty result path is recorded and that path exists;
    the file sent is then the recorded result, as a ZIP attachment
    named after the job.  In every other case the answer is a 404. *)
Theorem download_sends_only_completed_results (job_id : string) (w : Sys.World) :
  exists r,
    Endpoints.download_result job_id w = (Sys.Ok r, w) /\
    (forall path name mime,
       r = Endpoints.Attachment path name mime <->
       (exists job,
          Sys.jobs w !! job_id = Some job /\
          Job.job_status job = Job.completed /\
          Job.result_file job = Some path /\
          path <> EmptyString /\
          Sys.exists_path path (Sys.fs w) = true) /\
       name = "converted_model_" +:+ job_id +:+ ".zip" /\
       mime = "application/zip") /\
    ((forall path name mime, r <> Endpoints.Attachment path name mime) ->
     exists text, r = Endpoints.DownloadError 404 text).
Proof.
  unfold Endpoints.download_result, Sys.bind, Sys.get, Sys.ret, IO.path_exists,
    Sys.bind, Sys.get, Sys.ret.
  destruct (Sys.jobs w !! job_id) as [job|] eqn:Hjob.
  2:{ eexists. split; [reflexivity|]. split; [|eauto].
      intros path name mime. split; [intros H; discriminate H|].
      intros ((job & Hj & _) & _). discriminate Hj. }
  destruct (Job.status_eqb (Job.job_status job) Job.completed) eqn:Hs; cbn [negb orb].
  2:{ eexists. split; [reflexivity|]. split; [|eauto].
      intros path name mime. split; [intros H; discriminate H|].
      intros ((job' & Hj & Hc & _) & _). injection Hj as <-.
      apply status_eqb_eq in Hc. congruence. }
  apply status_eqb_eq in Hs.
  destruct (Job.result_file job) as [p|] eqn:Hp; cbn [Py.truthy negb].
  2:{ eexists. split; [reflexivity|]. split; [|eauto].
      intros path name mime. split; [intros H; discriminate H|].
      intros ((job' & Hj & _ & Hr & _) & _). injection Hj as <-. congruence. }
  destruct (String.eqb p EmptyString) eqn:He; cbn [negb].
  { eexists. split; [reflexivity|]. split; [|eauto].
    intros path name mime. split; [intros H; discriminate H|].
    intros ((job' & Hj & _ & Hr & Hne & _) & _). injection Hj as <-.
    apply String.eqb_eq in He. congruence. }
  apply String.eqb_neq in He.
  destruct (Sys.exists_path p (Sys.fs w)) eqn:Hex; cbn [negb].
  - eexists. split; [reflexivity|]. split.
    + intros path name mime. split.
      * intros [= <- <- <-]. split; [|auto]. exists job. auto.
      * intros ((job' & Hj & _ & Hr & _) & -> & ->). injection Hj as <-.
        congruence.
    + intros Hno. exfalso. eapply Hno. reflexivity.
  - eexists. split; [reflexivity|]. split; [|eauto].
    intros path name mime. split; [intros H; discriminate H|].
    intros ((job' & Hj & _ & Hr & _ & Hx) & _). injection Hj as <-.
    congruence.
Qed.

(** ** app.py: the upload handler and the worker, end to end *)

Section UploadPaths.
Import Py Sys IO App.
Variable env : Env.

(** When it returns, [create_and_dispatch] answers 200. *)
Lemma create_and_dispatch_code (file : SecurityValidator.FileStorage) (scale : pyfloat)
  (bodygroup_name : string) (w w' : World) (r : response) :
  create_and_dispatch env file scale bodygroup_name w = (Ok r, w') -> code r = 200.
Proof.
  unfold create_and_dispatch. unfold bind at 1, get. cbv zeta.
  unfold bind at 1, modify.
  match goal with |- context [bind (save env file ?p) ?k ?w1] =>
    unfold bind at 1; destruct (save env file p w1) as [[u|e] w2]
  end; [|intros H; discriminate H].
  match goal with |- context [bind (start_thread env ?t) ?k w2] =>
    unfold bind at 1; destruct (start_thread env t w2) as [[u'|e] w3]
  end; [|intros H; discriminate H].
  unfold ret. intros [= <- _]. reflexivity.
Qed.

Lemma lookup_delete_file (p : string) (l : list (string * fdata)) :
  lookup_file p (List.filter (fun e => negb (String.eqb p (fst e))) l) = None.
Proof.
  induction l as [|[q x] l IH]; cbn; [reflexivity|].
  destruct (String.eqb p q) eqn:E; cbn; [exact IH|]. now rewrite E.
Qed.

(** The [finally] clause of the worker leaves no file at the upload
    path, unless the removal itself is made to fail. *)
Lemma remove_upload_removes (fbx_path : string) (w : World) :
  (forall w0, env_fault env (OpRemove fbx_path) w0 = None) ->
  is_file fbx_path (fs (snd (remove_upload env fbx_path w))) = false.
Proof.
  intros Hnf.
  unfold remove_upload, try_except, path_exists, remove, perform.
  unfold bind, get, ret. cbn beta iota.
  destruct (exists_path fbx_path (fs w)) eqn:Hex.
  - rewrite Hnf. cbn [fs record].
    destruct (is_file fbx_path (fs w)) eqn:Hf.
    + unfold modify. cbn. unfold is_file, delete_file. cbn.
      now rewrite lookup_delete_file.
    + unfold raise, on_Exception, OSError. cbn. exact Hf.
  - cbn. unfold exists_path in Hex. now apply orb_false_iff in Hex.
Qed.

End UploadPaths.

(** An upload that passes every check, on a system where no operation
    fails and the upload directory exists, is answered 200 with the new
    job id; the registry then holds a fresh job under that id (queued,
    progress 0, no result, no error), the upload path holds the bytes
    of the file from their start, and exactly one worker is started,
    with the job id, the upload path, the parsed scale and the
    bodygroup name of the request. *)
Theorem accepted_upload_starts_one_worker
  (env : Sys.Env) (req : App.request) (file : SecurityValidator.FileStorage)
  (scale : Sys.pyfloat) (w : Sys.World) :
  let now := Sys.env_time env w in
  let ip := App.client_ip_of req in
  let w1 := Sys.set_limiter (snd (RateLimiter.is_allowed now ip (Sys.limiter w))) w in
  let job_id := Sys.env_uuid env w1 in
  let upload_path :=
    Py.join App.UPLOAD_FOLDER
      (job_id +:+ "_" +:+ Sys.env_secure_filename env (SecurityValidator.filename file)) in
  fst (RateLimiter.is_allowed now ip (Sys.limiter w)) = true ->
  App.file_field req = Some file ->
  fst (SecurityValidator.validate_file (Sys.env_magic env) (Sys.env_decode env) file)
    = true ->
  Sys.env_float env (default "1.0" (App.form_scale req)) = Some scale ->
  Sys.float_le_0 scale || Sys.float_gt_100 scale = false ->
  (forall o w0, Sys.env_fault env o w0 = None) ->
  Sys.is_dir (Py.dirname upload_path) (Sys.fs w) = true ->
  exists w',
    App.upload_file env req w
    = (Sys.Ok (App.mkResponse 200
                 (App.UploadBody job_id
                    "File uploaded successfully. Processing started.")), w') /\
    Sys.jobs w' = <[job_id := Job.new job_id (Sys.env_time env w1)]> (Sys.jobs w) /\
    Sys.lookup_file upload_path (Sys.files (Sys.fs w'))
    = Some (Sys.Text (SecurityValidator.data file)) /\
    Sys.threads w'
    = Sys.threads w
      ++ [Sys.mkTask job_id upload_path scale
            (default "default" (App.form_bodygroup_name req))].
Proof.
  intros now ip w1 job_id upload_path Hadm Hfile Hvalid Hscale Hrange Hnf Hdir.
  assert (Hname : String.eqb (SecurityValidator.filename file) EmptyString = false).
  { revert Hvalid. unfold SecurityValidator.validate_file.
    destruct (String.eqb _ _); [intros H; discriminate H | reflexivity]. }
  assert (Hfile' : snd (SecurityValidator.validate_file (Sys.env_magic env)
                          (Sys.env_decode env) file)
                   = SecurityValidator.mkFile (SecurityValidator.filename file)
                       (SecurityValidator.data file) 0).
  { revert Hvalid. unfold SecurityValidator.validate_file. rewrite Hname.
    destruct (negb _); [intros H; discriminate H | reflexivity]. }
  unfold App.upload_file, Sys.try_except.
  unfold Sys.bind at 1, Sys.get. fold now ip.
  destruct (RateLimiter.is_allowed now ip (Sys.limiter w)) as [allowed rl] eqn:E.
  cbn [fst snd] in Hadm, w1. subst allowed.
  unfold Sys.bind at 1, Sys.modify. cbn [negb]. fold w1.
  rewrite Hfile, Hname.
  destruct (SecurityValidator.validate_file (Sys.env_magic env) (Sys.env_decode env) file)
    as [valid file'] eqn:Hv.
  cbn [fst snd] in Hvalid, Hfile'. subst valid file'. cbn [negb].
  rewrite Hscale, Hrange.
  unfold App.create_and_dispatch, App.save, App.start_thread, IO.perform.
  unfold Sys.bind, Sys.get, Sys.modify, Sys.ret.
  fold job_id. cbn [SecurityValidator.filename]. fold upload_path.
  rewrite Hnf. cbn beta iota.
  cbn [Sys.fs Sys.record Sys.set_jobs]. replace (Sys.fs w1) with (Sys.fs w) by reflexivity.
  rewrite Hdir. cbn beta iota. rewrite Hnf. cbn beta iota.
  eexists. split; [reflexivity|].
  cbn. split; [reflexivity|]. split; [|reflexivity].
  apply lookup_store.
Qed.

Lemma accepted_upload_starts_one_worker_witness :
  let env := Scenario.make_env 0 Scenario.run_ok Scenario.no_fault in
  exists w',
    App.upload_file env Scenario.good_request Scenario.empty_world
    = (Sys.Ok (App.mkResponse 200
                 (App.UploadBody "job-1"
                    "File uploaded successfully. Processing started.")), w') /\
    Sys.jobs w' = <[ "job-1" := Job.new "job-1" 0 ]> ∅ /\
    Sys.lookup_file "uploads/job-1_model.fbx" (Sys.files (Sys.fs w'))
    = Some (Sys.Text (SecurityValidator.data Scenario.good_file)) /\
    Sys.threads w'
    = [Sys.mkTask "job-1" "uploads/job-1_model.fbx" (Sys.Finite 1) "default"].
Proof.
  cbv zeta.
  exact (accepted_upload_starts_one_worker
           (Scenario.make_env 0 Scenario.run_ok Scenario.no_fault)
           Scenario.good_request Scenario.good_file (Sys.Finite 1) Scenario.empty_world
           eq_refl eq_refl eq_refl eq_refl eq_refl (fun _ _ => eq_refl) eq_refl).
Defined.

(** An upload that the rate limiter refuses is answered 429 and changes
    nothing but the limiter: no job, no file, no worker, no operation.
    The client's stored list becomes its cleaned list, with no timestamp
    added, so a refused attempt does not extend the client's wait. *)
Theorem refused_upload_changes_only_the_limiter
  (env : Sys.Env) (req : App.request) (w : Sys.World) :
  let now := Sys.env_time env w in
  let ip := App.client_ip_of req in
  let rl := Sys.limiter w in
  fst (RateLimiter.is_allowed now ip rl) = false ->
  exists w',
    App.upload_file env req w
    = (Sys.Ok (App.mkResponse 429
                 (App.ErrorBody
                    "Rate limit exceeded. Please wait before uploading again.")), w') /\
    RateLimiter.get_list ip (RateLimiter.requests (Sys.limiter w'))
    = RateLimiter.clean now (RateLimiter.time_window rl)
        (RateLimiter.get_list ip (RateLimiter.requests rl)) /\
    Sys.jobs w' = Sys.jobs w /\ Sys.threads w' = Sys.threads w /\
    Sys.fs w' = Sys.fs w /\ Sys.trace w' = Sys.trace w.
Proof.
  intros now ip rl Hadm.
  pose proof (is_allowed_stored now ip rl ip) as Hst.
  rewrite decide_True in Hst by reflexivity. cbv zeta in Hst. rewrite Hadm in Hst.
  unfold App.upload_file, Sys.try_except, Sys.bind, Sys.get, Sys.modify, Sys.ret.
  fold now ip rl.
  destruct (RateLimiter.is_allowed now ip rl) as [allowed rl'] eqn:E.
  cbn [fst snd] in Hadm, Hst. subst allowed. cbn [negb].
  eexists. split; [reflexivity|]. cbn. auto.
Qed.

Lemma refused_upload_changes_only_the_limiter_witness :
  let env := Scenario.make_env 10 Scenario.run_ok Scenario.no_fault in
  let w := Sys.set_limiter (RateLimiter.init 0 3600) Scenario.empty_world in
  exists w',
    App.upload_file env Scenario.good_request w
    = (Sys.Ok (App.mkResponse 429
                 (App.ErrorBody
                    "Rate limit exceeded. Please wait before uploading again.")), w') /\
    RateLimiter.get_list "10.0.0.1" (RateLimiter.requests (Sys.limiter w')) = [] /\
    Sys.jobs w' = ∅.
Proof.
  cbv zeta.
  destruct (refused_upload_changes_only_the_limiter
              (Scenario.make_env 10 Scenario.run_ok Scenario.no_fault)
              Scenario.good_request
              (Sys.set_limiter (RateLimiter.init 0 3600) Scenario.empty_world)
              eq_refl) as (w' & Hr & Hl & Hj & _).
  exists w'. split; [exact Hr|]. split; [exact Hl | exact Hj].
Defined.

(** The upload handler lets no [Exception] escape: it answers with one
    of the codes 200, 400, 429 and 500, and only a fault that is no
    [Exception] (an interrupt, a system exit) leaves it as a raise.
    The answer 500 comes only after the client was admitted, so it has
    used one of the client's requests. *)
Theorem upload_answers_or_is_interrupted
  (env : Sys.Env) (req : App.request) (w : Sys.World) :
  let o := App.upload_file env req w in
  match fst o with
  | Sys.Ok r =>
      In (App.code r) [200; 400; 429; 500] /\
      (App.code r = 500 ->
       fst (RateLimiter.is_allowed (Sys.env_time env w) (App.client_ip_of req)
              (Sys.limiter w)) = true)
  | Sys.Raise e => Sys.is_Exception e = false
  end.
Proof.
  cbv zeta. unfold App.upload_file, Sys.try_except.
  match goal with |- context [match ?m w with _ => _ end] =>
    assert (Hbody : forall r w', m w = (Sys.Ok r, w') ->
              In (App.code r) [200; 400; 429] /\
              (fst (RateLimiter.is_allowed (Sys.env_time env w) (App.client_ip_of req)
                      (Sys.limiter w)) = false -> App.code r = 429));
    [|assert (Hraise : forall e w', m w = (Sys.Raise e, w') ->
                fst (RateLimiter.is_allowed (Sys.env_time env w) (App.client_ip_of req)
                       (Sys.limiter w)) = true);
      [|destruct (m w) as [[r|e] w'] eqn:Em]]
  end.
  - intros r w'. unfold Sys.bind at 1, Sys.get.
    destruct (RateLimiter.is_allowed _ _ _) as [allowed rl].
    unfold Sys.bind at 1, Sys.modify. cbn [fst].
    destruct allowed; cbn [negb].
    2:{ unfold Sys.ret. intros [= <- _]. cbn. auto. }
    destruct (App.file_field req) as [file|].
    2:{ unfold Sys.ret. intros [= <- _]. cbn. split; [auto | intros H; discriminate H]. }
    destruct (String.eqb _ _).
    { unfold Sys.ret. intros [= <- _]. cbn. split; [auto | intros H; discriminate H]. }
    destruct (SecurityValidator.validate_file _ _ file) as [valid file'].
    destruct valid; cbn [negb].
    2:{ unfold Sys.ret. intros [= <- _]. cbn. split; [auto | intros H; discriminate H]. }
    destruct (Sys.env_float env _) as [scale|].
    2:{ unfold Sys.ret. intros [= <- _]. cbn. split; [auto | intros H; discriminate H]. }
    destruct (_ || _).
    { unfold Sys.ret. intros [= <- _]. cbn. split; [auto | intros H; discriminate H]. }
    intros H. apply create_and_dispatch_code in H. rewrite H.
    cbn. split; [auto | intros H'; discriminate H'].
  - intros e w'. unfold Sys.bind at 1, Sys.get.
    destruct (RateLimiter.is_allowed _ _ _) as [allowed rl].
    unfold Sys.bind at 1, Sys.modify. cbn [fst].
    destruct allowed; cbn [negb]; [reflexivity|].
    unfold Sys.ret. intros H; discriminate H.
  - destruct (Hbody r w' eq_refl) as [Hin H429]. cbn [fst]. split.
    + cbn in Hin |- *. intuition.
    + intros H500.
      destruct (fst (RateLimiter.is_allowed _ _ _)); [reflexivity|].
      rewrite H429 in H500 by reflexivity. discriminate H500.
  - unfold Sys.on_Exception. destruct (Sys.is_Exception e) eqn:He.
    + cbn. split; [auto 10 | intros _; now apply (Hraise e w')].
    + cbn. exact He.
Qed.

(** Whatever the outcome of the conversion, a worker that finds its job
    leaves no file at the upload path, provided the removal itself is
    not made to fail: the [finally] clause runs after success, after a
    failure and after a fault that escapes. *)
Theorem worker_removes_the_upload
  (env : Sys.Env) (J fbx_path : string) (scale : Sys.pyfloat)
  (bodygroup_name : string) (w : Sys.World) (j : Job.t) :
  Sys.jobs w !! J = Some j ->
  (forall w0, Sys.env_fault env (Sys.OpRemove fbx_path) w0 = None) ->
  Sys.is_file fbx_path
    (Sys.fs (snd (App.process_fbx_job env J fbx_path scale bodygroup_name w))) = false.
Proof.
  intros Hl Hnf. rewrite (process_unfold env J _ _ _ _ _ Hl).
  rewrite try_finally_world. now apply remove_upload_removes.
Qed.

Lemma worker_removes_the_upload_witness :
  let env := Scenario.make_env 0 Scenario.run_ok Scenario.no_fault in
  Sys.is_file "uploads/job-1_model.fbx" (Sys.fs Scenario.world_with_job) = true /\
  Sys.is_file "uploads/job-1_model.fbx"
    (Sys.fs (snd (App.process_fbx_job env "job-1" "uploads/job-1_model.fbx"
                    (Sys.Finite 1) "default" Scenario.world_with_job))) = false.
Proof.
  cbv zeta. split; [reflexivity|].
  exact (worker_removes_the_upload
           (Scenario.make_env 0 Scenario.run_ok Scenario.no_fault)
           "job-1" "uploads/job-1_model.fbx" (Sys.Finite 1) "default"
           Scenario.world_with_job (Job.new "job-1" 0) eq_refl (fun _ => eq_refl)).
Defined.

Lemma worker_progress_monotone_witness :
  let env := Scenario.make_env 0 Scenario.run_ok Scenario.no_fault in
  let w' := snd (App.process_fbx_job env "job-1" "uploads/job-1_model.fbx"
                   (Sys.Finite 1) "default" Scenario.world_with_job) in
  exists ext j',
    WorkerNotions.progress_values "job-1" (Sys.trace w') = [] ++ ext /\
    WorkerNotions.non_decreasing (0 :: ext) /\
    Sys.jobs w' !! "job-1" = Some j' /\
    Job.progress j' = List.last ext 0 /\
    (Job.job_status j' = Job.completed -> Job.progress j' = 100).
Proof.
  cbv zeta.
  exact (worker_progress_monotone
           (Scenario.make_env 0 Scenario.run_ok Scenario.no_fault)
           "job-1" "uploads/job-1_model.fbx" (Sys.Finite 1) "default"
           Scenario.world_with_job (Job.new "job-1" 0) eq_refl
           ltac:(cbn; lia)).
Defined.

Lemma worker_ends_terminal_witness :
  let env := Scenario.make_env 0 Scenario.run_no_smd Scenario.no_fault in
  let o := App.process_fbx_job env "job-1" "uploads/job-1_model.fbx"
             (Sys.Finite 1) "default" Scenario.world_with_job in
  fst o = Sys.Ok tt /\
  exists j', Sys.jobs (snd o) !! "job-1" = Some j' /\
             (Job.job_status j' = Job.completed \/
              (Job.job_status j' = Job.failed /\ is_Some (Job.error_message j'))).
Proof.
  cbv zeta.
  assert (H : fst (App.process_fbx_job
                     (Scenario.make_env 0 Scenario.run_no_smd Scenario.no_fault)
                     "job-1" "uploads/job-1_model.fbx" (Sys.Finite 1) "default"
                     Scenario.world_with_job) = Sys.Ok tt) by (vm_compute; reflexivity).
  split; [exact H|].
  exact (worker_ends_terminal
           (Scenario.make_env 0 Scenario.run_no_smd Scenario.no_fault)
           "job-1" "uploads/job-1_model.fbx" (Sys.Finite 1) "default"
           Scenario.world_with_job (Job.new "job-1" 0) eq_refl H).
Defined.

(** ** app.py: the result archive *)

Section ResultZip.
Import Py Sys IO App ArchiveNotions.
Variable env : Env.
Hypothesis no_fault : forall o w0, env_fault env o w0 = None.

Lemma lookup_store_ne (p q : string) (x : fdata) (l : list (string * fdata)) :
  p <> q -> lookup_file p (store q x l) = lookup_file p l.
Proof.
  intros Hne. apply String.eqb_neq in Hne.
  induction l as [|[r y] l IH]; cbn.
  - now rewrite Hne.
  - destruct (String.eqb q r) eqn:E; cbn.
    + apply String.eqb_eq in E. subst r. now rewrite Hne.
    + now rewrite IH.
Qed.

Lemma same_but_put (zip : string) (x : fdata) (a b : FS) :
  same_but zip a b -> same_but zip (put_file zip x a) b.
Proof.
  intros [Hd Hf]. split; [exact Hd|].
  intros q Hq. cbn. rewrite lookup_store_ne by exact Hq. now apply Hf.
Qed.

Lemma same_but_entry (zip f arc : string) (a b : FS) :
  same_but zip a b -> f <> zip ->
  entry a f arc = entry b f arc /\ exists_path f a = exists_path f b.
Proof.
  intros [Hd Hf] Hne. unfold entry, exists_path, is_file, is_dir.
  rewrite (Hf f Hne), Hd. auto.
Qed.

Lemma entry_missing (x : FS) (f arc : string) :
  exists_path f x = false -> entry x f arc = [].
Proof.
  unfold exists_path, is_file, entry. intros H. apply orb_false_iff in H.
  destruct H as [Hd Hf]. destruct (lookup_file f (files x)); [discriminate Hf|].
  now rewrite Hd.
Qed.

(** One [zipf.write] of a path that exists. *)
Lemma zip_write_spec (zip f arc : string) (ms : list (string * fdata)) (w : World) :
  f <> zip ->
  lookup_file zip (files (fs w)) = Some (Archive ms) ->
  exists_path f (fs w) = true ->
  exists w',
    zip_write env zip f arc w = (Ok tt, w') /\
    fs w' = put_file zip (Archive (ms ++ entry (fs w) f arc)) (fs w) /\
    jobs w' = jobs w.
Proof.
  intros Hne Hzip Hex. unfold zip_write, perform, bind, get, modify, raise.
  rewrite no_fault. cbn [fs record]. rewrite Hzip. unfold entry.
  destruct (lookup_file f (files (fs w))) as [x|] eqn:Hf.
  - eexists. split; [reflexivity|]. cbn. auto.
  - assert (Hd : is_dir f (fs w) = true).
    { unfold exists_path, is_file in Hex. rewrite Hf in Hex.
      now rewrite orb_false_r in Hex. }
    rewrite Hd. eexists. split; [reflexivity|]. cbn. auto.
Qed.

(** The loop over the result files. *)
Lemma zip_loop_spec (zip : string) (x0 : FS) (l : list string) :
  forall (ms : list (string * fdata)) (w : World),
    Forall (fun f => f <> zip) l ->
    same_but zip (fs w) x0 ->
    lookup_file zip (files (fs w)) = Some (Archive ms) ->
    exists w',
      for_each l (fun file_path =>
        (ex <- path_exists file_path ;;
         if ex then zip_write env zip file_path (basename file_path) else ret tt)%io) w
      = (Ok tt, w') /\
      same_but zip (fs w') x0 /\
      lookup_file zip (files (fs w'))
      = Some (Archive (ms ++ flat_map (fun f => entry x0 f (basename f)) l)) /\
      jobs w' = jobs w.
Proof.
  induction l as [|f l IH]; intros ms w Hall Hsame Hzip.
  - exists w. cbn. rewrite app_nil_r. auto.
  - apply Forall_cons in Hall. destruct Hall as [Hf Hall].
    destruct (same_but_entry zip f (basename f) _ _ Hsame Hf) as [Hentry Hexists].
    cbn [for_each flat_map]. unfold bind at 1. unfold bind at 1, path_exists, bind, get, ret.
    destruct (exists_path f (fs w)) eqn:Hex.
    + destruct (zip_write_spec zip f (basename f) ms w Hf Hzip Hex)
        as (w1 & -> & Hfs & Hj).
      destruct (IH (ms ++ entry x0 f (basename f)) w1 Hall) as (w' & Hr & Hs & Hz & Hj').
      * rewrite Hfs. now apply same_but_put.
      * rewrite Hfs, Hentry. cbn. apply lookup_store.
      * exists w'. split; [exact Hr|]. split; [exact Hs|].
        split; [now rewrite Hz, <- app_assoc | congruence].
    + destruct (IH ms w Hall Hsame Hzip) as (w' & Hr & Hs & Hz & Hj').
      exists w'. split; [exact Hr|]. split; [exact Hs|]. split; [|exact Hj'].
      rewrite Hz. rewrite <- Hentry, (entry_missing _ _ _ Hex). reflexivity.
Qed.

End ResultZip.

(** When no operation fails and the directory of the archive exists,
    [create_result_zip] returns and leaves at [zip_path] an archive
    that holds, in this order, one entry per result path that exists,
    named by the last component of the path, and then the upload under
    its name prefixed with [original_], if it still exists; paths that
    do not exist are skipped without an error.  Nothing else on the
    file system changes, and no job is touched.  (The paths are other
    than the archive itself.) *)
Theorem result_zip_holds_existing_results
  (env : Sys.Env) (result_files : list string) (zip_path original_fbx_path : string)
  (w : Sys.World) :
  (forall o w0, Sys.env_fault env o w0 = None) ->
  Sys.is_dir (Py.dirname zip_path) (Sys.fs w) = true ->
  Forall (fun f => f <> zip_path) (original_fbx_path :: result_files) ->
  exists w',
    App.create_result_zip env result_files zip_path original_fbx_path w
    = (Sys.Ok tt, w') /\
    Sys.lookup_file zip_path (Sys.files (Sys.fs w'))
    = Some (Sys.Archive
              (flat_map (fun f => ArchiveNotions.entry (Sys.fs w) f (Py.basename f))
                 result_files
               ++ ArchiveNotions.entry (Sys.fs w) original_fbx_path
                    ("original_" +:+ Py.basename original_fbx_path))) /\
    ArchiveNotions.same_but zip_path (Sys.fs w') (Sys.fs w) /\
    Sys.jobs w' = Sys.jobs w.
Proof.
  intros Hnf Hdir Hall. apply Forall_cons in Hall. destruct Hall as [Hfbx Hall].
  unfold App.create_result_zip, IO.perform.
  unfold Sys.bind at 1. rewrite Hnf.
  unfold Sys.bind at 1, Sys.get. cbn [Sys.fs Sys.record]. rewrite Hdir. cbn [negb].
  unfold Sys.bind at 1, Sys.modify.
  set (w0 := Sys.set_fs _ _).
  assert (Hsame0 : ArchiveNotions.same_but zip_path (Sys.fs w0) (Sys.fs w)).
  { apply same_but_put. split; reflexivity. }
  assert (Hzip0 : Sys.lookup_file zip_path (Sys.files (Sys.fs w0)) = Some (Sys.Archive [])).
  { apply lookup_store. }
  destruct (zip_loop_spec env Hnf zip_path (Sys.fs w) result_files [] w0 Hall Hsame0 Hzip0)
    as (w1 & Hloop & Hsame1 & Hzip1 & Hj1).
  unfold Sys.bind at 1. rewrite Hloop.
  destruct (same_but_entry zip_path original_fbx_path
              ("original_" +:+ Py.basename original_fbx_path) _ _ Hsame1 Hfbx)
    as [Hentry Hexists].
  unfold Sys.bind at 1, IO.path_exists, Sys.bind, Sys.get, Sys.ret.
  destruct (Sys.exists_path original_fbx_path (Sys.fs w1)) eqn:Hex.
  - destruct (zip_write_spec env Hnf zip_path original_fbx_path
                ("original_" +:+ Py.basename original_fbx_path) _ w1 Hfbx Hzip1 Hex)
      as (w2 & -> & Hfs & Hj2).
    exists w2. split; [reflexivity|]. rewrite Hfs. split; [|split].
    + cbn. rewrite lookup_store, Hentry. reflexivity.
    + now apply same_but_put.
    + rewrite Hj2, Hj1. reflexivity.
  - exists w1. split; [reflexivity|]. split; [|split; [exact Hsame1|]].
    + rewrite Hzip1. rewrite <- Hentry, (entry_missing _ _ _ Hex).
      now rewrite app_nil_r.
    + rewrite Hj1. reflexivity.
Qed.

Lemma result_zip_holds_existing_results_witness :
  let env := Scenario.make_env 0 Scenario.run_ok Scenario.no_fault in
  exists w',
    App.create_result_zip env ["uploads/job-1_model.fbx"; "outputs/missing.mdl"]
      "outputs/result.zip" "uploads/gone.fbx" Scenario.world_with_job
    = (Sys.Ok tt, w') /\
    Sys.lookup_file "outputs/result.zip" (Sys.files (Sys.fs w'))
    = Some (Sys.Archive [("job-1_model.fbx", Sys.Text "Kaydara FBX Binary")]).
Proof.
  cbv zeta.
  destruct (result_zip_holds_existing_results
              (Scenario.make_env 0 Scenario.run_ok Scenario.no_fault)
              ["uploads/job-1_model.fbx"; "outputs/missing.mdl"]
              "outputs/result.zip" "uploads/gone.fbx" Scenario.world_with_job
              (fun _ _ => eq_refl) eq_refl
              ltac:(repeat constructor; discriminate))
    as (w' & Hr & Hz & _).
  exists w'. split; [exact Hr | exact Hz].
Defined.
